(** * dea-notebooks: the notebooks' code cells and what they compute

    The repository is a collection of Jupyter notebooks.  This
    development embeds

    - the code cells of the nine notebooks as abstract syntax
      ([PyAst], [Notebooks]), with a kernel model that executes cells in
      listed order and tracks the names bound so far ([Kernel]) and
      read-only analyses of call sites and imports ([Calls]);
    - the numeric cells (band indices, [get_rgb], the forestry
      baseline split, tide interpolation and the site-matching loop) as
      functions over extended rationals ([Num], [Indices], [Rgb],
      [ForestrySplit], [Tides], [Contours], [SiteMatching]);
    - further cells: the table the site-matching loop builds
      ([MatchTable]), the average colour of an area ([AverageColour]),
      the tide filter ([TideFilter]), the tidal intervals
      ([TidalIntervals], [IntervalGroups]) and the forestry change maps
      ([ForestryChange]).

    Floating point values are modelled as exact rationals extended with
    NaN and the two infinities; rounding and signed zeros are not
    modelled. *)

From Stdlib Require Import List String Ascii Bool ZArith QArith Qround Lia Lqa Permutation.
Import ListNotations.
Open Scope string_scope.
Open Scope list_scope.
Open Scope Z_scope.

(* ================================================================== *)
(** * Part I: definitions *)
(* ================================================================== *)

(** ** Abstract syntax of the code cells *)

Module PyAst.

Set Warnings "-register-all".

Inductive binop := Add | Sub | Mul | Div | Pow | BitAnd.
Inductive cmpop := Lt | LtE | Gt | GtE | Eq.

(** Expressions.  A negative numeric literal is a literal; a decimal
    literal is kept as the exact rational it denotes.  [EHole] stands for
    a right-hand side that is missing in the source ([x = ] followed by
    the end of the line). *)
Inductive expr : Type :=
| EName (x : string)
| EInt (n : Z)
| EFloat (q : Q)
| EStr (s : string)
| EBool (b : bool)
| ENone
| EFStr (parts : list expr)
| ETuple (es : list expr)
| EList (es : list expr)
| EDict (kvs : list (expr * expr))
| EAttr (e : expr) (a : string)
| ESub (e : expr) (i : expr)
| ESlice (lo hi : option expr)
| ECall (f : expr) (args : list expr) (kwargs : list (string * expr))
| EBin (op : binop) (l r : expr)
| ENeg (e : expr)
| ECmp (op : cmpop) (l r : expr)
| EAnd (l r : expr)
| EListComp (elt target iter : expr)
| EHole.

Arguments EInt n%_Z.
Arguments EFloat q%_Q.

(** Statements.  [SMagic] is an IPython magic line; a keyword argument
    named ["**"] is a dictionary unpacked into the call. *)
Inductive stmt : Type :=
| SMagic (line : string)
| SImport (module : string) (asname : option string)
| SFromImport (module : string) (names : list (string * option string))
| SAssign (targets : list expr) (value : expr)
| SExpr (e : expr)
| SFor (target iter : expr) (body : list stmt)
| SIf (test : expr) (body : list stmt)
| SDef (name : string) (params : list string) (body : list stmt)
| SReturn (e : expr).

Definition cell := list stmt.

(** A notebook: its title, the file it is stored in, and its code cells
    in listed order (markdown and raw cells are not executed). *)
Record notebook := {
  nb_title : string;
  nb_path : string;
  nb_cells : list cell
}.

End PyAst.
Export PyAst.

(** ** The notebooks *)

(** The code cells of each notebook, statement by statement as the
    Python parser reads them.  Comments are left out; a magic line is
    kept as [SMagic]. *)

Module Notebooks.

(** Site matching: for each sampling site and date, the nearest Sentinel-2
    timestep and its NDCI; the matches are written to MatchedData.csv. *)
Definition Site_matching : notebook :=
  {| nb_title := "Matching satellite images to field samples";
     nb_path := "src/DEA_sandbox/Code_Examples/Site_matching.ipynb";
     nb_cells :=
      [
       [SMagic "%matplotlib inline";
        SImport "datacube" None;
        SFromImport "datacube.utils.geometry" [("CRS", None); ("point", None)];
        SImport "dask" None;
        SFromImport "datetime" [("datetime", None); ("timedelta", None)];
        SImport "matplotlib.pyplot" (Some "plt");
        SImport "numpy" (Some "np");
        SImport "pandas" (Some "pd");
        SImport "sys" None;
        SImport "xarray" (Some "xr");
        SFromImport "sklearn.linear_model" [("LinearRegression", None)];
        SFromImport "scipy.stats" [("spearmanr", None)];
        SFromImport "utils.dea_datahandling" [("load_ard", None)]];
       [SAssign
          [EName "dc"]
          (ECall (EAttr (EName "datacube") "Datacube") [] [("app", EStr "Site_matching")])];
       [SAssign
          [EName "sample_loc_file"]
          (EStr "utils/chlorophyll_sampling_coorong_locations.csv");
        SAssign
          [EName "sample_date_file"]
          (EStr "utils/chlorophyll_sampling_coorong_dates.csv");
        SAssign [EName "obs_window"] (EInt 7)];
       [SAssign
          [EName "locations"]
          (ECall (EAttr (EName "pd") "read_csv") [EName "sample_loc_file"] []);
        SExpr (ECall (EAttr (EName "locations") "head") [] [])];
       [SAssign
          [EName "observations"]
          (ECall (EAttr (EName "pd") "read_csv") [EName "sample_date_file"] []);
        SExpr (ECall (EAttr (EName "observations") "head") [] [])];
       [SAssign
          [EName "site_dates"]
          (EAttr (ESub (EName "observations") (EStr "Date")) "values");
        SAssign [EName "products"] (EList [EStr "s2a_ard_granule"; EStr "s2b_ard_granule"]);
        SAssign [EName "measurements"] (EList [EStr "nbart_red_edge_1"; EStr "nbart_red"]);
        SAssign [EName "red_values"] (EList []);
        SAssign [EName "rededge_values"] (EList []);
        SAssign [EName "ndci_values"] (EList []);
        SAssign [EName "time_deltas"] (EList []);
        SAssign [EName "site_names"] (EList []);
        SAssign [EName "match_values"] (EList []);
        SAssign [EName "match_dates"] (EList []);
        SFor
          (EName "site")
          (ECall (EAttr (EName "locations") "itertuples") [] [])
          [SAssign [EName "site_latitude"] (EAttr (EName "site") "Lat");
           SAssign [EName "site_longitude"] (EAttr (EName "site") "Long");
           SAssign [EName "site_name"] (EAttr (EName "site") "SiteName");
           SAssign [EName "site_count"] (EBin Add (EAttr (EName "site") "Index") (EInt 1));
           SExpr
             (ECall (EName "print") [EFStr [EStr "Processing site: "; EName "site_name"]] []);
           SAssign
             [EName "site_values"]
             (ECall
               (EAttr
                 (ESub
                   (EAttr (EName "observations") "iloc")
                   (ETuple [ESlice None None; EName "site_count"]))
                 "to_list")
               []
               []);
           SAssign
             [EName "site_point_ll"]
             (ECall
               (EName "point")
               [EName "site_longitude"; EName "site_latitude"]
               [("crs", ECall (EName "CRS") [EStr "EPSG:4326"] [])]);
           SAssign
             [EName "site_xy"]
             (ESub
               (EAttr
                 (ECall
                   (EAttr (EName "site_point_ll") "to_crs")
                   [ECall (EName "CRS") [EStr "EPSG:3577"] []]
                   [])
                 "points")
               (EInt 0));
           SAssign [EName "site_x"] (ESub (EName "site_xy") (EInt 0));
           SAssign [EName "site_y"] (ESub (EName "site_xy") (EInt 1));
           SAssign [EName "buffer"] (EFloat (1 # 1000));
           SAssign
             [EName "search_lon"]
             (ETuple
               [EBin Sub (EName "site_longitude") (EName "buffer");
                EBin Add (EName "site_longitude") (EName "buffer")]);
           SAssign
             [EName "search_lat"]
             (ETuple
               [EBin Sub (EName "site_latitude") (EName "buffer");
                EBin Add (EName "site_latitude") (EName "buffer")]);
           SAssign
             [EName "ds_s2"]
             (ECall
               (EName "load_ard")
               [EName "dc"]
               [("products", EName "products");
                ("measurements", EName "measurements");
                ("x", EName "search_lon");
                ("y", EName "search_lat");
                ("output_crs", EStr "EPSG:3577");
                ("resolution", ETuple [EInt (-10); EInt 10]);
                ("lazy_load", EBool true)]);
           SExpr (ECall (EName "print") [EStr "\n"] []);
           SFor
             (ETuple [EName "count"; EName "date_string"])
             (ECall (EName "enumerate") [EName "site_dates"] [])
             [SAssign
                [EName "target_date"]
                (ECall
                  (EAttr (EName "datetime") "strptime")
                  [EName "date_string"; EStr "%d/%m/%Y"]
                  []);
              SAssign
                [EName "ds_closest"]
                (ECall
                  (EAttr (EName "ds_s2") "sel")
                  []
                  [("time", EName "target_date"); ("method", EStr "nearest")]);
              SAssign
                [EName "time_delta"]
                (ECall
                  (EAttr (EName "np") "abs")
                  [EBin Sub
                     (ECall (EAttr (EName "pd") "to_datetime") [EName "target_date"] [])
                     (EAttr (EAttr (EName "ds_closest") "time") "values")]
                  []);
              SIf
                (ECmp LtE (EAttr (EName "time_delta") "days") (EName "obs_window"))
                [SAssign
                   [EName "ds_closest"]
                   (ECall
                     (EAttr (EName "ds_closest") "sel")
                     []
                     [("x", EName "site_x");
                      ("y", EName "site_y");
                      ("method", EStr "nearest")]);
                 SAssign
                   [ESub (EName "ds_closest") (EStr "ndci")]
                   (EBin Div
                     (EBin Sub
                       (EAttr (EName "ds_closest") "nbart_red_edge_1")
                       (EAttr (EName "ds_closest") "nbart_red"))
                     (EBin Add
                       (EAttr (EName "ds_closest") "nbart_red_edge_1")
                       (EAttr (EName "ds_closest") "nbart_red")));
                 SIf
                   (EAnd
                     (ECmp Eq
                       (ECall
                         (EAttr (EName "np") "isnan")
                         [ECall
                            (EAttr (EAttr (EAttr (EName "ds_closest") "ndci") "values") "item")
                            []
                            []]
                         [])
                       (EBool false))
                     (ECmp Eq
                       (ECall
                         (EAttr (EName "np") "isnan")
                         [ESub (EName "site_values") (EName "count")]
                         [])
                       (EBool false)))
                   [SExpr (ECall (EAttr (EName "site_names") "append") [EName "site_name"] []);
                    SExpr
                      (ECall (EAttr (EName "match_dates") "append") [EName "target_date"] []);
                    SExpr
                      (ECall
                        (EAttr (EName "match_values") "append")
                        [ESub (EName "site_values") (EName "count")]
                        []);
                    SExpr
                      (ECall
                        (EAttr (EName "ndci_values") "append")
                        [ECall
                           (EName "round")
                           [ECall
                              (EAttr
                                (EAttr (EAttr (EName "ds_closest") "ndci") "values")
                                "item")
                              []
                              [];
                            EInt 4]
                           []]
                        []);
                    SExpr
                      (ECall
                        (EAttr (EName "red_values") "append")
                        [ECall
                           (EAttr
                             (EAttr (EAttr (EName "ds_closest") "nbart_red") "values")
                             "item")
                           []
                           []]
                        []);
                    SExpr
                      (ECall
                        (EAttr (EName "rededge_values") "append")
                        [ECall
                           (EAttr
                             (EAttr (EAttr (EName "ds_closest") "nbart_red_edge_1") "values")
                             "item")
                           []
                           []]
                        []);
                    SExpr
                      (ECall
                        (EAttr (EName "time_deltas") "append")
                        [ECall (EName "int") [EAttr (EName "time_delta") "days"] []]
                        [])]]]];
        SAssign
          [EName "location_results"]
          (ECall
            (EAttr (EName "pd") "DataFrame")
            [EDict
               [(EStr "SiteName", EName "site_names");
                (EStr "ObservationDate", EName "match_dates");
                (EStr "TimeDelta", EName "time_deltas");
                (EStr "ObservationValue", EName "match_values");
                (EStr "Red", EName "red_values");
                (EStr "RedEdge", EName "rededge_values");
                (EStr "NDCI", EName "ndci_values")]]
            []);
        SAssign [EName "file_path"] (EStr "MatchedData.csv");
        SExpr
          (ECall
            (EAttr (EName "location_results") "to_csv")
            [EName "file_path"]
            [("na_rep", EStr "NaN"); ("index", EBool false)])];
       [SAssign
          [EName "X"]
          (ECall
            (EAttr
              (ECall
                (EAttr (EName "np") "asarray")
                [ESub (EName "location_results") (EStr "NDCI")]
                [])
              "reshape")
            [EInt (-1); EInt 1]
            []);
        SAssign [EName "y"] (ESub (EName "location_results") (EStr "ObservationValue"));
        SAssign
          [EName "x_lin"]
          (ECall
            (EAttr
              (ECall
                (EAttr (EName "np") "linspace")
                [ECall (EAttr (EName "np") "min") [EName "X"] [];
                 ECall (EAttr (EName "np") "max") [EName "X"] [];
                 EInt 100]
                [])
              "reshape")
            [EInt (-1); EInt 1]
            []);
        SAssign [EName "lm"] (ECall (EName "LinearRegression") [] []);
        SAssign [EName "model"] (ECall (EAttr (EName "lm") "fit") [EName "X"; EName "y"] []);
        SAssign
          [EName "predictions"]
          (ECall (EAttr (EName "lm") "predict") [EName "x_lin"] [])];
       [SExpr
          (ECall
            (EAttr (EAttr (EName "location_results") "plot") "scatter")
            []
            [("x", EStr "NDCI"); ("y", EStr "ObservationValue")]);
        SExpr
          (ECall
            (EAttr (EName "plt") "plot")
            [EName "x_lin"; EName "predictions"; EStr "k"]
            []);
        SExpr (ECall (EAttr (EName "plt") "title") [EStr "Linear fit"] []);
        SExpr (ECall (EAttr (EName "plt") "xlabel") [EStr "NDCI"] []);
        SExpr
          (ECall (EAttr (EName "plt") "ylabel") [EStr "Chlorophyll-a Concentration (mg/L)"] []);
        SExpr (ECall (EAttr (EName "plt") "show") [] [])];
       [SAssign
          [EName "pearson_rsq"]
          (ECall (EAttr (EName "lm") "score") [EName "X"; EName "y"] []);
        SAssign
          [EName "spearman_rho"]
          (EAttr (ECall (EName "spearmanr") [EName "X"; EName "y"] []) "correlation");
        SExpr (ECall (EName "print") [EStr "Linear fit results"] []);
        SExpr (ECall (EName "print") [EFStr [EStr "Pearson's R^2 = "; EName "pearson_rsq"]] []);
        SExpr
          (ECall (EName "print") [EFStr [EStr "Spearman's rho = "; EName "spearman_rho"]] [])];
       [SAssign [EName "x"] (ESub (EName "location_results") (EStr "NDCI"));
        SAssign
          [EName "poly_func"]
          (ECall
            (EAttr (EName "np") "poly1d")
            [ECall (EAttr (EName "np") "polyfit") [EName "x"; EName "y"] [("deg", EInt 2)]]
            []);
        SAssign
          [ETuple [EName "poly_coeff"; EName "poly_ssqres"; EName "_"; EName "_"; EName "_"]]
          (ECall
            (EAttr (EName "np") "polyfit")
            [EName "x"; EName "y"]
            [("deg", EInt 2); ("full", EBool true)])];
       [SExpr
          (ECall
            (EAttr (EAttr (EName "location_results") "plot") "scatter")
            []
            [("x", EStr "NDCI"); ("y", EStr "ObservationValue")]);
        SExpr
          (ECall
            (EAttr (EName "plt") "plot")
            [EName "x_lin"; ECall (EName "poly_func") [EName "x_lin"] []; EStr "k"]
            []);
        SExpr (ECall (EAttr (EName "plt") "title") [EStr "Polynomial Fit"] []);
        SExpr (ECall (EAttr (EName "plt") "xlabel") [EStr "NDCI"] []);
        SExpr
          (ECall (EAttr (EName "plt") "ylabel") [EStr "Chlorophyll-a Concentration (mg/L)"] []);
        SExpr (ECall (EAttr (EName "plt") "show") [] [])];
       [SAssign
          [EName "poly_ssqtot"]
          (ECall
            (EAttr (EName "np") "sum")
            [EBin Pow
               (EBin Sub (EName "y") (ECall (EAttr (EName "np") "mean") [EName "y"] []))
               (EInt 2)]
            []);
        SAssign
          [EName "poly_pearson_rsq"]
          (EBin Sub (EInt 1) (EBin Div (EName "poly_ssqres") (EName "poly_ssqtot")));
        SExpr (ECall (EName "print") [EStr "Polynomial fit results"] []);
        SExpr
          (ECall
            (EName "print")
            [EFStr [EStr "Pearson's R^2 = "; ESub (EName "poly_pearson_rsq") (EInt 0)]]
            []);
        SExpr
          (ECall (EName "print") [EFStr [EStr "Spearman's rho = "; EName "spearman_rho"]] [])];
       [SExpr (ECall (EName "print") [EAttr (EName "datacube") "__version__"] [])]
      ] |}.

(** The average colour of Australia with Dask: the first of the two
    notebooks stored in Dask_Average_Colour_Australia.ipynb. *)
Definition Dask_Average_Colour : notebook :=
  {| nb_title := "Dask Example - Average Colour of Australia";
     nb_path := "src/DEA_sandbox/Code_Examples/Dask_Average_Colour_Australia.ipynb";
     nb_cells :=
      [
       [SMagic "%matplotlib inline";
        SImport "datacube" None;
        SImport "numpy" (Some "np");
        SImport "matplotlib.pyplot" (Some "plt");
        SAssign
          [EName "dc"]
          (ECall (EAttr (EName "datacube") "Datacube") [] [("app", EStr "dc-visualize")])];
       [SImport "dask" None;
        SFromImport "dask.distributed" [("Client", None)];
        SAssign
          [EName "client"]
          (ECall (EName "Client") [EStr "dask-datacube-dask.labs:8786"] [])];
       [SAssign [ETuple [EName "latitude"; EName "longitude"]] (ETuple [EInt (-25); EInt 137]);
        SAssign [EName "buffer"] (EInt 5);
        SAssign
          [EName "latitude_range"]
          (ETuple
            [EBin Sub (EName "latitude") (EName "buffer");
             EBin Add (EName "latitude") (EName "buffer")]);
        SAssign
          [EName "longitude_range"]
          (ETuple
            [EBin Sub (EName "longitude") (EName "buffer");
             EBin Add (EName "longitude") (EName "buffer")]);
        SAssign [EName "date_range"] (ETuple [EStr "2017-01-01"; EStr "2017-01-01"])];
       [SMagic "%%time";
        SAssign
          [EName "ds"]
          (ECall
            (EAttr (EName "dc") "load")
            []
            [("product", EStr "ls8_nbart_geomedian_annual");
             ("x", EName "longitude_range");
             ("y", EName "latitude_range");
             ("output_crs", EStr "epsg:3577");
             ("resolution", ETuple [EInt (-30); EInt 30]);
             ("time", EName "date_range");
             ("measurements", EList [EStr "red"; EStr "green"; EStr "blue"]);
             ("dask_chunks", EDict
                               [(EStr "x", EInt 4000);
                                (EStr "y", EInt 4000);
                                (EStr "time", EInt 1)])]);
        SExpr (ECall (EName "print") [EName "ds"] [])];
       [SAssign
          [EName "n_pixels"]
          (EBin Mul
            (ESub (EAttr (EName "ds") "dims") (EStr "x"))
            (ESub (EAttr (EName "ds") "dims") (EStr "y")));
        SAssign
          [EName "n_pixels_billions"]
          (EBin Div (EName "n_pixels") (EBin Pow (EInt 10) (EInt 9)));
        SExpr
          (ECall
            (EName "print")
            [ECall
               (EAttr (EStr "{:2.2f} billion pixels") "format")
               [EName "n_pixels_billions"]
               []]
            [])];
       [SDef "get_rgb"
          ["scaled_ds"]
          [SAssign
             [EName "rgb_values"]
             (EListComp
               (ECall
                 (EName "int")
                 [EBin Mul
                    (ECall
                      (EAttr (EName "np") "clip")
                      [ESub (EName "scaled_ds") (EName "band"); EInt 0; EInt 1]
                      [])
                    (EInt 255)]
                 [])
               (EName "band")
               (EList [EStr "red"; EStr "green"; EStr "blue"]));
           SAssign [ETuple [EName "red"; EName "green"; EName "blue"]] (EName "rgb_values");
           SAssign
             [EName "hex_value"]
             (ECall
               (EAttr (EStr "#{:02x}{:02x}{:02x}") "format")
               [EName "red"; EName "green"; EName "blue"]
               []);
           SReturn (ETuple [EName "rgb_values"; EName "hex_value"])]];
       [SMagic "%%time";
        SAssign
          [EName "average"]
          (ECall
            (EAttr
              (ECall (EAttr (EName "ds") "where") [ECmp Gt (EName "ds") (EInt 0)] [])
              "mean")
            []
            []);
        SAssign [EName "scaling_factor"] (EInt 3000);
        SAssign [EName "scaled_average"] (EBin Div (EName "average") (EName "scaling_factor"));
        SAssign
          [ETuple [EName "rgb"; EName "hex_colour"]]
          (ECall (EName "get_rgb") [EName "scaled_average"] []);
        SExpr
          (ECall
            (EName "print")
            [ECall (EAttr (EStr "Hex Code: {}") "format") [EName "hex_colour"] []]
            []);
        SExpr
          (ECall
            (EName "print")
            [ECall
               (EAttr (EStr "Red: {}, Green: {}, Blue: {}") "format")
               [ESub (EName "rgb") (EInt 0);
                ESub (EName "rgb") (EInt 1);
                ESub (EName "rgb") (EInt 2)]
               []]
            [])];
       [SFromImport "matplotlib.patches" [("Rectangle", None)];
        SAssign
          [ETuple [EName "fig"; EName "ax"]]
          (ECall (EAttr (EName "plt") "subplots") [] [("figsize", ETuple [EInt 5; EInt 5])]);
        SExpr
          (ECall
            (EAttr (EName "ax") "add_patch")
            [ECall
               (EName "Rectangle")
               [ETuple [EFloat (0 # 1); EFloat (0 # 1)]; EFloat (1 # 1); EFloat (1 # 1)]
               [("alpha", EInt 1); ("facecolor", EName "hex_colour")]]
            []);
        SExpr (ECall (EAttr (EName "plt") "show") [] [])]
      ] |}.

(** Tiled, parallel image segmentation: the second notebook stored in
    Dask_Average_Colour_Australia.ipynb. *)
Definition Tiled_Segmentation : notebook :=
  {| nb_title := "Tiled, Parallel Image Segmentation";
     nb_path := "src/DEA_sandbox/Code_Examples/Dask_Average_Colour_Australia.ipynb";
     nb_cells :=
      [
       [SAssign [EName "inputTiff"] (EStr "data/nmdb_Summer2017_18_NDVI_max.tif");
        SAssign [EName "InputKEA"] (EStr "data/nmdb_Summer2017_18_NDVI_max.kea");
        SAssign [EName "ClumpsFile"] (EStr "results/nmdb_Summer2017_18_NDVI_max_OutClumps.kea");
        SAssign
          [EName "meanImageTiff"]
          (EStr "results/nmdb_Summer2017_18_NDVI_max_ClumpMean.tif");
        SAssign [EName "temp"] (EStr "tmps/");
        SAssign [EName "ncpus"] (EInt 5);
        SAssign [EName "validDataTileFraction"] (EFloat (3 # 10));
        SAssign [EName "width"] (EInt 8000);
        SAssign [EName "height"] (EInt 8000)];
       [SFromImport "osgeo" [("gdal", None)];
        SImport "os" None;
        SImport "osr" None;
        SFromImport "rsgislib.segmentation" [("meanImage", None)];
        SImport "rsgislib" None;
        SFromImport "pathos.multiprocessing" [("ProcessingPool", Some "Pool")];
        SImport "dill" None;
        SImport "xarray" (Some "xr");
        SImport "numpy" (Some "np");
        SImport "sys" None;
        SExpr (ECall (EAttr (EAttr (EName "sys") "path") "append") [EStr "../10_Scripts"] []);
        SImport "tiledSegParallel" None;
        SFromImport "SpatialTools" [("geotransform", None)];
        SFromImport "SpatialTools" [("array_to_geotiff", None)]];
       [SExpr
          (ECall
            (EAttr (EName "gdal") "Translate")
            [EName "InputKEA"; EName "inputTiff"]
            [("format", EStr "KEA"); ("outputSRS", EStr "EPSG:3577")])];
       [SExpr
          (ECall
            (EAttr (EName "tiledSegParallel") "performTiledSegmentation")
            [EName "InputKEA"; EName "ClumpsFile"]
            [("tmpDIR", EName "temp");
             ("numClusters", EInt 20);
             ("validDataThreshold", EName "validDataTileFraction");
             ("tileWidth", EName "width");
             ("tileHeight", EName "height");
             ("minPxls", EInt 100);
             ("ncpus", EName "ncpus")])];
       [SExpr
          (ECall
            (EName "meanImage")
            [EName "inputTiff";
             EName "ClumpsFile";
             EName "meanImageTiff";
             EStr "GTIFF";
             EAttr (EName "rsgislib") "TYPE_32FLOAT"]
            [])];
       [SAssign
          [EName "a"]
          (ECall
            (EAttr
              (ECall (EAttr (EName "xr") "open_rasterio") [EName "ClumpsFile"] [])
              "squeeze")
            []
            []);
        SAssign
          [ETuple [EName "transform"; EName "projection"]]
          (ECall
            (EName "geotransform")
            [EName "a"; ETuple [EAttr (EName "a") "x"; EAttr (EName "a") "y"]]
            [("epsg", EInt 3577)]);
        SAssign [ETuple [EName "width"; EName "height"]] (EAttr (EName "a") "shape");
        SExpr
          (ECall
            (EName "array_to_geotiff")
            [EBin Add
               (ESub (EName "ClumpsFile") (ESlice None (Some (EInt (-4)))))
               (EStr ".tif");
             EAttr (EName "a") "values"]
            [("geo_transform", EName "transform");
             ("projection", EName "projection");
             ("nodata_val", EInt (-999))])]
      ] |}.

(** Mine rehabilitation: two calls into the case study's helper module. *)
Definition Mining : notebook :=
  {| nb_title := "Tracking rehabilitation of mines";
     nb_path := "src/DEA_sandbox/Case_Studies/Mining.ipynb";
     nb_cells :=
      [
       [SMagic "%matplotlib inline";
        SFromImport "utils.casestudy_mining_functions"
          [("load_mining_data", None); ("run_mining_app", None)]];
       [SAssign [EName "dataset_fc"] (ECall (EName "load_mining_data") [] [])];
       [SExpr (ECall (EName "run_mining_app") [EName "dataset_fc"] [])]
      ] |}.

(** Forestry change detection: NDVI before and after a baseline date,
    compared by Welch's t-test. *)
Definition Forestry : notebook :=
  {| nb_title := "Detecting change in Australian forestry";
     nb_path := "src/DEA_sandbox/Case_Studies/Forestry.ipynb";
     nb_cells :=
      [
       [SMagic "%matplotlib inline";
        SImport "datacube" None;
        SFromImport "datacube.helpers" [("write_geotiff", None)];
        SFromImport "datacube.utils.geometry" [("CRS", None)];
        SImport "matplotlib.pyplot" (Some "plt");
        SImport "numpy" (Some "np");
        SImport "pandas" (Some "pd");
        SFromImport "scipy" [("stats", None)];
        SImport "sys" None;
        SImport "xarray" (Some "xr");
        SFromImport "utils.dea_datahandling" [("load_ard", None)];
        SFromImport "utils.dea_bandindices" [("calculate_indices", None)];
        SFromImport "utils.dea_plotting" [("display_map", None); ("rgb", None)]];
       [SAssign
          [EName "dc"]
          (ECall (EAttr (EName "datacube") "Datacube") [] [("app", EStr "Change_detection")])];
       [SAssign [EName "latitude"] (ETuple [EFloat (-35271 # 1000); EFloat (-35331 # 1000)]);
        SAssign [EName "longitude"] (ETuple [EFloat (18657 # 125); EFloat (37339 # 250)]);
        SAssign [EName "time"] (ETuple [EStr "2015-01-01"; EStr "2019-09-01"]);
        SAssign [EName "time_baseline"] (EStr "2017-12-01")];
       [SExpr
          (ECall (EName "display_map") [] [("x", EName "longitude"); ("y", EName "latitude")])];
       [SAssign [EName "products"] (EList [EStr "s2a_ard_granule"; EStr "s2b_ard_granule"]);
        SAssign
          [EName "query"]
          (EDict
            [(EStr "x", EName "longitude");
             (EStr "y", EName "latitude");
             (EStr "time", EName "time");
             (EStr "measurements", EList
                                     [EStr "nbart_red";
                                      EStr "nbart_green";
                                      EStr "nbart_blue";
                                      EStr "nbart_nir_1";
                                      EStr "fmask"]);
             (EStr "output_crs", EStr "EPSG:3577");
             (EStr "resolution", ETuple [EInt (-10); EInt 10])]);
        SAssign
          [EName "ds_s2"]
          (ECall
            (EName "load_ard")
            [EName "dc"]
            [("products", EName "products");
             ("min_gooddata", EFloat (7 # 10));
             ("**", EName "query")])];
       [SExpr (ECall (EName "print") [EName "ds_s2"] [])];
       [SAssign [EName "initial_timestep"] (EInt 1);
        SAssign [EName "final_timestep"] (EInt 76);
        SExpr
          (ECall
            (EName "rgb")
            [EName "ds_s2"]
            [("index", EList [EName "initial_timestep"; EName "final_timestep"])])];
       [SAssign
          [EName "ds_s2"]
          (ECall
            (EName "calculate_indices")
            [EName "ds_s2"; EStr "NDVI"]
            [("collection", EStr "ga_sentinel2_1")])];
       [SExpr
          (ECall
            (EAttr
              (EAttr
                (ECall
                  (EAttr (EAttr (EName "ds_s2") "NDVI") "isel")
                  []
                  [("time", EList [EName "initial_timestep"; EName "final_timestep"])])
                "plot")
              "imshow")
            [EStr "x"; EStr "y"]
            [("col", EStr "time");
             ("cmap", EStr "RdYlGn");
             ("vmin", EInt 0);
             ("vmax", EInt 1);
             ("figsize", ETuple [EInt 18; EInt 6])]);
        SExpr (ECall (EAttr (EName "plt") "show") [] [])];
       [SAssign
          [EName "baseline_sample"]
          (ECall
            (EAttr (EAttr (EName "ds_s2") "NDVI") "sel")
            []
            [("time", ECmp LtE
                        (ESub (EName "ds_s2") (EStr "time"))
                        (ECall (EAttr (EName "np") "datetime64") [EName "time_baseline"] []))]);
        SExpr
          (ECall
            (EName "print")
            [EFStr
               [EStr "Number of observations in baseline sample: ";
                ECall (EName "len") [EAttr (EName "baseline_sample") "time"] []]]
            []);
        SAssign
          [EName "postbaseline_sample"]
          (ECall
            (EAttr (EAttr (EName "ds_s2") "NDVI") "sel")
            []
            [("time", ECmp Gt
                        (ESub (EName "ds_s2") (EStr "time"))
                        (ECall (EAttr (EName "np") "datetime64") [EName "time_baseline"] []))]);
        SExpr
          (ECall
            (EName "print")
            [EFStr
               [EStr "Number of observations in postbaseline sample: ";
                ECall (EName "len") [EAttr (EName "postbaseline_sample") "time"] []]]
            []);
        SAssign [EName "sample_lat_coords"] (ESub (EAttr (EName "ds_s2") "coords") (EStr "y"));
        SAssign [EName "sample_lon_coords"] (ESub (EAttr (EName "ds_s2") "coords") (EStr "x"))];
       [SAssign
          [ETuple [EName "tstat"; EName "p_tstat"]]
          (ECall
            (EAttr (EName "stats") "ttest_ind")
            [EAttr (EName "postbaseline_sample") "values";
             EAttr (EName "baseline_sample") "values"]
            [("equal_var", EBool false); ("nan_policy", EStr "omit")]);
        SAssign
          [EName "t_test"]
          (ECall
            (EAttr (EName "xr") "Dataset")
            [EDict
               [(EStr "t_stat", ETuple [EList [EStr "y"; EStr "x"]; EName "tstat"]);
                (EStr "p_val", ETuple [EList [EStr "y"; EStr "x"]; EName "p_tstat"])]]
            [("coords", EDict
                          [(EStr "x", ETuple
                                        [EList [EStr "x"];
                                         EAttr (EName "sample_lon_coords") "values"]);
                           (EStr "y", ETuple
                                        [EList [EStr "y"];
                                         EAttr (EName "sample_lat_coords") "values"])]);
             ("attrs", EDict [(EStr "crs", EStr "EPSG:3577")])]);
        SExpr (ECall (EName "print") [EName "t_test"] [])];
       [SAssign [EName "sig_level"] (EFloat (1 # 20));
        SAssign
          [EName "diff_mean"]
          (EBin Sub
            (ECall
              (EAttr (EName "postbaseline_sample") "mean")
              []
              [("dim", EList [EStr "time"])])
            (ECall (EAttr (EName "baseline_sample") "mean") [] [("dim", EList [EStr "time"])]));
        SAssign
          [ETuple [EName "fig"; EName "ax"]]
          (ECall
            (EAttr (EName "plt") "subplots")
            [EInt 1; EInt 1]
            [("figsize", ETuple [EInt 7; EInt 5])]);
        SExpr (ECall (EAttr (EName "diff_mean") "plot") [] [("cmap", EStr "RdBu")]);
        SExpr (ECall (EAttr (EName "ax") "set_title") [EStr "Any difference in the mean"] []);
        SExpr (ECall (EAttr (EName "plt") "show") [] []);
        SAssign
          [EName "sig_diff_mean"]
          (EBin Sub
            (ECall
              (EAttr
                (ECall
                  (EAttr (EName "postbaseline_sample") "mean")
                  []
                  [("dim", EList [EStr "time"])])
                "where")
              [ECmp Lt (EAttr (EName "t_test") "p_val") (EName "sig_level")]
              [])
            (ECall
              (EAttr
                (ECall
                  (EAttr (EName "baseline_sample") "mean")
                  []
                  [("dim", EList [EStr "time"])])
                "where")
              [ECmp Lt (EAttr (EName "t_test") "p_val") (EName "sig_level")]
              []));
        SAssign
          [ETuple [EName "fig"; EName "ax"]]
          (ECall
            (EAttr (EName "plt") "subplots")
            [EInt 1; EInt 1]
            [("figsize", ETuple [EInt 7; EInt 5])]);
        SExpr (ECall (EAttr (EName "sig_diff_mean") "plot") [] [("cmap", EStr "RdBu")]);
        SExpr
          (ECall
            (EAttr (EName "ax") "set_title")
            [EStr "Statistically significant difference in the mean"]
            []);
        SExpr (ECall (EAttr (EName "plt") "show") [] [])];
       [SAssign
          [EName "diff_mean_out"]
          (ECall
            (EAttr (EName "xr") "Dataset")
            [EDict [(EStr "diff_mean", EName "diff_mean")]]
            [("attrs", EDict [(EStr "crs", ECall (EName "CRS") [EStr "EPSG:3577"] [])])]);
        SAssign
          [EName "sig_diff_mean_out"]
          (ECall
            (EAttr (EName "xr") "Dataset")
            [EDict [(EStr "sig_diff_mean", EName "sig_diff_mean")]]
            [("attrs", EDict [(EStr "crs", ECall (EName "CRS") [EStr "EPSG:3577"] [])])]);
        SExpr
          (ECall
            (EName "write_geotiff")
            []
            [("filename", EStr "ttest_diff_mean.tif"); ("dataset", EName "diff_mean_out")]);
        SExpr
          (ECall
            (EName "write_geotiff")
            []
            [("filename", EStr "ttest_sig_diff_mean.tif");
             ("dataset", EName "sig_diff_mean_out")])];
       [SExpr (ECall (EName "print") [EAttr (EName "datacube") "__version__"] [])]
      ] |}.

(** Coastal erosion (src/unnamed/part_000): MNDWI, tide tagging,
    two-yearly medians and their waterlines. *)
Definition Coastal_Erosion : notebook :=
  {| nb_title := "Coastal Erosion Case Study";
     nb_path := "src/unnamed/part_000";
     nb_cells :=
      [
       [SImport "datacube" None;
        SImport "sys" None;
        SImport "xarray" (Some "xr");
        SImport "pandas" (Some "pd");
        SImport "numpy" (Some "np");
        SImport "matplotlib.pyplot" (Some "plt");
        SFromImport "utils" [("waterline_funcs", None)];
        SFromImport "utils.display" [("display_map", None)]];
       [SAssign [EName "lat_range"] (ETuple [EFloat (-5543 # 200); EFloat (-5551 # 200)]);
        SAssign [EName "lon_range"] (ETuple [EFloat (7671 # 50); EFloat (7673 # 50)]);
        SAssign [EName "time_range"] (ETuple [EStr "1988"; EStr "2018"]);
        SAssign [EName "time_step"] (EStr "2Y");
        SAssign [EName "tide_range"] (ETuple [EFloat (0 # 1); EFloat (7 # 5)])];
       [SExpr
          (ECall
            (EName "display_map")
            []
            [("latitude", EName "lat_range"); ("longitude", EName "lon_range")])];
       [SAssign
          [EName "dc"]
          (ECall (EAttr (EName "datacube") "Datacube") [] [("app", EStr "Coastal erosion")]);
        SAssign
          [EName "query"]
          (EDict
            [(EStr "y", EName "lat_range");
             (EStr "x", EName "lon_range");
             (EStr "time", EName "time_range");
             (EStr "output_crs", EStr "EPSG:28356");
             (EStr "resolution", ETuple [EInt (-30); EInt 30])]);
        SAssign
          [EName "landsat_ds"]
          (ECall
            (EAttr (EName "waterline_funcs") "load_cloudmaskedlandsat")
            [EName "dc"; EName "query"]
            [("bands", EList
                         [EStr "nbart_red";
                          EStr "nbart_green";
                          EStr "nbart_blue";
                          EStr "nbart_swir_1"])]);
        SExpr (ECall (EName "print") [EName "landsat_ds"] [])];
       [SExpr
          (ECall
            (EAttr (EName "waterline_funcs") "rgb")
            [EName "landsat_ds"]
            [("index", EInt 0);
             ("percentile_stretch", ETuple [EFloat (0 # 1); EFloat (9 # 10)])])];
       [SAssign
          [ESub (EName "landsat_ds") (EStr "water_index")]
          (EBin Div
            (EBin Sub (EAttr (EName "landsat_ds") "green") (EAttr (EName "landsat_ds") "swir1"))
            (EBin Add
              (EAttr (EName "landsat_ds") "green")
              (EAttr (EName "landsat_ds") "swir1")));
        SExpr
          (ECall
            (EAttr
              (ECall
                (EAttr (EAttr (EName "landsat_ds") "water_index") "isel")
                []
                [("time", EInt 0)])
              "plot")
            []
            [("cmap", EStr "RdBu");
             ("size", EInt 6);
             ("aspect", EInt 1);
             ("vmin", EFloat (-4 # 5));
             ("vmax", EFloat (4 # 5))]);
        SExpr (ECall (EAttr (EName "plt") "show") [] [])];
       [SAssign
          [EName "landsat_ds"]
          (ECall
            (EAttr (EName "waterline_funcs") "tidal_tag")
            []
            [("ds", EName "landsat_ds"); ("tidepost_lat", ENone); ("tidepost_lon", ENone)]);
        SExpr (ECall (EName "print") [EName "landsat_ds"] [])];
       [SExpr (ECall (EAttr (EAttr (EName "landsat_ds") "tide_height") "plot") [] []);
        SExpr
          (ECall
            (EAttr (EName "plt") "axhline")
            [ESub (EName "tide_range") (EInt 0)]
            [("c", EStr "red"); ("linestyle", EStr "--")]);
        SExpr
          (ECall
            (EAttr (EName "plt") "axhline")
            [ESub (EName "tide_range") (EInt 1)]
            [("c", EStr "red"); ("linestyle", EStr "--")]);
        SExpr (ECall (EAttr (EName "plt") "show") [] [])];
       [SAssign
          [EName "landsat_filtered"]
          (ECall
            (EAttr (EName "landsat_ds") "where")
            [EBin BitAnd
               (ECmp Gt
                 (EAttr (EName "landsat_ds") "tide_height")
                 (ESub (EName "tide_range") (EInt 0)))
               (ECmp Lt
                 (EAttr (EName "landsat_ds") "tide_height")
                 (ESub (EName "tide_range") (EInt 1)))]
            [("drop", EBool true)]);
        SExpr (ECall (EName "print") [EName "landsat_filtered"] [])];
       [SAssign
          [EName "landsat_summaries"]
          (ECall
            (EAttr
              (ECall
                (EAttr
                  (ECall
                    (EAttr (EAttr (EName "landsat_filtered") "water_index") "compute")
                    []
                    [])
                  "resample")
                []
                [("time", EName "time_step")])
              "median")
            [EStr "time"]
            []);
        SExpr
          (ECall
            (EAttr (EName "landsat_summaries") "plot")
            []
            [("col", EStr "time");
             ("cmap", EStr "RdBu");
             ("col_wrap", EInt 4);
             ("aspect", EInt 1);
             ("vmin", EFloat (-4 # 5));
             ("vmax", EFloat (4 # 5))]);
        SExpr (ECall (EAttr (EName "plt") "show") [] [])];
       [SAssign
          [EName "attribute_data"]
          (EDict
            [(EStr "time", EListComp
                             (ESub
                               (ECall (EName "str") [EName "i"] [])
                               (ESlice (Some (EInt 0)) (Some (EInt 10))))
                             (EName "i")
                             (EAttr (EAttr (EName "landsat_summaries") "time") "values"))]);
        SAssign [EName "attribute_dtypes"] (EDict [(EStr "time", EStr "str")]);
        SAssign
          [EName "contour_gdf"]
          (ECall
            (EAttr (EName "waterline_funcs") "contour_extract")
            []
            [("z_values", EList [EInt 0]);
             ("ds_array", EName "landsat_summaries");
             ("ds_crs", EAttr (EName "landsat_ds") "crs");
             ("ds_affine", EAttr (EAttr (EName "landsat_ds") "geobox") "transform");
             ("output_shp", EFStr [EStr "output_waterlines.shp"]);
             ("attribute_data", EName "attribute_data");
             ("attribute_dtypes", EName "attribute_dtypes");
             ("min_vertices", EInt 50)]);
        SExpr
          (ECall
            (EAttr
              (ECall (EAttr (EName "landsat_summaries") "isel") [] [("time", EInt 0)])
              "plot")
            []
            [("size", EInt 12); ("aspect", EInt 1); ("cmap", EStr "Greys")]);
        SExpr
          (ECall
            (EAttr (EName "contour_gdf") "plot")
            []
            [("ax", ECall (EAttr (EName "plt") "gca") [] []); ("cmap", EStr "YlOrRd")]);
        SExpr (ECall (EAttr (EName "plt") "show") [] [])];
       [SExpr
          (ECall
            (EAttr (EName "waterline_funcs") "map_shapefile")
            []
            [("gdf", EName "contour_gdf")])]
      ] |}.

(** Intertidal elevation (src/unnamed/part_001): NDWI, tide heights
    from a file, medians per tidal interval and their depth contours. *)
Definition Intertidal_Elevation : notebook :=
  {| nb_title := "Intertidal elevation modelling case study";
     nb_path := "src/unnamed/part_001";
     nb_cells :=
      [
       [SImport "datacube" None;
        SImport "sys" None;
        SImport "xarray" (Some "xr");
        SImport "pandas" (Some "pd");
        SImport "numpy" (Some "np");
        SImport "matplotlib.pyplot" (Some "plt");
        SFromImport "utils" [("waterline_funcs", None)];
        SFromImport "utils.display" [("display_map", None)]];
       [SAssign [EName "lat_range"] (ETuple [EFloat (-138 # 5); EFloat (-5533 # 200)]);
        SAssign [EName "lon_range"] (ETuple [EFloat (15333 # 100); EFloat (6137 # 40)]);
        SAssign [EName "time_range"] (ETuple [EStr "1987"; EStr "2019"]);
        SAssign
          [EName "tide_file"]
          (EStr "data/tide_heights/moretonbay_-27.552_153.355_tides.csv")];
       [SExpr
          (ECall
            (EName "display_map")
            []
            [("latitude", EName "lat_range"); ("longitude", EName "lon_range")])];
       [SAssign
          [EName "dc"]
          (ECall
            (EAttr (EName "datacube") "Datacube")
            []
            [("app", EStr "Intertidal elevation")]);
        SAssign
          [EName "query"]
          (EDict
            [(EStr "y", EName "lat_range");
             (EStr "x", EName "lon_range");
             (EStr "time", EName "time_range");
             (EStr "output_crs", EStr "EPSG:28356");
             (EStr "resolution", ETuple [EInt (-30); EInt 30])]);
        SAssign
          [EName "landsat_ds"]
          (ECall
            (EAttr (EName "waterline_funcs") "load_cloudmaskedlandsat")
            [EName "dc"; EName "query"]
            [("bands", EList
                         [EStr "nbart_red";
                          EStr "nbart_green";
                          EStr "nbart_blue";
                          EStr "nbart_nir"])]);
        SExpr (ECall (EName "print") [EName "landsat_ds"] [])];
       [SExpr
          (ECall
            (EAttr (EName "waterline_funcs") "rgb")
            [EName "landsat_ds"]
            [("index", EInt 0)])];
       [SAssign
          [ESub (EName "landsat_ds") (EStr "water_index")]
          (EBin Div
            (EBin Sub (EAttr (EName "landsat_ds") "green") (EAttr (EName "landsat_ds") "nir"))
            (EBin Add (EAttr (EName "landsat_ds") "green") (EAttr (EName "landsat_ds") "nir")));
        SExpr
          (ECall
            (EAttr
              (ECall
                (EAttr (EAttr (EName "landsat_ds") "water_index") "isel")
                []
                [("time", EInt 0)])
              "plot")
            []
            [("cmap", EStr "RdBu");
             ("size", EInt 6);
             ("vmin", EFloat (-4 # 5));
             ("vmax", EFloat (4 # 5))]);
        SExpr (ECall (EAttr (EName "plt") "show") [] [])];
       [SAssign
          [EName "tide_data"]
          (ECall
            (EAttr (EName "pd") "read_csv")
            [EName "tide_file"]
            [("parse_dates", EList [EStr "time"]); ("index_col", EStr "time")]);
        SExpr (ECall (EAttr (EName "tide_data") "head") [] [])];
       [SAssign [EName "tide_data_xr"] (ECall (EAttr (EName "tide_data") "to_xarray") [] []);
        SAssign
          [EName "landsat_tideheights"]
          (ECall
            (EAttr (EName "tide_data_xr") "interp")
            []
            [("time", EAttr (EName "landsat_ds") "time")]);
        SAssign
          [ESub (EName "landsat_ds") (EStr "tide_height")]
          (EAttr (EName "landsat_tideheights") "tide_height");
        SExpr (ECall (EAttr (EAttr (EName "landsat_ds") "tide_height") "plot") [] []);
        SExpr (ECall (EAttr (EName "plt") "show") [] [])];
       [SAssign
          [EName "landsat_ds"]
          (ECall (EAttr (EName "landsat_ds") "sortby") [EStr "tide_height"] []);
        SAssign
          [EName "binInterval"]
          (EAttr
            (ECall
              (EAttr (EAttr (EName "landsat_ds") "tide_height") "quantile")
              [ECall (EAttr (EName "np") "linspace") [EInt 0; EFloat (1 # 1); EInt 10] []]
              [])
            "values");
        SAssign
          [EName "tide_intervals"]
          (ECall
            (EAttr (EName "pd") "cut")
            [EAttr (EName "landsat_ds") "tide_height"]
            [("bins", EName "binInterval");
             ("labels", ECall (EName "range") [EInt 1; EInt 10] []);
             ("include_lowest", EBool true)]);
        SAssign
          [ESub (EName "landsat_ds") (EStr "tide_interval")]
          (ECall
            (EAttr (EName "xr") "DataArray")
            [EName "tide_intervals";
             EList [ETuple [EStr "time"; EAttr (EName "landsat_ds") "time"]]]
            []);
        SExpr (ECall (EName "print") [EName "landsat_ds"] [])];
       [SAssign
          [EName "landsat_intervals"]
          (ECall
            (EAttr
              (ECall
                (EAttr
                  (ECall
                    (EAttr
                      (ESub
                        (EName "landsat_ds")
                        (EList [EStr "tide_interval"; EStr "water_index"; EStr "tide_height"]))
                      "compute")
                    []
                    [])
                  "groupby")
                [EStr "tide_interval"]
                [])
              "median")
            []
            [("dim", EStr "time")]);
        SExpr
          (ECall
            (EAttr (EAttr (EName "landsat_intervals") "water_index") "plot")
            []
            [("col", EStr "tide_interval"); ("col_wrap", EInt 5); ("cmap", EStr "RdBu")]);
        SExpr (ECall (EAttr (EName "plt") "show") [] [])];
       [SAssign
          [EName "attribute_data"]
          (EDict
            [(EStr "tide_m", EAttr
                               (EAttr (EName "landsat_intervals") "tide_height")
                               "values")]);
        SAssign [EName "attribute_dtypes"] (EDict [(EStr "tide_m", EStr "float")]);
        SAssign
          [EName "contour_gdf"]
          (ECall
            (EAttr (EName "waterline_funcs") "contour_extract")
            []
            [("z_values", EList [EInt 0]);
             ("ds_array", EAttr (EName "landsat_intervals") "water_index");
             ("ds_crs", EAttr (EName "landsat_ds") "crs");
             ("ds_affine", EAttr (EAttr (EName "landsat_ds") "geobox") "transform");
             ("output_shp", EFStr [EStr "output_depthcontours.shp"]);
             ("attribute_data", EName "attribute_data");
             ("attribute_dtypes", EName "attribute_dtypes");
             ("min_vertices", EInt 5);
             ("dim", EStr "tide_interval")]);
        SAssign
          [ETuple [EName "fig"; EName "ax"]]
          (ECall
            (EAttr (EName "plt") "subplots")
            [EInt 1; EInt 1]
            [("figsize", ETuple [EInt 15; EInt 10])]);
        SExpr
          (ECall
            (EAttr
              (ECall
                (EAttr (EAttr (EName "landsat_intervals") "water_index") "sel")
                []
                [("tide_interval", EInt 1)])
              "plot")
            []
            [("ax", EName "ax"); ("cmap", EStr "Greys")]);
        SExpr
          (ECall
            (EAttr (EName "contour_gdf") "plot")
            []
            [("cmap", EStr "YlOrRd"); ("ax", EName "ax")]);
        SExpr (ECall (EAttr (EName "plt") "show") [] [])];
       [SExpr
          (ECall
            (EAttr (EName "waterline_funcs") "map_shapefile")
            []
            [("gdf", EName "contour_gdf")])];
       [SAssign
          [EName "xyz_array"]
          (ECall
            (EAttr (EName "waterline_funcs") "contours_to_arrays")
            [EName "contour_gdf"; EStr "tide_m"]
            []);
        SAssign
          [EName "intertidal_dem"]
          (ECall
            (EAttr (EName "waterline_funcs") "interpolate_2d")
            []
            [("ds", EName "landsat_intervals");
             ("x_coords", ESub (EName "xyz_array") (ETuple [ESlice None None; EInt 0]));
             ("y_coords", ESub (EName "xyz_array") (ETuple [ESlice None None; EInt 1]));
             ("z_coords", ESub (EName "xyz_array") (ETuple [ESlice None None; EInt 2]))]);
        SExpr
          (ECall
            (EAttr (EName "intertidal_dem") "plot")
            []
            [("cmap", EStr "viridis"); ("size", EInt 8); ("robust", EBool true)]);
        SExpr (ECall (EAttr (EName "plt") "show") [] [])];
       [SAssign
          [EName "above_lowest"]
          (ECmp Lt
            (EAttr
              (ECall (EAttr (EName "landsat_intervals") "isel") [] [("tide_interval", EInt 0)])
              "water_index")
            (EInt 0));
        SAssign
          [EName "below_highest"]
          (ECmp Gt
            (EAttr
              (ECall
                (EAttr (EName "landsat_intervals") "isel")
                []
                [("tide_interval", EInt (-1))])
              "water_index")
            (EInt 0));
        SAssign
          [EName "intertidal_dem_clean"]
          (ECall
            (EAttr (EName "intertidal_dem") "where")
            [EBin BitAnd (EName "above_lowest") (EName "below_highest")]
            []);
        SExpr
          (ECall
            (EAttr (EName "intertidal_dem_clean") "plot")
            []
            [("cmap", EStr "viridis"); ("size", EInt 8); ("robust", EBool true)]);
        SExpr (ECall (EAttr (EName "plt") "show") [] [])]
      ] |}.

(** The Do-it-yourself tutorial (src/unnamed/part_002): five assignments
    are left for the analyst to complete. *)
Definition Do_It_Yourself : notebook :=
  {| nb_title := "Do it yourself";
     nb_path := "src/unnamed/part_002";
     nb_cells :=
      [
       [SAssign [EName "coordinates"] EHole];
       [SAssign [EName "box_size"] EHole;
        SAssign [EName "centre_x"] (ESub (EName "coordinates") (EInt 1));
        SAssign [EName "centre_y"] (ESub (EName "coordinates") (EInt 0));
        SAssign
          [EName "bounding_box_x"]
          (ETuple
            [EBin Sub (EName "centre_x") (EName "box_size");
             EBin Add (EName "centre_x") (EName "box_size")]);
        SAssign
          [EName "bounding_box_y"]
          (ETuple
            [EBin Sub (EName "centre_y") (EName "box_size");
             EBin Add (EName "centre_y") (EName "box_size")])];
       [SMagic "%matplotlib inline";
        SImport "datacube" None;
        SImport "warnings" None;
        SExpr (ECall (EAttr (EName "warnings") "filterwarnings") [EStr "ignore"] []);
        SAssign
          [EName "dc"]
          (ECall (EAttr (EName "datacube") "Datacube") [] [("app", EStr "do-it-yourself")]);
        SAssign
          [EName "dataset"]
          (ECall
            (EAttr (EName "dc") "load")
            []
            [("product", EStr "s2a_nrt_granule");
             ("x", EName "bounding_box_x");
             ("y", EName "bounding_box_y");
             ("resolution", ETuple [EInt (-10); EInt 10]);
             ("output_crs", EStr "epsg:3577");
             ("measurements", ETuple
                                [EStr "nbar_red";
                                 EStr "nbar_green";
                                 EStr "nbar_blue";
                                 EStr "nbar_nir_1"])])];
       [SExpr (ECall (EName "print") [EName "dataset"] [])];
       [SImport "matplotlib.pyplot" (Some "plt");
        SFromImport "utils.dea_plotting" [("rgb", None)];
        SAssign [EName "time_step"] EHole;
        SAssign [EName "bands"] EHole;
        SExpr
          (ECall
            (EName "rgb")
            [EName "dataset"]
            [("bands", EName "bands"); ("index", EName "time_step"); ("size", EInt 10)]);
        SAssign
          [EName "time_string"]
          (ESub
            (ECall
              (EAttr
                (ECall
                  (EName "str")
                  [EAttr
                     (ECall
                       (EAttr (EAttr (EName "dataset") "time") "isel")
                       []
                       [("time", EName "time_step")])
                     "values"]
                  [])
                "split")
              [EStr "."]
              [])
            (EInt 0));
        SAssign [EName "ax"] (ECall (EAttr (EName "plt") "gca") [] []);
        SExpr
          (ECall
            (EAttr (EName "ax") "set_title")
            [EFStr [EStr "Timestep "; EName "time_string"]]
            [("fontweight", EStr "bold"); ("fontsize", EInt 16)]);
        SExpr
          (ECall
            (EAttr (EName "ax") "set_xlabel")
            [EStr "Easting"]
            [("fontweight", EStr "bold")]);
        SExpr
          (ECall
            (EAttr (EName "ax") "set_ylabel")
            [EStr "Northing"]
            [("fontweight", EStr "bold")]);
        SExpr (ECall (EAttr (EName "plt") "show") [] [])];
       [SFromImport "datacube" [("helpers", None)];
        SAssign [EName "filename"] (EStr "example.tiff");
        SExpr
          (ECall
            (EAttr (EName "helpers") "write_geotiff")
            []
            [("dataset", ECall
                           (EAttr (EName "dataset") "isel")
                           []
                           [("time", EName "time_step")]);
             ("filename", EName "filename")])];
       [SAssign [EName "ndvi"] EHole;
        SExpr
          (ECall (EAttr (EName "plt") "figure") [] [("figsize", ETuple [EInt 10; EInt 10])]);
        SExpr
          (ECall
            (EAttr
              (ECall (EAttr (EName "ndvi") "isel") [] [("time", EName "time_step")])
              "plot")
            []
            []);
        SExpr (ECall (EAttr (EName "plt") "show") [] [])]
      ] |}.

(** Cumulative mass residual rainfall. *)
Definition CumulativeMassResidualRainfall : notebook :=
  {| nb_title := "Cumulative Mass Residual Rainfall Calculation";
     nb_path := "src/09_Workflows/CumulativeMassResidualRainfall.ipynb";
     nb_cells :=
      [
       [SMagic "%load_ext autoreload";
        SMagic "%autoreload 2";
        SImport "os.path" None;
        SImport "numpy" (Some "np");
        SImport "sys" None;
        SImport "xarray" (Some "xr");
        SFromImport "datetime" [("datetime", None)];
        SImport "matplotlib.pyplot" (Some "plt");
        SImport "datacube" None;
        SFromImport "datacube.utils" [("geometry", None)];
        SFromImport "datacube.storage.storage" [("write_dataset_to_netcdf", None)];
        SFromImport "datacube.helpers" [("write_geotiff", None)];
        SExpr
          (ECall
            (EAttr (EAttr (EName "sys") "path") "append")
            [ECall
               (EAttr (EAttr (EName "os") "path") "expanduser")
               [EStr "~/dea-notebooks/10_Scripts/"]
               []]
            []);
        SFromImport "RainfallTools" [("load_rainfall", None)]];
       [SAssign
          [EName "query"]
          (EDict
            [(EStr "lat", ETuple [EFloat (-141 # 4); EFloat (-707 # 20)]);
             (EStr "lon", ETuple [EFloat (2981 # 20); EFloat (14917 # 100)]);
             (EStr "time", ETuple [EStr "2010-01-01"; EStr "2013-03-31"])])];
       [SAssign
          [EName "dc"]
          (ECall (EAttr (EName "datacube") "Datacube") [] [("app", EStr "dc-BOMrainfall")]);
        SAssign [EName "rainfall"] (ECall (EName "load_rainfall") [EName "query"] [])];
       [SAssign
          [EName "rainfall_bydayofyear"]
          (ECall (EAttr (EName "rainfall") "groupby") [EStr "time.dayofyear"] [])];
       [SAssign
          [EName "rainfall_dayofyear_mean"]
          (ECall
            (EAttr
              (ECall (EAttr (EName "rainfall") "groupby") [EStr "time.dayofyear"] [])
              "mean")
            []
            [("dim", EStr "time")])];
       [SAssign
          [EName "cumulative_mean_rainfall"]
          (ECall
            (EAttr
              (ESub
                (EAttr (EName "rainfall_dayofyear_mean") "rainfall")
                (EBin Sub
                  (EAttr (EAttr (EAttr (EName "cumulative_rainfall") "time") "dt") "dayofyear")
                  (EInt 1)))
              "cumsum")
            []
            [("dim", EStr "time"); ("keep_attrs", EBool true)])];
       [SAssign
          [EName "mass_residual"]
          (EBin Sub
            (EAttr (EName "cumulative_rainfall") "rainfall")
            (EName "cumulative_mean_rainfall"))];
       [SExpr
          (ECall
            (EAttr
              (ECall
                (EAttr (EName "mass_residual") "mean")
                []
                [("dim", ETuple [EStr "latitude"; EStr "longitude"])])
              "plot")
            []
            [])];
       [SExpr
          (ECall
            (EAttr (ECall (EAttr (EName "mass_residual") "isel") [] [("time", EInt 50)]) "plot")
            []
            [])];
       []
      ] |}.

Definition all_notebooks : list notebook :=
  [Site_matching; Dask_Average_Colour; Tiled_Segmentation; Mining; Forestry;
   Coastal_Erosion; Intertidal_Elevation; Do_It_Yourself;
   CumulativeMassResidualRainfall].

End Notebooks.
Export Notebooks.

(** ** The kernel: executing cells in listed order *)

Module Kernel.

Definition mem (x : string) (l : list string) : bool :=
  existsb (String.eqb x) l.

(** The name a plain [import a.b.c] binds is the top package [a]. *)
Fixpoint top_package (m : string) : string :=
  match m with
  | EmptyString => EmptyString
  | String c r =>
      if Ascii.eqb c "."%char then EmptyString else String c (top_package r)
  end.

Definition imported_name (n : string * option string) : string :=
  match snd n with Some a => a | None => fst n end.

(** Names bound by an assignment or loop target. *)
Fixpoint target_names (t : expr) : list string :=
  match t with
  | EName x => [x]
  | ETuple es | EList es => flat_map target_names es
  | _ => []
  end.

(** Names an expression reads, in evaluation order.  A comprehension
    evaluates its iterable in the enclosing scope and binds its target
    locally. *)
Fixpoint loads (e : expr) : list string :=
  match e with
  | EName x => [x]
  | EInt _ | EFloat _ | EStr _ | EBool _ | ENone | EHole => []
  | EFStr es | ETuple es | EList es => flat_map loads es
  | EDict kvs => flat_map (fun '(k, v) => loads k ++ loads v) kvs
  | EAttr e _ | ENeg e => loads e
  | ESub e i => loads e ++ loads i
  | ESlice lo hi =>
      match lo with Some a => loads a | None => [] end ++
      match hi with Some b => loads b | None => [] end
  | ECall f args kws =>
      loads f ++ flat_map loads args ++ flat_map (fun '(_, v) => loads v) kws
  | EBin _ l r | ECmp _ l r | EAnd l r => loads l ++ loads r
  | EListComp elt t it =>
      loads it ++ filter (fun x => negb (mem x (target_names t))) (loads elt)
  end.

(** Names read when a target is stored to: [ds['k'] = v] reads [ds]. *)
Fixpoint target_loads (t : expr) : list string :=
  match t with
  | EName _ => []
  | ETuple es | EList es => flat_map target_loads es
  | other => loads other
  end.

(** A statement the parser rejects: an assignment without right-hand side. *)
Fixpoint stmt_incomplete (s : stmt) : bool :=
  match s with
  | SAssign _ EHole => true
  | SFor _ _ body | SIf _ body | SDef _ _ body => existsb stmt_incomplete body
  | _ => false
  end.

Definition cell_incomplete (c : cell) : bool := existsb stmt_incomplete c.

(** Execution of a statement against the set of bound names: it either
    reads bound names only, and ends with the names bound afterwards, or
    raises [NameError] at the first unbound name it reads, keeping what
    was bound until then.  Values are not tracked: an exception other
    than [NameError] (a [KeyError], a [ValueError], ...) is outside this
    model.

    A loop body and a conditional body are executed once, which visits
    every read of the body in order.  The body of a [def] is checked when
    the function is defined, with its parameters bound (Python would
    raise at the first call instead). *)
Inductive outcome :=
| Done (env : list string)
| Raised (x : string) (env : list string).

Definition first_unbound (env xs : list string) : option string :=
  find (fun x => negb (mem x env)) xs.

Definition reading (env xs : list string) (k : outcome) : outcome :=
  match first_unbound env xs with
  | Some x => Raised x env
  | None => k
  end.

Fixpoint exec_stmt (env : list string) (s : stmt) {struct s} : outcome :=
  let block :=
    fix block (env : list string) (ss : list stmt) {struct ss} : outcome :=
      match ss with
      | [] => Done env
      | s' :: ss' =>
          match exec_stmt env s' with
          | Done env' => block env' ss'
          | raised => raised
          end
      end in
  match s with
  | SMagic _ => Done env
  | SImport m None => Done (top_package m :: env)
  | SImport _ (Some a) => Done (a :: env)
  | SFromImport _ ns => Done (map imported_name ns ++ env)
  | SAssign ts v =>
      reading env (loads v ++ flat_map target_loads ts)
        (Done (flat_map target_names ts ++ env))
  | SExpr e | SReturn e => reading env (loads e) (Done env)
  | SFor t it body =>
      reading env (loads it ++ target_loads t)
        (block (target_names t ++ env) body)
  | SIf c body => reading env (loads c) (block env body)
  | SDef f ps body =>
      match block (ps ++ f :: env) body with
      | Done _ => Done (f :: env)
      | Raised x _ => Raised x env
      end
  end.

Fixpoint exec_block (env : list string) (ss : list stmt) : outcome :=
  match ss with
  | [] => Done env
  | s :: ss' =>
      match exec_stmt env s with
      | Done env' => exec_block env' ss'
      | raised => raised
      end
  end.

(** What running one cell reports.  A cell with an incomplete statement
    does not parse, so none of it runs and it binds nothing.  [Ran] says
    that the cell parses and that every name it reads is bound when it
    is read; it does not say that the cell raises no other exception. *)
Inductive cell_result :=
| Ran
| SyntaxError
| NameError (x : string).

Definition run_cell (env : list string) (c : cell) : cell_result * list string :=
  if cell_incomplete c then (SyntaxError, env)
  else match exec_block env c with
       | Done env' => (Ran, env')
       | Raised x env' => (NameError x, env')
       end.

(** Cells are run one after the other in listed order; a cell that
    fails leaves the kernel alive for the next one. *)
Fixpoint run_cells (env : list string) (cs : list cell) : list cell_result :=
  match cs with
  | [] => []
  | c :: cs' => let (r, env') := run_cell env c in r :: run_cells env' cs'
  end.

(** Names every Python kernel starts with; the list covers the builtins
    the notebooks use. *)
Definition builtins : list string :=
  ["print"; "range"; "str"; "int"; "float"; "round"; "enumerate"; "len";
   "abs"; "min"; "max"; "sum"; "list"; "dict"; "tuple"; "zip"].

Definition run_notebook (nb : notebook) : list cell_result :=
  run_cells builtins (nb_cells nb).

Definition is_ran (r : cell_result) : bool :=
  match r with Ran => true | _ => false end.

Definition is_name_error (r : cell_result) : bool :=
  match r with NameError _ => true | _ => false end.

Definition executes_cleanly (nb : notebook) : bool :=
  forallb is_ran (run_notebook nb).

Definition no_undefined_reference (nb : notebook) : bool :=
  forallb (fun r => negb (is_name_error r)) (run_notebook nb).

(** Targets of the assignments that lack a right-hand side. *)
Fixpoint stmt_holes (s : stmt) : list string :=
  match s with
  | SAssign ts EHole => flat_map target_names ts
  | SFor _ _ body | SIf _ body | SDef _ _ body => flat_map stmt_holes body
  | _ => []
  end.

Definition incomplete_assignments (nb : notebook) : list string :=
  flat_map (flat_map stmt_holes) (nb_cells nb).

(** The analyst's edit: every missing right-hand side of [x = ] is
    replaced by [fill x]. *)
Fixpoint fill_stmt (fill : string -> expr) (s : stmt) : stmt :=
  match s with
  | SAssign [EName x] EHole => SAssign [EName x] (fill x)
  | SFor t it body => SFor t it (map (fill_stmt fill) body)
  | SIf c body => SIf c (map (fill_stmt fill) body)
  | SDef f ps body => SDef f ps (map (fill_stmt fill) body)
  | other => other
  end.

Definition fill_notebook (fill : string -> expr) (nb : notebook) : notebook :=
  {| nb_title := nb_title nb;
     nb_path := nb_path nb;
     nb_cells := map (map (fill_stmt fill)) (nb_cells nb) |}.

End Kernel.

(** ** Call sites, imports and where a value comes from *)

Module Calls.

Import Kernel.

(** [a.b.c] as the path [["a"; "b"; "c"]]. *)
Fixpoint dotted (e : expr) : option (list string) :=
  match e with
  | EName x => Some [x]
  | EAttr r a => option_map (fun p => p ++ [a]) (dotted r)
  | _ => None
  end.

(** The variable a chain of attribute accesses, subscripts and calls
    starts from. *)
Fixpoint root (e : expr) : option string :=
  match e with
  | EName x => Some x
  | EAttr r _ | ESub r _ | ECall r _ _ => root r
  | _ => None
  end.

(** Every call expression, outermost first. *)
Fixpoint calls (e : expr) : list expr :=
  match e with
  | ECall f args kws =>
      e :: calls f ++ flat_map calls args ++ flat_map (fun '(_, v) => calls v) kws
  | EFStr es | ETuple es | EList es => flat_map calls es
  | EDict kvs => flat_map (fun '(k, v) => calls k ++ calls v) kvs
  | EAttr r _ | ENeg r => calls r
  | ESub r i => calls r ++ calls i
  | ESlice lo hi =>
      match lo with Some a => calls a | None => [] end ++
      match hi with Some b => calls b | None => [] end
  | EBin _ l r | ECmp _ l r | EAnd l r => calls l ++ calls r
  | EListComp elt _ it => calls it ++ calls elt
  | EName _ | EInt _ | EFloat _ | EStr _ | EBool _ | ENone | EHole => []
  end.

Fixpoint stmt_calls (s : stmt) : list expr :=
  match s with
  | SAssign ts v => calls v ++ flat_map calls ts
  | SExpr e | SReturn e => calls e
  | SFor t it body => calls it ++ flat_map stmt_calls body
  | SIf c body => calls c ++ flat_map stmt_calls body
  | SDef _ _ body => flat_map stmt_calls body
  | SMagic _ | SImport _ _ | SFromImport _ _ => []
  end.

Definition notebook_calls (nb : notebook) : list expr :=
  flat_map (flat_map stmt_calls) (nb_cells nb).

(** The function or method name a call applies. *)
Definition callee_name (c : expr) : option string :=
  match c with
  | ECall (EName f) _ _ => Some f
  | ECall (EAttr _ a) _ _ => Some a
  | _ => None
  end.

Definition callee_path (c : expr) : option (list string) :=
  match c with
  | ECall f _ _ => dotted f
  | _ => None
  end.

Definition named (f : string) (c : expr) : bool :=
  match callee_name c with Some g => String.eqb f g | None => false end.

Definition calls_named (nb : notebook) (f : string) : list expr :=
  filter (named f) (notebook_calls nb).

Definition kwarg (c : expr) (k : string) : option expr :=
  match c with
  | ECall _ _ kws => option_map snd (find (fun kw => String.eqb k (fst kw)) kws)
  | _ => None
  end.

Definition positional (c : expr) : list expr :=
  match c with
  | ECall _ args _ => args
  | _ => []
  end.

(** *** Imports *)

Record import := {
  bound : string;
  module : string;
  member : option string
}.

Fixpoint stmt_imports (s : stmt) : list import :=
  match s with
  | SImport m None => [{| bound := top_package m; module := m; member := None |}]
  | SImport m (Some a) => [{| bound := a; module := m; member := None |}]
  | SFromImport m ns =>
      map (fun n => {| bound := imported_name n; module := m;
                       member := Some (fst n) |}) ns
  | SFor _ _ body | SIf _ body | SDef _ _ body => flat_map stmt_imports body
  | _ => []
  end.

Definition notebook_imports (nb : notebook) : list import :=
  flat_map (flat_map stmt_imports) (nb_cells nb).

Definition import_of (nb : notebook) (x : string) : option import :=
  find (fun i => String.eqb (bound i) x) (notebook_imports nb).

(** Modules imported after the cell has appended a scripts directory
    to [sys.path]: these are files of the repository (10_Scripts). *)
Definition is_path_append (s : stmt) : bool :=
  match s with
  | SExpr (ECall f _ _) =>
      match dotted f with
      | Some ["sys"; "path"; "append"] => true
      | _ => false
      end
  | _ => false
  end.

Fixpoint imports_after_path_append (seen : bool) (c : cell) : list string :=
  match c with
  | [] => []
  | s :: rest =>
      (if seen then map module (stmt_imports s) else []) ++
      imports_after_path_append (seen || is_path_append s) rest
  end.

Definition script_modules (nb : notebook) : list string :=
  flat_map (imports_after_path_append false) (nb_cells nb).

(** A module of the repository itself: the [utils] package that sits
    beside the sandbox notebooks, or a script found through [sys.path]. *)
Definition is_repository_module (nb : notebook) (m : string) : bool :=
  String.eqb (top_package m) "utils" || mem m (script_modules nb).

(** *** Definitions and provenance *)

(** The variable names or the dataset key an assignment target sets:
    [x = v] sets [x], [ds['k'] = v] sets [k]. *)
Definition target_keys (t : expr) : list string :=
  match t with
  | ESub _ (EStr k) => [k]
  | other => target_names other
  end.

Fixpoint stmt_definitions (k : string) (s : stmt) : list expr :=
  match s with
  | SAssign ts v => if existsb (fun t => mem k (target_keys t)) ts then [v] else []
  | SFor _ _ body | SIf _ body | SDef _ _ body =>
      flat_map (stmt_definitions k) body
  | _ => []
  end.

(** The right-hand sides assigned to [k], in listed order. *)
Definition definitions (nb : notebook) (k : string) : list expr :=
  flat_map (flat_map (stmt_definitions k)) (nb_cells nb).

(** The calls a value is obtained through, the latest first: a call
    contributes its callee path (the method name alone when it is applied
    to the result of another call) and the search goes on from the
    object the method is called on; a notebook variable is replaced by
    its first definition; an imported name ends the search. *)
Fixpoint provenance (nb : notebook) (fuel : nat) (e : expr) {struct fuel}
  : list (list string) :=
  match fuel with
  | O => []
  | S n =>
      match e with
      | EName x =>
          match import_of nb x with
          | Some _ => []
          | None =>
              match definitions nb x with
              | d :: _ => provenance nb n d
              | [] => []
              end
          end
      | EAttr r _ | ESub r _ => provenance nb n r
      | ECall f _ _ =>
          match dotted f, f with
          | Some p, _ => [p]
          | None, EAttr _ a => [[a]]
          | None, _ => []
          end ++
          match f with
          | EAttr r _ => provenance nb n r
          | _ => []
          end
      | _ => []
      end
  end.

(** How an operation is realised in a notebook. *)
Inductive realisation :=
| ExternalCall (module : string) (path : list string)
| RepositoryCall (module : string) (path : list string)
| MethodChain (paths : list (list string))
| InlineArithmetic (op : binop)
| NotRealised.

Definition classify (nb : notebook) (e : expr) : realisation :=
  match e with
  | EBin op _ _ => InlineArithmetic op
  | _ =>
      match provenance nb 16 e with
      | [] => NotRealised
      | [p] =>
          match p with
          | x :: _ =>
              match import_of nb x with
              | Some i =>
                  if is_repository_module nb (module i)
                  then RepositoryCall (module i) p
                  else ExternalCall (module i) p
              | None => MethodChain [p]
              end
          | [] => NotRealised
          end
      | ps => MethodChain ps
      end
  end.

(** The operations the specification names. *)
Inductive operation :=
| HypothesisTest
| NDVI
| MNDWI
| NDWI
| NDCI
| TideTaggingCoastal
| TideTaggingIntertidal
| ImageSegmentation.

Definition all_operations : list operation :=
  [HypothesisTest; NDVI; MNDWI; NDWI; NDCI; TideTaggingCoastal;
   TideTaggingIntertidal; ImageSegmentation].

Definition mentions (s : string) (c : expr) : bool :=
  existsb (fun a => match a with EStr t => String.eqb s t | _ => false end)
          (positional c).

(** Where each operation is carried out: the notebook and the
    expression that computes it. *)
Definition carried_out (op : operation) : notebook * option expr :=
  match op with
  | HypothesisTest => (Forestry, hd_error (definitions Forestry "tstat"))
  | NDVI => (Forestry, find (mentions "NDVI") (notebook_calls Forestry))
  | MNDWI => (Coastal_Erosion, hd_error (definitions Coastal_Erosion "water_index"))
  | NDWI => (Intertidal_Elevation, hd_error (definitions Intertidal_Elevation "water_index"))
  | NDCI => (Site_matching, hd_error (definitions Site_matching "ndci"))
  | TideTaggingCoastal => (Coastal_Erosion, hd_error (calls_named Coastal_Erosion "tidal_tag"))
  | TideTaggingIntertidal =>
      (Intertidal_Elevation, hd_error (definitions Intertidal_Elevation "tide_height"))
  | ImageSegmentation =>
      (Tiled_Segmentation, hd_error (calls_named Tiled_Segmentation "performTiledSegmentation"))
  end.

Definition realised_as (op : operation) : realisation :=
  match carried_out op with
  | (nb, Some e) => classify nb e
  | (_, None) => NotRealised
  end.

(** Functions a notebook defines itself. *)
Fixpoint stmt_defs (s : stmt) : list string :=
  match s with
  | SDef f _ body => f :: flat_map stmt_defs body
  | SFor _ _ body | SIf _ body => flat_map stmt_defs body
  | _ => []
  end.

Definition defined_functions (nb : notebook) : list string :=
  flat_map (flat_map stmt_defs) (nb_cells nb).

(** *** Parallelism *)

(** Libraries whose purpose is parallel or distributed execution. *)
Definition parallel_libraries : list string :=
  ["dask"; "dask.distributed"; "pathos.multiprocessing"; "multiprocessing";
   "threading"; "concurrent.futures"; "joblib"].

Definition parallel_imports (nb : notebook) : list import :=
  filter (fun i => mem (module i) parallel_libraries) (notebook_imports nb).

(** Calls into the interface of a parallel library: the callee starts
    from a name imported from one. *)
Definition parallel_api_calls (nb : notebook) : list expr :=
  filter (fun c => match root c with
                   | Some x => existsb (fun i => String.eqb (bound i) x)
                                       (parallel_imports nb)
                   | None => false
                   end)
         (notebook_calls nb).

(** Keyword arguments by which a call asks its callee to work in
    parallel: a number of worker processes, or dask-backed loading. *)
Definition parallel_keywords : list string :=
  ["ncpus"; "dask_chunks"; "lazy_load"].

Definition requested_keywords (c : expr) : list (string * expr) :=
  flat_map (fun k => match kwarg c k with Some v => [(k, v)] | None => [] end)
           parallel_keywords.

Definition parallel_requests (nb : notebook) : list expr :=
  filter (fun c => match requested_keywords c with [] => false | _ => true end)
         (notebook_calls nb).

(** Every place where a notebook engages parallel execution. *)
Definition parallelism_sites (nb : notebook) : list expr :=
  parallel_api_calls nb ++ parallel_requests nb.

Definition dask_client_call : expr :=
  ECall (EName "Client") [EStr "dask-datacube-dask.labs:8786"] [].

End Calls.

(** ** Numbers: rationals extended with NaN and the infinities *)

Module Num.

Inductive fl :=
| NaN
| PInf
| NInf
| Fin (q : Q).

Definition is_nan (x : fl) : bool :=
  match x with NaN => true | _ => false end.

Definition fneg (x : fl) : fl :=
  match x with
  | NaN => NaN
  | PInf => NInf
  | NInf => PInf
  | Fin q => Fin (- q)
  end.

Definition fadd (x y : fl) : fl :=
  match x, y with
  | NaN, _ | _, NaN => NaN
  | PInf, NInf | NInf, PInf => NaN
  | PInf, _ | _, PInf => PInf
  | NInf, _ | _, NInf => NInf
  | Fin a, Fin b => Fin (a + b)
  end.

Definition fsub (x y : fl) : fl := fadd x (fneg y).

Definition sign_inf (positive : bool) : fl := if positive then PInf else NInf.

Definition fmul (x y : fl) : fl :=
  match x, y with
  | NaN, _ | _, NaN => NaN
  | Fin a, Fin b => Fin (a * b)
  | Fin a, PInf | PInf, Fin a =>
      if Qeq_bool a 0 then NaN else sign_inf (Qle_bool 0 a)
  | Fin a, NInf | NInf, Fin a =>
      if Qeq_bool a 0 then NaN else sign_inf (negb (Qle_bool 0 a))
  | PInf, PInf | NInf, NInf => PInf
  | PInf, NInf | NInf, PInf => NInf
  end.

(** Array division: a zero divisor gives NaN for [0 / 0] and an
    infinity otherwise, it does not raise. *)
Definition fdiv (x y : fl) : fl :=
  match x, y with
  | NaN, _ | _, NaN => NaN
  | Fin a, Fin b =>
      if Qeq_bool b 0
      then (if Qeq_bool a 0 then NaN else sign_inf (Qle_bool 0 a))
      else Fin (a / b)
  | Fin _, PInf | Fin _, NInf => Fin 0
  | PInf, Fin b => sign_inf (Qle_bool 0 b)
  | NInf, Fin b => sign_inf (negb (Qle_bool 0 b))
  | _, _ => NaN
  end.

Definition fle (x y : fl) : bool :=
  match x, y with
  | NaN, _ | _, NaN => false
  | NInf, _ | _, PInf => true
  | PInf, _ | _, NInf => false
  | Fin a, Fin b => Qle_bool a b
  end.

(** [np.maximum] and [np.minimum] propagate NaN. *)
Definition fmax (x y : fl) : fl :=
  match x, y with
  | NaN, _ | _, NaN => NaN
  | _, _ => if fle x y then y else x
  end.

Definition fmin (x y : fl) : fl :=
  match x, y with
  | NaN, _ | _, NaN => NaN
  | _, _ => if fle x y then x else y
  end.

(** [np.clip(x, lo, hi)] is [minimum(maximum(x, lo), hi)]. *)
Definition clip (x lo hi : fl) : fl := fmin (fmax x lo) hi.

(** [int(x)] truncates toward zero and raises on NaN and infinities. *)
Definition to_int (x : fl) : option Z :=
  match x with
  | Fin q => Some (Z.quot (Qnum q) (Zpos (Qden q)))
  | _ => None
  end.

(** Rounding to the nearest integer, ties to even. *)
Definition round_half_even (q : Q) : Z :=
  let f := Qfloor q in
  let r := (q - inject_Z f)%Q in
  if Qle_bool r (1 # 2)
  then (if Qeq_bool r (1 # 2) then (if Z.even f then f else f + 1) else f)
  else f + 1.

(** [round(x, ndigits)] on a float, over exact rationals.  The code
    rounds the binary float it has computed, so the last digit written
    can differ from the one given here; what the theorems use of it is
    that rounding keeps NaN and numbers apart. *)
Definition round_digits (x : fl) (ndigits : Z) : fl :=
  match x with
  | Fin q =>
      let scale := inject_Z (10 ^ ndigits) in
      Fin (inject_Z (round_half_even (q * scale)) / scale)
  | other => other
  end.

End Num.

(** ** Band indices *)

Module Indices.

Import Num Calls.

(** A pixel gives the value of each band, addressed by the path of the
    expression that reads it ([landsat_ds.green] is
    [["landsat_ds"; "green"]]). *)
Definition pixel := list string -> fl.

Definition arith (op : binop) (a b : fl) : option fl :=
  match op with
  | Add => Some (fadd a b)
  | Sub => Some (fsub a b)
  | Mul => Some (fmul a b)
  | Div => Some (fdiv a b)
  | Pow | BitAnd => None
  end.

(** Per-pixel value of an arithmetic expression over bands. *)
Fixpoint eval (px : pixel) (e : expr) : option fl :=
  match e with
  | EBin op l r =>
      match eval px l, eval px r with
      | Some a, Some b => arith op a b
      | _, _ => None
      end
  | ENeg r => option_map fneg (eval px r)
  | EInt n => Some (Fin (inject_Z n))
  | EFloat q => Some (Fin q)
  | other => option_map px (dotted other)
  end.

Definition path_eqb (p q : list string) : bool :=
  if list_eq_dec string_dec p q then true else false.

(** Recognises [(A - B) / (A + B)] over two band reads and returns the
    paths of [A] and [B]. *)
Definition normalized_difference (e : expr) : option (list string * list string) :=
  match e with
  | EBin Div (EBin Sub a b) (EBin Add a' b') =>
      match dotted a, dotted b, dotted a', dotted b' with
      | Some pa, Some pb, Some pa', Some pb' =>
          if path_eqb pa pa' && path_eqb pb pb' then Some (pa, pb) else None
      | _, _, _, _ => None
      end
  | _ => None
  end.

(** Modelled from the spec: [calculate_indices] of
    utils/dea_bandindices.py, which the forestry notebook calls for NDVI,
    is not among the sources.  NDVI is the normalized band ratio
    (NIR - Red) / (NIR + Red), here over the Sentinel-2 bands the
    notebook loads. *)
Definition calculate_indices_NDVI : expr :=
  EBin Div
    (EBin Sub (EAttr (EName "ds") "nbart_nir_1") (EAttr (EName "ds") "nbart_red"))
    (EBin Add (EAttr (EName "ds") "nbart_nir_1") (EAttr (EName "ds") "nbart_red")).

(** The expression that computes each spectral index. *)
Definition index_expression (op : operation) : option expr :=
  match op with
  | NDVI => Some calculate_indices_NDVI
  | MNDWI | NDWI | NDCI => snd (carried_out op)
  | _ => None
  end.

Definition spectral_indices : list operation := [MNDWI; NDWI; NDCI; NDVI].

End Indices.

(** ** The average colour: [get_rgb] *)

Module Rgb.

Import Num.

Definition hex_digit (d : Z) : ascii :=
  nth (Z.to_nat d) (list_ascii_of_string "0123456789abcdef") "0"%char.

Fixpoint hex_fuel (fuel : nat) (n : Z) : string :=
  match fuel with
  | O => ""
  | S k =>
      if n <? 16 then String (hex_digit n) ""
      else (hex_fuel k (n / 16) ++ String (hex_digit (n mod 16)) "")%string
  end.

(** Lower-case hexadecimal digits of a natural number. *)
Definition hex (n : Z) : string := hex_fuel (S (Z.to_nat (Z.log2 n))) n.

Fixpoint zeros (k : nat) : string :=
  match k with
  | O => ""
  | S k' => String "0"%char (zeros k')
  end.

(** The format specification [{:02x}]: hexadecimal, padded with zeros
    after the sign to a width of at least two. *)
Definition format_02x (n : Z) : string :=
  let sign := if n <? 0 then "-" else "" in
  let digits := hex (Z.abs n) in
  (sign ++ zeros (2 - String.length sign - String.length digits) ++ digits)%string.

Fixpoint traverse {A B : Type} (f : A -> option B) (xs : list A) : option (list B) :=
  match xs with
  | [] => Some []
  | x :: rest =>
      match f x, traverse f rest with
      | Some y, Some ys => Some (y :: ys)
      | _, _ => None
      end
  end.

(** [int(np.clip(scaled_ds[band], 0, 1) * 255)], with the product taken
    over exact rationals.  The code rounds the product to a float before
    [int]: where the exact product lies just below an integer the code
    can return that integer, one more than the value given here. *)
Definition channel (x : fl) : option Z :=
  to_int (fmul (clip x (Fin 0) (Fin 1)) (Fin 255)).

(** [get_rgb(scaled_ds)]; [None] is the [ValueError] that [int] raises
    on NaN. *)
Definition get_rgb (scaled_ds : string -> fl) : option (list Z * string) :=
  match traverse (fun band => channel (scaled_ds band)) ["red"; "green"; "blue"] with
  | Some ([red; green; blue] as rgb_values) =>
      Some (rgb_values,
            ("#" ++ format_02x red ++ format_02x green ++ format_02x blue)%string)
  | _ => None
  end.

End Rgb.

(** ** Forestry: the baseline and post-baseline samples *)

Module ForestrySplit.

(** A timestep of the NDVI series: its [datetime64] timestamp (in
    nanoseconds since the epoch) and its raster. *)
Record timestep (raster : Type) := {
  time : Z;
  NDVI : raster
}.
Arguments time {raster}.
Arguments NDVI {raster}.

(** [da.sel(time=mask)] with a boolean mask keeps the timesteps whose
    mask entry is true. *)
Definition sel_mask {A : Type} (xs : list A) (mask : list bool) : list A :=
  map fst (filter snd (combine xs mask)).

Definition baseline_sample {raster} (ds_s2 : list (timestep raster))
    (time_baseline : Z) : list (timestep raster) :=
  sel_mask ds_s2 (map (fun t => time t <=? time_baseline) ds_s2).

Definition postbaseline_sample {raster} (ds_s2 : list (timestep raster))
    (time_baseline : Z) : list (timestep raster) :=
  sel_mask ds_s2 (map (fun t => time t >? time_baseline) ds_s2).

End ForestrySplit.

(** ** Tide tagging *)

Module Tides.

Import Num Kernel Calls.

(** A data array along the time axis: one value per coordinate. *)
Definition dataarray := list (Z * fl).

(** The satellite dataset, as far as tagging is concerned: its time
    axis and the variables that vary along it. *)
Record dataset := {
  time : list Z;
  data_vars : list (string * list fl)
}.

Definition get_var (ds : dataset) (k : string) : option (list fl) :=
  option_map snd (find (fun kv => String.eqb k (fst kv)) (data_vars ds)).

Definition lookup (da : dataarray) (t : Z) : fl :=
  match find (fun p => fst p =? t) da with
  | Some p => snd p
  | None => NaN
  end.

(** [ds[k] = da]: the array is aligned with the time axis of the
    dataset (a timestamp the array lacks gets NaN) and replaces any
    earlier variable of that name. *)
Definition set_var (ds : dataset) (k : string) (da : dataarray) : dataset :=
  {| time := time ds;
     data_vars :=
       (k, map (lookup da) (time ds)) ::
       filter (fun kv => negb (String.eqb k (fst kv))) (data_vars ds) |}.

(** Linear interpolation at [t] in rows that are in increasing order of
    time: NaN before the first and after the last row. *)
Fixpoint interp1 (table : list (Z * Q)) (t : Z) : fl :=
  match table with
  | [] => NaN
  | (t0, h0) :: rest =>
      match rest with
      | [] => if t =? t0 then Fin h0 else NaN
      | (t1, h1) :: _ =>
          if (t0 <=? t) && (t <=? t1)
          then (if t0 =? t1 then Fin h0
                else Fin (h0 + (h1 - h0) * inject_Z (t - t0) / inject_Z (t1 - t0)))
          else interp1 rest t
      end
  end.

Fixpoint insert_row (row : Z * Q) (rows : list (Z * Q)) : list (Z * Q) :=
  match rows with
  | [] => [row]
  | r :: rest =>
      if fst row <=? fst r then row :: r :: rest else r :: insert_row row rest
  end.

(** The rows of the file in increasing order of time. *)
Definition sortby_time (rows : list (Z * Q)) : list (Z * Q) :=
  fold_right insert_row [] rows.

Fixpoint distinct (ts : list Z) : bool :=
  match ts with
  | [] => true
  | t :: rest => negb (existsb (Z.eqb t) rest) && distinct rest
  end.

(** [tide_data_xr.interp(time=landsat_ds.time)]: the rows are sorted by
    time first ([assume_sorted] is false), then every timestamp is
    interpolated between its two neighbours.  [None] is the exception
    the call ends with when the file has no row, when two rows have the
    same time (the time index has to be unique) or when there is no
    timestamp to interpolate at. *)
Definition interp (tide_data : list (Z * Q)) (times : list Z) : option dataarray :=
  match tide_data, times with
  | [], _ | _, [] => None
  | _, _ =>
      if distinct (map fst tide_data)
      then Some (map (fun t => (t, interp1 (sortby_time tide_data) t)) times)
      else None
  end.

(** The tagging cell of the intertidal notebook. *)
Definition tag_from_file (tide_data : list (Z * Q)) (landsat_ds : dataset)
  : option dataset :=
  match interp tide_data (time landsat_ds) with
  | Some landsat_tideheights =>
      Some (set_var landsat_ds "tide_height" landsat_tideheights)
  | None => None
  end.

(** Modelled from the spec: [tidal_tag] of utils/waterline_funcs.py is
    not among the sources.  Tide tagging attaches a modelled tide height
    to each satellite observation's timestamp via an external tidal
    model; [tide_model] is that model at the tide post. *)
Definition tidal_tag (tide_model : Z -> fl) (ds : dataset) : dataset :=
  set_var ds "tide_height" (map (fun t => (t, tide_model t)) (time ds)).




End Tides.

(** ** Contour extraction *)

Module Contours.

Import Calls.

(** The value of a numeric literal. *)
Definition literal (e : expr) : option Q :=
  match e with
  | EInt n => Some (inject_Z n)
  | EFloat q => Some q
  | _ => None
  end.

Definition z_values_of (call : expr) : option (list Q) :=
  match kwarg call "z_values" with
  | Some (EList es) => Rgb.traverse literal es
  | _ => None
  end.

(** The dimension the rasters are stacked along: [dim], which defaults
    to the time axis. *)
Definition dim_of (call : expr) : string :=
  match kwarg call "dim" with
  | Some (EStr d) => d
  | _ => "time"
  end.

Definition contour_calls : list (notebook * expr) :=
  flat_map (fun nb => map (pair nb) (calls_named nb "contour_extract")) all_notebooks.

Section Extract.

Variables raster line : Type.

(** The contouring library: the iso-value boundary of a raster at a
    level. *)
Variable trace : raster -> Q -> line.

(** Modelled from the spec: [contour_extract] of
    utils/waterline_funcs.py is not among the sources.  Contour
    extraction traces iso-value boundaries in a raster to produce vector
    lines; called with one z-value on rasters stacked along a dimension,
    it returns one line per raster of the stack.  Other ways of calling
    it are not used by the notebooks and are left out ([None]). *)
Definition contour_extract (z_values : list Q) (ds_array : list raster)
  : option (list line) :=
  match z_values with
  | [z] => Some (map (fun r => trace r z) ds_array)
  | _ => None
  end.

End Extract.

End Contours.

(** ** Site matching: the loop over sites and dates *)

Module SiteMatching.

Import Num.

Definition ns_per_day : Z := 86400 * 1000000000.

(** One satellite timestep at the pixel nearest to a site. *)
Record timestep := {
  time : Z;
  nbart_red_edge_1 : fl;
  nbart_red : fl
}.

(** A row of [locations] with what is loaded for it: the observation
    column of the site ([site_values]) and the Sentinel-2 series around
    it ([ds_s2]). *)
Record site := {
  SiteName : string;
  site_values : list fl;
  ds_s2 : list timestep
}.

(** The seven lists the loop appends to. *)
Record accumulators := {
  site_names : list string;
  match_dates : list Z;
  match_values : list fl;
  ndci_values : list fl;
  red_values : list fl;
  rededge_values : list fl;
  time_deltas : list Z
}.

Definition empty_lists : accumulators :=
  {| site_names := []; match_dates := []; match_values := [];
     ndci_values := []; red_values := []; rededge_values := [];
     time_deltas := [] |}.

(** [ds.sel(time=target, method="nearest")]: the timestep closest to
    the target, the later one on a tie; [None] when there is no
    timestep at all (the selection raises). *)
Fixpoint sel_nearest (target : Z) (ds : list timestep) : option timestep :=
  match ds with
  | [] => None
  | t :: rest =>
      match sel_nearest target rest with
      | None => Some t
      | Some u =>
          if Z.abs (target - time t) <? Z.abs (target - time u)
          then Some t else Some u
      end
  end.

(** [np.abs(pd.to_datetime(target_date) - ds_closest.time.values)], in
    nanoseconds. *)
Definition time_delta (target_date : Z) (ds_closest : timestep) : Z :=
  Z.abs (target_date - time ds_closest).

(** The [days] field of a non-negative [Timedelta]: whole days. *)
Definition days (delta : Z) : Z := delta / ns_per_day.

Definition ndci (p : timestep) : fl :=
  fdiv (fsub (nbart_red_edge_1 p) (nbart_red p))
       (fadd (nbart_red_edge_1 p) (nbart_red p)).

(** The body of the inner loop for the [count]-th date; [None] is an
    exception that ends the cell.  The ground value is read only when
    the index is not NaN, as the conjunction evaluates it.  The date is
    taken as parsed and the ground value as a number: a [Date] that is
    not in [%d/%m/%Y], on which [strptime] raises, and a ground value
    that is not numeric, on which [np.isnan] raises, are not inputs of
    this model. *)
Definition visit (obs_window : Z) (s : site) (acc : accumulators)
    (count : nat) (target_date : Z) : option accumulators :=
  match sel_nearest target_date (ds_s2 s) with
  | None => None
  | Some ds_closest =>
      if days (time_delta target_date ds_closest) <=? obs_window then
        if negb (is_nan (ndci ds_closest)) then
          match nth_error (site_values s) count with
          | None => None
          | Some value =>
              if negb (is_nan value) then
                Some {| site_names := site_names acc ++ [SiteName s];
                        match_dates := match_dates acc ++ [target_date];
                        match_values := match_values acc ++ [value];
                        ndci_values :=
                          ndci_values acc ++ [round_digits (ndci ds_closest) 4];
                        red_values := red_values acc ++ [nbart_red ds_closest];
                        rededge_values :=
                          rededge_values acc ++ [nbart_red_edge_1 ds_closest];
                        time_deltas :=
                          time_deltas acc ++ [days (time_delta target_date ds_closest)] |}
              else Some acc
          end
        else Some acc
      else Some acc
  end.

(** [for count, date_string in enumerate(site_dates)] *)
Fixpoint loop_dates (obs_window : Z) (s : site) (acc : accumulators)
    (count : nat) (site_dates : list Z) : option accumulators :=
  match site_dates with
  | [] => Some acc
  | d :: rest =>
      match visit obs_window s acc count d with
      | Some acc' => loop_dates obs_window s acc' (S count) rest
      | None => None
      end
  end.

(** [for site in locations.itertuples()] *)
Fixpoint loop_sites (obs_window : Z) (site_dates : list Z)
    (acc : accumulators) (locations : list site) : option accumulators :=
  match locations with
  | [] => Some acc
  | s :: rest =>
      match loop_dates obs_window s acc 0 site_dates with
      | Some acc' => loop_sites obs_window site_dates acc' rest
      | None => None
      end
  end.

Definition match_all (obs_window : Z) (site_dates : list Z)
    (locations : list site) : option accumulators :=
  loop_sites obs_window site_dates empty_lists locations.

(** A row of [location_results], that is a line of MatchedData.csv. *)
Record row := {
  r_SiteName : string;
  r_ObservationDate : Z;
  r_TimeDelta : Z;
  r_ObservationValue : fl;
  r_Red : fl;
  r_RedEdge : fl;
  r_NDCI : fl
}.

Definition same_length (acc : accumulators) : bool :=
  let n := List.length (site_names acc) in
  (List.length (match_dates acc) =? n)%nat &&
  (List.length (time_deltas acc) =? n)%nat &&
  (List.length (match_values acc) =? n)%nat &&
  (List.length (red_values acc) =? n)%nat &&
  (List.length (rededge_values acc) =? n)%nat &&
  (List.length (ndci_values acc) =? n)%nat.

Fixpoint zip_rows (names : list string) (dates deltas : list Z)
    (values reds rededges ndcis : list fl) : list row :=
  match names, dates, deltas, values, reds, rededges, ndcis with
  | n :: ns, d :: ds, t :: ts, v :: vs, r :: rs, e :: es, c :: cs =>
      {| r_SiteName := n; r_ObservationDate := d; r_TimeDelta := t;
         r_ObservationValue := v; r_Red := r; r_RedEdge := e; r_NDCI := c |}
      :: zip_rows ns ds ts vs rs es cs
  | _, _, _, _, _, _, _ => []
  end.

(** [pd.DataFrame({...})] over the seven lists: it raises when the
    lists differ in length. *)
Definition location_results (acc : accumulators) : option (list row) :=
  if same_length acc
  then Some (zip_rows (site_names acc) (match_dates acc) (time_deltas acc)
               (match_values acc) (red_values acc) (rededge_values acc)
               (ndci_values acc))
  else None.

(** The whole cell: the rows written to MatchedData.csv. *)
Definition matched_data (obs_window : Z) (site_dates : list Z)
    (locations : list site) : option (list row) :=
  match match_all obs_window site_dates locations with
  | Some acc => location_results acc
  | None => None
  end.

End SiteMatching.

(** ** Sample inputs *)

Module Samples.

Import Num.

(** An edit of the Do-it-yourself tutorial, with the values its text
    suggests: the coordinates of Dead Dog Creek, a box of 0.05 degrees,
    the first timestep in true colour, and the NDVI formula of the
    stretch goal. *)
Definition tutorial_fill (x : string) : expr :=
  if String.eqb x "coordinates" then
    EList [EFloat (-14642744 # 1000000); EFloat (144899747 # 1000000)]
  else if String.eqb x "box_size" then EFloat (5 # 100)
  else if String.eqb x "time_step" then EInt 0
  else if String.eqb x "bands" then
    EList [EStr "nbar_red"; EStr "nbar_green"; EStr "nbar_blue"]
  else
    EBin Div
      (EBin Sub (EAttr (EName "dataset") "nbar_nir_1") (EAttr (EName "dataset") "nbar_red"))
      (EBin Add (EAttr (EName "dataset") "nbar_nir_1") (EAttr (EName "dataset") "nbar_red")).

(** A water pixel: green 300, infrared 100. *)
Definition water_pixel : Indices.pixel :=
  fun band =>
    if Indices.path_eqb band ["landsat_ds"; "green"] then Fin 300
    else if Indices.path_eqb band ["landsat_ds"; "swir1"] then Fin 100
    else NaN.

(** The scaled average of a reddish continent. *)
Definition scaled_average (band : string) : fl :=
  if String.eqb band "red" then Fin (2 # 3)
  else if String.eqb band "green" then Fin (1 # 3)
  else Fin (1 # 5).

Definition hour : Z := 3600 * 1000000000.

(** A site sampled on day 8 at midnight whose only satellite pass was
    on day 0 at 23:00, seven days and one hour earlier. *)
Definition late_pass : SiteMatching.timestep :=
  {| SiteMatching.time := 23 * hour;
     SiteMatching.nbart_red_edge_1 := Fin 300;
     SiteMatching.nbart_red := Fin 100 |}.

Definition lagoon : SiteMatching.site :=
  {| SiteMatching.SiteName := "Lagoon";
     SiteMatching.site_values := [Fin 3];
     SiteMatching.ds_s2 := [late_pass] |}.

Definition sampling_date : Z := 8 * SiteMatching.ns_per_day.

(** A three-step NDVI series around a baseline at time 10. *)
Definition ndvi_series : list (ForestrySplit.timestep Q) :=
  [ {| ForestrySplit.time := 5; ForestrySplit.NDVI := (1 # 2)%Q |};
    {| ForestrySplit.time := 10; ForestrySplit.NDVI := (3 # 5)%Q |};
    {| ForestrySplit.time := 15; ForestrySplit.NDVI := (1 # 5)%Q |} ].

End Samples.

(** ** Statements about the site-matching rows *)

Module MatchSpec.

Import Num SiteMatching.

(** The seven lists that hold exactly the given rows, column by column. *)
Definition columns (rows : list row) : accumulators :=
  {| site_names := map r_SiteName rows;
     match_dates := map r_ObservationDate rows;
     match_values := map r_ObservationValue rows;
     ndci_values := map r_NDCI rows;
     red_values := map r_Red rows;
     rededge_values := map r_RedEdge rows;
     time_deltas := map r_TimeDelta rows |}.

(** What holds of a recorded match: it stems from the timestep nearest
    to the observation date at one of the sites, the whole days between
    the two are at most [obs_window], and neither the index computed at
    that timestep, nor the index written to the row, nor the ground
    value is NaN.  The digits of the written index are not part of it. *)
Definition recorded (obs_window : Z) (locations : list site) (r : row) : Prop :=
  r_TimeDelta r <= obs_window /\
  is_nan (r_NDCI r) = false /\
  is_nan (r_ObservationValue r) = false /\
  exists s p,
    In s locations /\
    r_SiteName r = SiteName s /\
    sel_nearest (r_ObservationDate r) (ds_s2 s) = Some p /\
    r_TimeDelta r = days (time_delta (r_ObservationDate r) p) /\
    time_delta (r_ObservationDate r) p < (obs_window + 1) * ns_per_day /\
    is_nan (ndci p) = false.

(** The loop invariant: the seven lists are the columns of a table
    whose every row is a recorded match. *)
Definition table_of_matches (obs_window : Z) (locations : list site)
    (acc : accumulators) : Prop :=
  exists rows, acc = columns rows /\ Forall (recorded obs_window locations) rows.

End MatchSpec.

(** ** Proof tactics *)

(** Case analysis over the nine notebooks: [tac] has to settle the goal
    for each of them. *)
Ltac each_notebook H tac :=
  unfold all_notebooks in H; simpl in H;
  repeat (destruct H as [<- | H]; [ tac | ]);
  try contradiction.

(* ------------------------------------------------------------------ *)
(** * Part I, continued: further cells of the notebooks *)
(* ------------------------------------------------------------------ *)

(** ** Lists *)

Module Lists.

(** [subsequence xs ys]: [xs] is [ys] with some elements left out, the
    others in their order. *)
Inductive subsequence {A : Type} : list A -> list A -> Prop :=
| sub_nil : subsequence [] []
| sub_skip (y : A) (xs ys : list A) : subsequence xs ys -> subsequence xs (y :: ys)
| sub_keep (x : A) (xs ys : list A) : subsequence xs ys -> subsequence (x :: xs) (x :: ys).

(** [enumerate(xs)] *)
Fixpoint enumerate_from {A : Type} (count : nat) (xs : list A) : list (nat * A) :=
  match xs with
  | [] => []
  | x :: rest => (count, x) :: enumerate_from (S count) rest
  end.

Definition enumerate {A : Type} (xs : list A) : list (nat * A) := enumerate_from 0 xs.

Definition option_list {A : Type} (o : option A) : list A :=
  match o with Some x => [x] | None => [] end.

End Lists.

(** ** Site matching: the table the loop builds *)

Module MatchTable.

Import Num SiteMatching Lists.

(** The row that one pass of the inner loop appends for a site and the
    [count]-th date, if it appends one. *)
Definition match_at (obs_window : Z) (s : site) (count : nat) (target_date : Z)
  : option row :=
  match sel_nearest target_date (ds_s2 s), nth_error (site_values s) count with
  | Some ds_closest, Some value =>
      if (days (time_delta target_date ds_closest) <=? obs_window)
         && negb (is_nan (ndci ds_closest)) && negb (is_nan value)
      then Some {| r_SiteName := SiteName s;
                   r_ObservationDate := target_date;
                   r_TimeDelta := days (time_delta target_date ds_closest);
                   r_ObservationValue := value;
                   r_Red := nbart_red ds_closest;
                   r_RedEdge := nbart_red_edge_1 ds_closest;
                   r_NDCI := round_digits (ndci ds_closest) 4 |}
      else None
  | _, _ => None
  end.

Definition site_rows (obs_window : Z) (site_dates : list Z) (s : site) : list row :=
  flat_map (fun cd => option_list (match_at obs_window s (fst cd) (snd cd)))
           (enumerate site_dates).

(** The rows in the order the loop visits sites and dates. *)
Definition expected_rows (obs_window : Z) (site_dates : list Z)
    (locations : list site) : list row :=
  flat_map (site_rows obs_window site_dates) locations.

End MatchTable.

(** ** Reductions that skip NaN *)

Module Reductions.

Import Num.

Definition not_nan (x : fl) : bool := negb (is_nan x).

Definition total (xs : list fl) : fl := fold_right fadd (Fin 0) xs.

(** [.mean()] with the default [skipna]: the mean of the values that
    are not NaN, and NaN when there is none. *)
Definition mean (xs : list fl) : fl :=
  match filter not_nan xs with
  | [] => NaN
  | kept => fdiv (total kept) (Fin (inject_Z (Z.of_nat (List.length kept))))
  end.

(** [x.where(cond)]: the value where the condition holds, NaN
    elsewhere. *)
Definition where_ (cond : bool) (x : fl) : fl := if cond then x else NaN.

(** [x < y] on floats: false when either side is NaN. *)
Definition flt (x y : fl) : bool := fle x y && negb (fle y x).

End Reductions.

(** ** The average colour of an area *)

Module AverageColour.

Import Num Rgb Reductions.

(** [ds.where(ds > 0)] on the integer pixels of a band: a pixel that is
    not positive (no data, or zero) becomes NaN. *)
Definition where_positive (pixel : Z) : fl :=
  where_ (pixel >? 0) (Fin (inject_Z pixel)).

Definition positive (pixel : Z) : bool := pixel >? 0.

Definition scaling_factor : fl := Fin 3000.

(** [average = ds.where(ds>0).mean()] and
    [scaled_average = average / scaling_factor], band by band, over
    exact rationals.  The code takes the mean in single precision, so
    its digits can differ from those given here; what the theorems use
    of it is whether the mean is NaN. *)
Definition average (ds : string -> list Z) (band : string) : fl :=
  mean (map where_positive (ds band)).

Definition scaled_average (ds : string -> list Z) (band : string) : fl :=
  fdiv (average ds band) scaling_factor.

(** The cell that computes the colour: [get_rgb(scaled_average)]. *)
Definition average_colour (ds : string -> list Z) : option (list Z * string) :=
  get_rgb (scaled_average ds).

Definition bands : list string := ["red"; "green"; "blue"].

(** Reading a colour given as [#rrggbb], as the plotting library does
    for [facecolor]. *)
Definition hex_digit_value (c : ascii) : option Z :=
  let n := Z.of_nat (nat_of_ascii c) in
  if (48 <=? n) && (n <=? 57) then Some (n - 48)
  else if (97 <=? n) && (n <=? 102) then Some (n - 87)
  else if (65 <=? n) && (n <=? 70) then Some (n - 55)
  else None.

Definition hex_pair (hi lo : ascii) : option Z :=
  match hex_digit_value hi, hex_digit_value lo with
  | Some h, Some l => Some (16 * h + l)
  | _, _ => None
  end.

Definition parse_colour (s : string) : option (list Z) :=
  match s with
  | String "#"
      (String r1 (String r0 (String g1 (String g0 (String b1 (String b0 EmptyString)))))) =>
      match hex_pair r1 r0, hex_pair g1 g0, hex_pair b1 b0 with
      | Some r, Some g, Some b => Some [r; g; b]
      | _, _, _ => None
      end
  | _ => None
  end.

End AverageColour.

(** ** Filtering the images by tide height *)

Module TideFilter.

Import Num Reductions Tides.

(** [(tide_height > tide_range[0]) & (tide_height < tide_range[1])] *)
Definition in_tide_range (tide_range : fl * fl) (tide_height : fl) : bool :=
  flt (fst tide_range) tide_height && flt tide_height (snd tide_range).

(** [ds.where(cond, drop=True)] with a condition along the time axis:
    the timesteps at which the condition is false are dropped from the
    axis and from every variable. *)
Definition where_drop (cond : list bool) (ds : dataset) : dataset :=
  {| time := ForestrySplit.sel_mask (time ds) cond;
     data_vars := map (fun kv => (fst kv, ForestrySplit.sel_mask (snd kv) cond)) (data_vars ds) |}.

(** The filtering cell; [None] is the [AttributeError] of a dataset
    without [tide_height]. *)
Definition landsat_filtered (tide_range : fl * fl) (landsat_ds : dataset)
  : option dataset :=
  match get_var landsat_ds "tide_height" with
  | Some tide_height =>
      Some (where_drop (map (in_tide_range tide_range) tide_height) landsat_ds)
  | None => None
  end.

(** The images of a dataset: each timestamp with its tide height. *)
Definition tagged_images (ds : dataset) : list (Z * fl) :=
  match get_var ds "tide_height" with
  | Some tide_height => combine (time ds) tide_height
  | None => []
  end.

Definition well_formed (ds : dataset) : Prop :=
  forall kv, In kv (data_vars ds) -> List.length (snd kv) = List.length (time ds).

End TideFilter.

(** ** Tidal intervals *)

Module TidalIntervals.

Import Num Reductions.

Section Sort.

Context {A : Type} (le : A -> A -> bool).

Fixpoint insert (x : A) (xs : list A) : list A :=
  match xs with
  | [] => [x]
  | y :: ys => if le x y then x :: y :: ys else y :: insert x ys
  end.

(** A stable sort: of two elements that compare equal, the one that
    came first stays first. *)
Definition sort (xs : list A) : list A := fold_right insert [] xs.

End Sort.

(** The order of [np.sort] and [np.lexsort] on floats: NaN last. *)
Definition le_nan_last (x y : fl) : bool := is_nan y || fle x y.

Definition lt_nan_last (x y : fl) : bool := negb (le_nan_last y x).

(** [landsat_ds.sortby('tide_height')], on the images as pairs of a
    timestamp and a tide height. *)
Definition sortby_tide_height (images : list (Z * fl)) : list (Z * fl) :=
  sort (fun a b => le_nan_last (snd a) (snd b)) images.

(** [np.linspace(start, stop, num)] *)
Definition linspace (start stop : Q) (num : nat) : list Q :=
  match num with
  | 1%nat => [start]
  | _ =>
      let step := ((stop - start) / inject_Z (Z.of_nat (num - 1)))%Q in
      map (fun i => (start + inject_Z (Z.of_nat i) * step)%Q) (seq 0 num)
  end.

(** Linear interpolation between two neighbours, as the quantile
    computes it. *)
Definition lerp (a b : fl) (t : Q) : fl :=
  let diff_b_a := fsub b a in
  if Qle_bool (1 # 2) t
  then fsub b (fmul diff_b_a (Fin (1 - t)))
  else fadd a (fmul diff_b_a (Fin t)).

(** [da.quantile(q)] for one [q] of the unit interval: NaN is skipped,
    the result is interpolated linearly between the two nearest ranks
    and is NaN when no value is left. *)
Definition quantile (values : list fl) (q : Q) : fl :=
  match sort fle (filter not_nan values) with
  | [] => NaN
  | (first :: _) as kept =>
      let last_index := Z.of_nat (List.length kept - 1) in
      let position := (q * inject_Z last_index)%Q in
      let below := Qfloor position in
      let above := Z.min (below + 1) last_index in
      let gamma := (position - inject_Z below)%Q in
      lerp (nth (Z.to_nat below) kept first) (nth (Z.to_nat above) kept first) gamma
  end.

(** [(np.diff(bins) < 0).any()] *)
Fixpoint decreases (bins : list fl) : bool :=
  match bins with
  | a :: (b :: _) as rest => flt (fsub b a) (Fin 0) || decreases rest
  | _ => false
  end.

(** Equality of bin edges as [unique] sees it: NaN equals NaN. *)
Definition same_edge (x y : fl) : bool :=
  (is_nan x && is_nan y) || (fle x y && fle y x).

Fixpoint has_duplicates (bins : list fl) : bool :=
  match bins with
  | [] => false
  | b :: rest => existsb (same_edge b) rest || has_duplicates rest
  end.

(** [bins.searchsorted(x, side='left')] on increasing bins: the number
    of edges before the first one that is not less than [x]. *)
Fixpoint searchsorted_left (bins : list fl) (x : fl) : nat :=
  match bins with
  | [] => 0%nat
  | b :: rest => if lt_nan_last b x then S (searchsorted_left rest x) else 0%nat
  end.

(** The bin of one value, [None] where the result is missing. *)
Definition bin_of (bins : list fl) (labels : list Z) (include_lowest : bool)
  (x : fl) : option Z :=
  let ids := searchsorted_left bins x in
  let ids :=
    match bins with
    | lowest :: _ =>
        if include_lowest && fle x lowest && fle lowest x then 1%nat else ids
    | [] => ids
    end in
  if is_nan x || Nat.eqb ids (List.length bins) || Nat.eqb ids 0
  then None
  else nth_error labels (ids - 1).

(** [pd.cut(x, bins=bins, labels=labels, include_lowest=...)] with the
    intervals closed on the right; [None] is one of its [ValueError]s:
    bins that decrease, duplicate edges, or a number of labels other
    than the number of intervals. *)
Definition cut (x bins : list fl) (labels : list Z) (include_lowest : bool)
  : option (list (option Z)) :=
  if decreases bins then None
  else if has_duplicates bins && negb (Nat.eqb (List.length bins) 2) then None
  else if negb (Nat.eqb (List.length labels) (List.length bins - 1)) then None
  else Some (map (bin_of bins labels include_lowest) x).

(** [range(1, 10)] *)
Definition labels_1_to_9 : list Z := map Z.of_nat (seq 1 9).

(** [binInterval] of the binning cell. *)
Definition binInterval (tide_height : list fl) : list fl :=
  map (quantile tide_height) (linspace 0 1 10).

(** [tide_intervals] of the binning cell. *)
Definition tide_intervals (tide_height : list fl) : option (list (option Z)) :=
  cut tide_height (binInterval tide_height) labels_1_to_9 true.

(** The binning cell: the images sorted by tide height, each with its
    tidal interval. *)
Definition binning_cell (images : list (Z * fl))
  : option (list ((Z * fl) * option Z)) :=
  let sorted := sortby_tide_height images in
  match tide_intervals (map snd sorted) with
  | Some intervals => Some (combine sorted intervals)
  | None => None
  end.

(** The order of the intervals along the sorted axis: a missing interval
    comes last. *)
Definition interval_le (a b : option Z) : bool :=
  match a, b with
  | _, None => true
  | Some i, Some j => i <=? j
  | None, Some _ => false
  end.

(** A list in which every element is below or equal to every later
    one. *)
Fixpoint ascending_by {A : Type} (le : A -> A -> bool) (xs : list A) : Prop :=
  match xs with
  | [] => True
  | x :: rest => (forall y, In y rest -> le x y = true) /\ ascending_by le rest
  end.

(** A list of numbers in which no element is above a later one. *)
Fixpoint ascending (xs : list Q) : Prop :=
  match xs with
  | [] => True
  | x :: rest => (forall y, In y rest -> (x <= y)%Q) /\ ascending rest
  end.

Definition finite (x : fl) : Prop := exists q, x = Fin q.

Definition finite_or_nan (x : fl) : Prop := x = NaN \/ finite x.

End TidalIntervals.

(** ** The tide file *)

Module TideFile.

(** A tide file whose rows are in the order of their times, no time
    twice. *)
Fixpoint increasing_times (tide_data : list (Z * Q)) : Prop :=
  match tide_data with
  | [] => True
  | row :: rest =>
      (forall later, In later rest -> fst row < fst later) /\ increasing_times rest
  end.

End TideFile.

(** ** The tidal intervals as a coordinate *)

Module IntervalGroups.

Import Lists.

(** The coordinate of [groupby('tide_interval')]: the intervals that
    occur, each once, in increasing order; images without an interval
    belong to no group. *)
Definition tide_interval_coordinate (intervals : list (option Z)) : list Z :=
  TidalIntervals.sort Z.leb (nodup Z.eq_dec (flat_map option_list intervals)).

(** [isel(tide_interval=0)] and [isel(tide_interval=-1)] on the grouped
    dataset; [None] is the [IndexError] of an empty coordinate. *)
Definition isel_first (coordinate : list Z) : option Z := hd_error coordinate.

Definition isel_last (coordinate : list Z) : option Z := hd_error (rev coordinate).

(** [sel(tide_interval=k)]; [None] is the [KeyError] of an interval
    that does not occur. *)
Definition sel_interval (coordinate : list Z) (k : Z) : option Z :=
  find (Z.eqb k) coordinate.

End IntervalGroups.

(** ** Forestry: the change maps *)

Module ForestryChange.

Import Num Reductions.

(** A pixel of the NDVI series: one value per timestep. *)
Definition pixel_series := list (ForestrySplit.timestep fl).

(** [sample.mean(dim=['time'])] at the pixel. *)
Definition mean_over_time (sample : pixel_series) : fl :=
  mean (map ForestrySplit.NDVI sample).

Definition diff_mean (ds_s2 : pixel_series) (time_baseline : Z) : fl :=
  fsub (mean_over_time (ForestrySplit.postbaseline_sample ds_s2 time_baseline))
       (mean_over_time (ForestrySplit.baseline_sample ds_s2 time_baseline)).

Definition sig_level : fl := Fin (5 # 100).

(** The map of significant change at the pixel, given the p-value of
    the test there. *)
Definition sig_diff_mean (ds_s2 : pixel_series) (time_baseline : Z) (p_val : fl) : fl :=
  fsub (where_ (flt p_val sig_level)
               (mean_over_time (ForestrySplit.postbaseline_sample ds_s2 time_baseline)))
       (where_ (flt p_val sig_level)
               (mean_over_time (ForestrySplit.baseline_sample ds_s2 time_baseline))).

End ForestryChange.

(* ================================================================== *)
(** * Part II: theorems *)
(* ================================================================== *)

Import Kernel Calls Num.

(** ** Running the notebooks *)


Lemma clean_means_no_undefined_reference (nb : notebook) :
  executes_cleanly nb = true -> no_undefined_reference nb = true.
Proof.
  unfold executes_cleanly, no_undefined_reference. intros H.
  rewrite forallb_forall in *. intros r Hr. specialize (H r Hr).
  destruct r; simpl in *; congruence.
Qed.

(** A cell that does not parse binds nothing: the kernel is left as it
    was. *)
Lemma incomplete_cell_binds_nothing (env : list string) (c : cell) :
  cell_incomplete c = true -> run_cell env c = (SyntaxError, env).
Proof. unfold run_cell. intros ->. reflexivity. Qed.

(** Every cell reports once. *)
Lemma one_result_per_cell (env : list string) (cs : list cell) :
  List.length (run_cells env cs) = List.length cs.
Proof.
  revert env. induction cs as [| c cs IH]; intros env; simpl.
  - reflexivity.
  - destruct (run_cell env c) as [r env']. simpl. rewrite IH. reflexivity.
Qed.

(** The rainfall notebook reads [cumulative_rainfall], which no cell
    binds: its sixth code cell raises, and so do the three that depend
    on it. *)
Lemma rainfall_notebook_reads_unbound_name :
  run_notebook CumulativeMassResidualRainfall =
    [Ran; Ran; Ran; Ran; Ran;
     NameError "cumulative_rainfall"; NameError "cumulative_rainfall";
     NameError "mass_residual"; NameError "mass_residual"; Ran]
  /\ definitions CumulativeMassResidualRainfall "cumulative_rainfall" = [].
Proof. split; reflexivity. Qed.




(** C7: the Do-it-yourself tutorial leaves five assignments without a
    right-hand side, among them [coordinates], [box_size] and [ndvi];
    four of its seven code cells do not parse, so it cannot be run end to
    end as it stands, and it does run once the analyst has filled the
    assignments in. *)
Theorem C7_tutorial_needs_editing :
  In Do_It_Yourself all_notebooks /\
  incomplete_assignments Do_It_Yourself =
    ["coordinates"; "box_size"; "time_step"; "bands"; "ndvi"] /\
  map cell_incomplete (nb_cells Do_It_Yourself) =
    [true; true; false; false; true; false; true] /\
  hd_error (run_notebook Do_It_Yourself) = Some SyntaxError /\
  executes_cleanly Do_It_Yourself = false /\
  incomplete_assignments (fill_notebook Samples.tutorial_fill Do_It_Yourself) = [] /\
  executes_cleanly (fill_notebook Samples.tutorial_fill Do_It_Yourself) = true.
Proof.
  split; [ simpl; tauto | ].
  repeat split; reflexivity.
Qed.

(** No other notebook has an incomplete cell. *)
Lemma only_the_tutorial_is_incomplete (nb : notebook) :
  In nb all_notebooks -> incomplete_assignments nb <> [] -> nb = Do_It_Yourself.
Proof.
  intros Hin Hne.
  each_notebook Hin ltac:(first [ reflexivity | exfalso; apply Hne; reflexivity ]).
Qed.

Lemma only_the_tutorial_is_incomplete_witness :
  Do_It_Yourself = Do_It_Yourself.
Proof.
  apply only_the_tutorial_is_incomplete; [ simpl; tauto | discriminate ].
Defined.

(** ** Parallelism *)

(** C1, as stated, fails: the tiled segmentation notebook engages
    parallel execution without the Dask connection.  It asks
    [performTiledSegmentation] for [ncpus] worker processes, [ncpus]
    being 5, and imports a process pool. *)
Lemma C1_counterexample :
  exists c,
    In Tiled_Segmentation all_notebooks /\
    In c (parallelism_sites Tiled_Segmentation) /\
    c <> dask_client_call /\
    callee_path c = Some ["tiledSegParallel"; "performTiledSegmentation"] /\
    requested_keywords c = [("ncpus", EName "ncpus")] /\
    definitions Tiled_Segmentation "ncpus" = [EInt 5] /\
    map module (parallel_imports Tiled_Segmentation) = ["pathos.multiprocessing"].
Proof.
  eexists. split; [ simpl; tauto | ].
  split; [ left; reflexivity | ].
  split; [ discriminate | ].
  repeat split; reflexivity.
Qed.

(** C1, amended: every place where a notebook engages parallel
    execution is one of four.  The only call into the interface of a
    parallel library is the Dask notebook's connection to the scheduler
    that already runs, so no notebook creates or coordinates workers
    itself; the other three sites are keyword arguments that leave the
    parallel work to the callee: [dask_chunks] on the Dask notebook's
    load, [lazy_load] on the site-matching load, and [ncpus] (bound to 5)
    on the tiled segmentation. *)
Theorem C1_parallelism_sites :
  forall nb c,
    In nb all_notebooks ->
    In c (parallelism_sites nb) ->
    (nb = Dask_Average_Colour /\ c = dask_client_call)
    \/ (~ In c (parallel_api_calls nb) /\
        ((nb = Dask_Average_Colour /\
          callee_path c = Some ["dc"; "load"] /\
          map fst (requested_keywords c) = ["dask_chunks"])
         \/ (nb = Site_matching /\
             callee_path c = Some ["load_ard"] /\
             requested_keywords c = [("lazy_load", EBool true)])
         \/ (nb = Tiled_Segmentation /\
             callee_path c = Some ["tiledSegParallel"; "performTiledSegmentation"] /\
             requested_keywords c = [("ncpus", EName "ncpus")] /\
             definitions nb "ncpus" = [EInt 5]))).
Proof.
  intros nb c Hin Hc.
  each_notebook Hin
    ltac:(vm_compute in Hc;
          repeat (destruct Hc as [<- | Hc]);
          try contradiction;
          first [ left; split; reflexivity
                | right; split;
                  [ intro Hapi; vm_compute in Hapi;
                    repeat (destruct Hapi as [Hapi | Hapi]; try discriminate);
                    contradiction
                  | first [ left; repeat split; reflexivity
                          | right; left; repeat split; reflexivity
                          | right; right; repeat split; reflexivity ] ] ]).
Qed.

Lemma C1_witness :
  exists c,
    In c (parallelism_sites Tiled_Segmentation) /\
    ~ In c (parallel_api_calls Tiled_Segmentation) /\
    definitions Tiled_Segmentation "ncpus" = [EInt 5].
Proof.
  eexists. split; [ left; reflexivity | ].
  destruct (C1_parallelism_sites Tiled_Segmentation _
              ltac:(simpl; tauto) ltac:(left; reflexivity))
    as [[Hnb _] | [Hno [[Hnb _] | [[Hnb _] | [_ [_ [_ Hn]]]]]]];
    try discriminate Hnb.
  split; assumption.
Defined.

(** The process pool the segmentation notebook imports is never
    called, and across all notebooks the scheduler connection is the
    only call into a parallel library. *)
Lemma one_call_into_parallel_libraries :
  flat_map parallel_api_calls all_notebooks = [dask_client_call] /\
  map bound (parallel_imports Tiled_Segmentation) = ["Pool"] /\
  calls_named Tiled_Segmentation "Pool" = [].
Proof. repeat split; reflexivity. Qed.

(** ** How the named operations are realised *)

(** C2, as stated, fails: the water index of the coastal notebook is
    not a call into a library, it is computed in the cell by array
    arithmetic; and the segmentation is a call into a script of the
    repository. *)
Lemma C2_counterexample :
  In MNDWI all_operations /\
  realised_as MNDWI = InlineArithmetic Div /\
  realised_as ImageSegmentation =
    RepositoryCall "tiledSegParallel" ["tiledSegParallel"; "performTiledSegmentation"].
Proof. split; [ simpl; tauto | split; reflexivity ]. Qed.

(** C2, amended: of the named operations only the hypothesis test is a
    single call into an external library (scipy).  MNDWI, NDWI and NDCI
    are computed in the cell as a quotient of band arithmetic; NDVI, the
    coastal tide tagging and the segmentation are single calls into the
    repository's own helper modules; the intertidal tide tagging is a
    chain of pandas and xarray methods.  No notebook defines a function
    for any of them: the only function a notebook defines is [get_rgb]. *)
Theorem C2_realisation_of_operations :
  realised_as HypothesisTest = ExternalCall "scipy" ["stats"; "ttest_ind"] /\
  realised_as NDVI = RepositoryCall "utils.dea_bandindices" ["calculate_indices"] /\
  realised_as MNDWI = InlineArithmetic Div /\
  realised_as NDWI = InlineArithmetic Div /\
  realised_as NDCI = InlineArithmetic Div /\
  realised_as TideTaggingCoastal =
    RepositoryCall "utils" ["waterline_funcs"; "tidal_tag"] /\
  realised_as TideTaggingIntertidal =
    MethodChain [["tide_data_xr"; "interp"]; ["tide_data"; "to_xarray"];
                 ["pd"; "read_csv"]] /\
  realised_as ImageSegmentation =
    RepositoryCall "tiledSegParallel" ["tiledSegParallel"; "performTiledSegmentation"] /\
  flat_map defined_functions all_notebooks = ["get_rgb"].
Proof. repeat split; reflexivity. Qed.

(** Each operation is carried out by one expression of its notebook. *)
Lemma every_operation_is_carried_out (op : operation) :
  exists e, snd (carried_out op) = Some e.
Proof. destruct op; eexists; reflexivity. Qed.

(** ** Tide tagging *)

Import Tides.

Lemma lookup_graph (f : Z -> fl) (ts : list Z) (t : Z) :
  In t ts -> lookup (map (fun x => (x, f x)) ts) t = f t.
Proof.
  unfold lookup. induction ts as [| x ts IH]; intros Hin.
  - contradiction.
  - simpl. destruct (Z.eqb_spec x t) as [-> | Hne].
    + reflexivity.
    + destruct Hin as [-> | Hin]; [ congruence | exact (IH Hin) ].
Qed.

Lemma get_var_set_var (ds : dataset) (k : string) (da : dataarray) :
  get_var (set_var ds k da) k = Some (map (lookup da) (time ds)).
Proof.
  unfold get_var, set_var. simpl. rewrite String.eqb_refl. reflexivity.
Qed.


Lemma tagged_values (f : Z -> fl) (ds : dataset) :
  get_var (set_var ds "tide_height" (map (fun t => (t, f t)) (time ds))) "tide_height"
  = Some (map f (time ds)).
Proof.
  rewrite get_var_set_var. f_equal.
  apply map_ext_in. intros t Hin. apply lookup_graph. exact Hin.
Qed.

Lemma tag_from_file_some (tide_data : list (Z * Q)) (landsat_ds tagged : dataset) :
  tag_from_file tide_data landsat_ds = Some tagged ->
  tide_data <> [] /\ time landsat_ds <> [] /\
  distinct (map fst tide_data) = true /\
  tagged = set_var landsat_ds "tide_height"
             (map (fun t => (t, interp1 (sortby_time tide_data) t)) (time landsat_ds)).
Proof.
  unfold tag_from_file, interp. intros H.
  destruct tide_data as [| row rows]; [ discriminate H | ].
  destruct (time landsat_ds) as [| t ts]; [ discriminate H | ].
  destruct (distinct (map fst (row :: rows))); [ | discriminate H ].
  injection H as <-. repeat split; discriminate.
Qed.




(** The same holds of a tagging that asks a model for each timestamp,
    which is what the glossary says of [tidal_tag]. *)
Lemma tidal_tag_one_height_per_timestamp (tide_model : Z -> fl) (ds : dataset) :
  time (tidal_tag tide_model ds) = time ds /\
  get_var (tidal_tag tide_model ds) "tide_height" = Some (map tide_model (time ds)).
Proof. split; [ reflexivity | apply tagged_values ]. Qed.

(** ** Contour extraction *)

Import Contours.

(** C6: the notebooks call [contour_extract] twice, in the coastal and
    in the intertidal notebook, and both calls pass [z_values=[0]]: the
    only level traced is 0.  The rasters passed are the summaries of the
    water index (its median per time step, respectively per tidal
    interval), stacked along [time], respectively [tide_interval]; one
    line is produced per raster of the stack, each traced at level 0. *)
Theorem C6_contours_at_zero :
  forall (raster line : Type) (trace : raster -> Q -> line) (stack : list raster),
    map (fun nc => nb_title (fst nc)) contour_calls =
      ["Coastal Erosion Case Study"; "Intertidal elevation modelling case study"] /\
    map (fun nc => kwarg (snd nc) "z_values") contour_calls =
      [Some (EList [EInt 0]); Some (EList [EInt 0])] /\
    map (fun nc => (kwarg (snd nc) "ds_array", dim_of (snd nc))) contour_calls =
      [(Some (EName "landsat_summaries"), "time");
       (Some (EAttr (EName "landsat_intervals") "water_index"), "tide_interval")] /\
    provenance Coastal_Erosion 16 (EName "landsat_summaries") =
      [["median"]; ["resample"]; ["landsat_filtered"; "water_index"; "compute"];
       ["landsat_ds"; "where"]; ["waterline_funcs"; "load_cloudmaskedlandsat"]] /\
    provenance Intertidal_Elevation 16 (EName "landsat_intervals") =
      [["median"]; ["groupby"]; ["compute"];
       ["waterline_funcs"; "load_cloudmaskedlandsat"]] /\
    (forall nc, In nc contour_calls ->
       z_values_of (snd nc) = Some [0%Q] /\
       exists lines,
         contour_extract raster line trace [0%Q] stack = Some lines /\
         List.length lines = List.length stack /\
         forall i r, nth_error stack i = Some r ->
                     nth_error lines i = Some (trace r 0%Q)).
Proof.
  intros raster line trace stack.
  do 5 (split; [ reflexivity | ]).
  intros nc Hin. split.
  - unfold contour_calls in Hin. vm_compute in Hin.
    destruct Hin as [<- | [<- | []]]; reflexivity.
  - eexists. split; [ reflexivity | ]. split.
    + apply length_map.
    + intros i r Hi. rewrite nth_error_map, Hi. reflexivity.
Qed.

(** ** Band indices *)

Import Indices.

Lemma band_sum_positive (a b : Q) :
  (0 <= a)%Q -> (0 <= b)%Q -> ~ (a == 0 /\ b == 0)%Q -> (0 < a + b)%Q.
Proof.
  intros Ha Hb Hnz.
  destruct (Qlt_le_dec 0 a) as [Hpos | Hle]; [ lra | ].
  destruct (Qlt_le_dec 0 b) as [Hpos | Hle']; [ lra | ].
  exfalso. apply Hnz. split; lra.
Qed.

(** The normalized difference of two non-negative band values that are
    not both zero is a finite number between -1 and 1. *)
Lemma normalized_difference_bounds (a b : Q) :
  (0 <= a)%Q -> (0 <= b)%Q -> ~ (a == 0 /\ b == 0)%Q ->
  exists v, fdiv (fsub (Fin a) (Fin b)) (fadd (Fin a) (Fin b)) = Fin v /\
            (-1 <= v <= 1)%Q.
Proof.
  intros Ha Hb Hnz.
  pose proof (band_sum_positive a b Ha Hb Hnz) as Hpos.
  exists ((a + - b) / (a + b))%Q. split.
  - simpl. destruct (Qeq_bool (a + b) 0) eqn:E; [ | reflexivity ].
    apply Qeq_bool_iff in E. lra.
  - split.
    + apply Qle_shift_div_l; [ exact Hpos | lra ].
    + apply Qle_shift_div_r; [ exact Hpos | lra ].
Qed.

(** The value of [(A - B) / (A + B)] at a pixel is the normalized
    difference of the two band values. *)
Lemma eval_normalized_difference (px : pixel) (e : expr) (pa pb : list string) :
  normalized_difference e = Some (pa, pb) ->
  eval px e = Some (fdiv (fsub (px pa) (px pb)) (fadd (px pa) (px pb))).
Proof.
  unfold normalized_difference. intros H.
  destruct e as [| | | | | | | | | | | | | | op l r | | | | |]; try discriminate.
  destruct op; try discriminate.
  destruct l as [| | | | | | | | | | | | | | op1 a b | | | | |]; try discriminate.
  destruct op1; try discriminate.
  destruct r as [| | | | | | | | | | | | | | op2 a' b' | | | | |]; try discriminate.
  destruct op2; try discriminate.
  destruct (dotted a) as [qa |] eqn:Ea; try discriminate.
  destruct (dotted b) as [qb |] eqn:Eb; try discriminate.
  destruct (dotted a') as [qa' |] eqn:Ea'; try discriminate.
  destruct (dotted b') as [qb' |] eqn:Eb'; try discriminate.
  unfold path_eqb in H.
  destruct (list_eq_dec string_dec qa qa') as [<- |]; try discriminate.
  destruct (list_eq_dec string_dec qb qb') as [<- |]; try discriminate.
  simpl in H. injection H as <- <-.
  assert (Hread : forall x q, dotted x = Some q -> eval px x = Some (px q)).
  { intros x q Hx.
    destruct x; try discriminate Hx; cbn [eval]; rewrite Hx; reflexivity. }
  simpl. rewrite (Hread _ _ Ea), (Hread _ _ Eb), (Hread _ _ Ea'), (Hread _ _ Eb').
  reflexivity.
Qed.

(** C5: each of MNDWI, NDWI, NDCI and NDVI is computed by an
    expression of the form [(A - B) / (A + B)] over two bands, and at
    every pixel whose two band values are non-negative and not both zero
    its value is a finite number in the closed interval from -1 to 1. *)
Theorem C5_indices_are_normalized_differences :
  forall op,
    In op spectral_indices ->
    exists e pa pb,
      index_expression op = Some e /\
      normalized_difference e = Some (pa, pb) /\
      forall (px : pixel) (a b : Q),
        px pa = Fin a -> px pb = Fin b ->
        (0 <= a)%Q -> (0 <= b)%Q -> ~ (a == 0 /\ b == 0)%Q ->
        exists v, eval px e = Some (Fin v) /\ (-1 <= v <= 1)%Q.
Proof.
  intros op Hin.
  assert (Hform : exists e pa pb,
             index_expression op = Some e /\ normalized_difference e = Some (pa, pb)).
  { unfold spectral_indices in Hin. simpl in Hin.
    destruct Hin as [<- | [<- | [<- | [<- | []]]]];
      do 3 eexists; split; reflexivity. }
  destruct Hform as (e & pa & pb & He & Hnd).
  exists e, pa, pb. split; [ exact He | ]. split; [ exact Hnd | ].
  intros px a b Hpa Hpb Ha Hb Hnz.
  rewrite (eval_normalized_difference px e pa pb Hnd), Hpa, Hpb.
  destruct (normalized_difference_bounds a b Ha Hb Hnz) as (v & -> & Hv).
  exists v. split; [ reflexivity | exact Hv ].
Qed.

Lemma C5_witness :
  exists e v,
    index_expression MNDWI = Some e /\
    eval Samples.water_pixel e = Some (Fin v) /\ (-1 <= v <= 1)%Q.
Proof.
  destruct (C5_indices_are_normalized_differences MNDWI ltac:(simpl; tauto))
    as (e & pa & pb & He & Hnd & Hval).
  injection He as <-. injection Hnd as <- <-.
  destruct (Hval Samples.water_pixel 300%Q 100%Q eq_refl eq_refl
              ltac:(discriminate) ltac:(discriminate)
              ltac:(intros [H _]; discriminate H))
    as (v & Hv & Hbound).
  eexists _, v. split; [ reflexivity | ]. split; [ exact Hv | exact Hbound ].
Defined.

(** ** The forestry samples *)

Import ForestrySplit.

Lemma sel_mask_filter {A : Type} (f : A -> bool) (xs : list A) :
  sel_mask xs (map f xs) = filter f xs.
Proof.
  unfold sel_mask. induction xs as [| x xs IH]; simpl.
  - reflexivity.
  - destruct (f x); simpl; rewrite IH; reflexivity.
Qed.

Lemma filter_complement_permutation {A : Type} (f g : A -> bool) (xs : list A) :
  (forall x, g x = negb (f x)) ->
  Permutation (filter f xs ++ filter g xs) xs.
Proof.
  intros Hg. induction xs as [| x xs IH]; simpl.
  - constructor.
  - rewrite Hg. destruct (f x); simpl.
    + constructor. exact IH.
    + apply Permutation_sym, Permutation_cons_app, Permutation_sym, IH.
Qed.

Lemma after_is_not_before (t time_baseline : Z) :
  (t >? time_baseline) = negb (t <=? time_baseline).
Proof.
  destruct (Z.leb_spec t time_baseline), (Z.gtb_spec t time_baseline);
    simpl; try reflexivity; lia.
Qed.

(** C8: for every baseline date the two samples partition the series.
    Together they are the series up to order, a timestep of the baseline
    sample is at or before the baseline and one of the post-baseline
    sample is after it, so every timestep is in exactly one of them. *)
Theorem C8_samples_partition_the_series :
  forall (raster : Type) (ds_s2 : list (timestep raster)) (time_baseline : Z),
    Permutation (baseline_sample ds_s2 time_baseline ++
                 postbaseline_sample ds_s2 time_baseline) ds_s2 /\
    (List.length (baseline_sample ds_s2 time_baseline) +
     List.length (postbaseline_sample ds_s2 time_baseline) = List.length ds_s2)%nat /\
    (forall t, In t (baseline_sample ds_s2 time_baseline) <->
               In t ds_s2 /\ time t <= time_baseline) /\
    (forall t, In t (postbaseline_sample ds_s2 time_baseline) <->
               In t ds_s2 /\ time t > time_baseline) /\
    (forall t, In t ds_s2 ->
       (In t (baseline_sample ds_s2 time_baseline) /\
        ~ In t (postbaseline_sample ds_s2 time_baseline))
       \/ (In t (postbaseline_sample ds_s2 time_baseline) /\
           ~ In t (baseline_sample ds_s2 time_baseline))).
Proof.
  intros raster ds_s2 tb.
  unfold baseline_sample, postbaseline_sample.
  rewrite !sel_mask_filter.
  assert (Hperm : Permutation
            (filter (fun t => time t <=? tb) ds_s2 ++
             filter (fun t => time t >? tb) ds_s2) ds_s2).
  { apply filter_complement_permutation. intros t. apply after_is_not_before. }
  assert (Hb : forall t, In t (filter (fun t => time t <=? tb) ds_s2) <->
                         In t ds_s2 /\ time t <= tb).
  { intros t. rewrite filter_In, Z.leb_le. reflexivity. }
  assert (Hp : forall t, In t (filter (fun t => time t >? tb) ds_s2) <->
                         In t ds_s2 /\ time t > tb).
  { intros t. rewrite filter_In, Z.gtb_lt. split; intros [? ?]; split; auto; lia. }
  split; [ exact Hperm | ].
  split; [ rewrite <- length_app; apply Permutation_length, Hperm | ].
  split; [ exact Hb | ]. split; [ exact Hp | ].
  intros t Hin. rewrite Hb, Hp.
  destruct (Z.le_gt_cases (time t) tb) as [Hle | Hgt].
  - left. split; [ tauto | intros [_ H]; lia ].
  - right. split; [ split; [ exact Hin | lia ] | intros [_ H]; lia ].
Qed.

(** The sample series splits around its baseline at time 10. *)
Example forestry_split_sample :
  map time (baseline_sample Samples.ndvi_series 10) = [5; 10] /\
  map time (postbaseline_sample Samples.ndvi_series 10) = [15].
Proof. split; reflexivity. Qed.

(** ** The average colour *)

Import Rgb.

Lemma string_length_append (s t : string) :
  String.length (s ++ t)%string = (String.length s + String.length t)%nat.
Proof. induction s as [| c s IH]; simpl; [ reflexivity | rewrite IH; reflexivity ]. Qed.

(** Clipping a number to the unit interval gives a finite number of the
    unit interval, also when the number is infinite. *)
Lemma clip_unit_interval (x : fl) :
  is_nan x = false ->
  exists c, clip x (Fin 0) (Fin 1) = Fin c /\ (0 <= c <= 1)%Q.
Proof.
  intros Hx.
  destruct x as [| | | q];
    [ discriminate Hx
    | exists 1%Q; split; [ reflexivity | lra ]
    | exists 0%Q; split; [ reflexivity | lra ]
    | ].
  unfold clip, fmax, fmin, fle.
  destruct (Qle_bool q 0) eqn:E0.
  - exists 0%Q. split; [ reflexivity | lra ].
  - destruct (Qle_bool q 1) eqn:E1.
    + exists q. split; [ reflexivity | ].
      apply Qle_bool_iff in E1.
      assert (~ (q <= 0)%Q) by (rewrite <- Qle_bool_iff; congruence).
      lra.
    + exists 1%Q. split; [ reflexivity | lra ].
Qed.

Lemma truncation_is_floor (x : Q) :
  (0 <= x)%Q -> Z.quot (Qnum x) (Zpos (Qden x)) = Qfloor x.
Proof.
  destruct x as [n d]. unfold Qle. simpl. intros H.
  apply Z.quot_div_nonneg; lia.
Qed.

(** In exact arithmetic a channel of a band value that is not NaN is
    the integer part of 255 times the clipped value, an integer from 0
    to 255. *)
Lemma channel_range (x : fl) :
  is_nan x = false ->
  exists c n,
    clip x (Fin 0) (Fin 1) = Fin c /\ (0 <= c <= 1)%Q /\
    channel x = Some n /\ n = Qfloor (c * 255) /\ 0 <= n <= 255.
Proof.
  intros Hx. unfold channel.
  destruct (clip_unit_interval x Hx) as (c & -> & Hc).
  exists c. unfold fmul, to_int. eexists.
  assert (H0 : (0 <= c * 255)%Q) by lra.
  assert (H1 : (c * 255 <= 255)%Q) by lra.
  rewrite truncation_is_floor by exact H0.
  repeat split; try reflexivity; try apply Hc.
  - change 0 with (Qfloor 0). apply Qfloor_resp_le. exact H0.
  - change 255 with (Qfloor 255). apply Qfloor_resp_le. exact H1.
Qed.

(** Two hexadecimal digits are enough for an integer from 0 to 255, and
    [{:02x}] prints exactly two. *)
Lemma format_02x_two_digits (n : Z) :
  0 <= n <= 255 -> String.length (format_02x n) = 2%nat.
Proof.
  intros Hn.
  assert (Hall : forallb (fun k => Nat.eqb (String.length (format_02x (Z.of_nat k))) 2)
                         (seq 0 256) = true) by (vm_compute; reflexivity).
  rewrite forallb_forall in Hall.
  specialize (Hall (Z.to_nat n)).
  rewrite Z2Nat.id in Hall by lia.
  apply Nat.eqb_eq, Hall, in_seq. lia.
Qed.

(** C9: on band values that are numbers (not NaN) [get_rgb] returns
    three integers from 0 to 255 and a hex string of seven characters
    that starts with a hash sign.  Each integer comes from the band
    value clipped to the unit interval: it is the integer part of 255
    times the clipped value, or one more (the code rounds the product
    to a float before [int], which can reach the next integer). *)
Theorem C9_get_rgb_range :
  forall scaled_ds : string -> fl,
    (forall band, In band ["red"; "green"; "blue"] ->
                  is_nan (scaled_ds band) = false) ->
    exists red green blue hex_value,
      get_rgb scaled_ds = Some ([red; green; blue], hex_value) /\
      0 <= red <= 255 /\ 0 <= green <= 255 /\ 0 <= blue <= 255 /\
      String.length hex_value = 7%nat /\
      String.get 0 hex_value = Some "#"%char /\
      (forall band value,
         In (band, value) [("red", red); ("green", green); ("blue", blue)] ->
         exists c, clip (scaled_ds band) (Fin 0) (Fin 1) = Fin c /\
                   (0 <= c <= 1)%Q /\
                   Qfloor (c * 255) <= value <= Qfloor (c * 255) + 1).
Proof.
  intros scaled_ds Hnum.
  assert (Hch : forall band, In band ["red"; "green"; "blue"] ->
                  exists c n,
                    clip (scaled_ds band) (Fin 0) (Fin 1) = Fin c /\
                    (0 <= c <= 1)%Q /\ channel (scaled_ds band) = Some n /\
                    n = Qfloor (c * 255) /\ 0 <= n <= 255).
  { intros band Hin. apply channel_range, Hnum, Hin. }
  destruct (Hch "red" ltac:(simpl; tauto)) as (cr & red & Hcr & Hur & Hr & Hfr & Hred).
  destruct (Hch "green" ltac:(simpl; tauto)) as (cg & green & Hcg & Hug & Hg & Hfg & Hgreen).
  destruct (Hch "blue" ltac:(simpl; tauto)) as (cb & blue & Hcb & Hub & Hb & Hfb & Hblue).
  exists red, green, blue. eexists.
  split.
  - unfold get_rgb. simpl traverse. rewrite Hr, Hg, Hb. reflexivity.
  - repeat (split; [ assumption | ]).
    split; [ | split; [ reflexivity | ] ].
    + rewrite !string_length_append, !format_02x_two_digits by assumption.
      reflexivity.
    + intros band value [H | [H | [H | []]]]; injection H as <- <-.
      * exists cr. rewrite Hfr. repeat split; try assumption; try apply Hur; try apply Hug; try apply Hub; lia.
      * exists cg. rewrite Hfg. repeat split; try assumption; try apply Hur; try apply Hug; try apply Hub; lia.
      * exists cb. rewrite Hfb. repeat split; try assumption; try apply Hur; try apply Hug; try apply Hub; lia.
Qed.

Lemma C9_witness :
  exists red green blue hex_value,
    get_rgb Samples.scaled_average = Some ([red; green; blue], hex_value) /\
    0 <= red <= 255 /\ String.length hex_value = 7%nat.
Proof.
  destruct (C9_get_rgb_range Samples.scaled_average)
    as (red & green & blue & hex_value & Hrgb & Hred & _ & _ & Hlen & _).
  - intros band [<- | [<- | [<- | []]]]; reflexivity.
  - exists red, green, blue, hex_value. repeat split; try assumption; try apply Hur; try apply Hug; try apply Hub; lia.
Defined.

(** The sample colour, computed. *)
Example get_rgb_sample :
  get_rgb Samples.scaled_average = Some ([170; 85; 51], "#aa5533").
Proof. reflexivity. Qed.

(** On NaN [int] raises, so [get_rgb] returns nothing. *)
Example get_rgb_nan :
  get_rgb (fun _ => NaN) = None.
Proof. reflexivity. Qed.

(** ** Site matching *)

Import SiteMatching MatchSpec.

Lemma same_length_columns (rows : list row) : same_length (columns rows) = true.
Proof.
  unfold same_length, columns. simpl.
  rewrite !length_map, Nat.eqb_refl. reflexivity.
Qed.

Lemma zip_rows_columns (rows : list row) :
  zip_rows (map r_SiteName rows) (map r_ObservationDate rows)
           (map r_TimeDelta rows) (map r_ObservationValue rows)
           (map r_Red rows) (map r_RedEdge rows) (map r_NDCI rows) = rows.
Proof.
  induction rows as [| r rows IH]; simpl.
  - reflexivity.
  - rewrite IH. destruct r. reflexivity.
Qed.

Lemma location_results_columns (rows : list row) :
  location_results (columns rows) = Some rows.
Proof.
  unfold location_results. rewrite same_length_columns.
  unfold columns. simpl. rewrite zip_rows_columns. reflexivity.
Qed.

Lemma round_digits_nan (x : fl) (n : Z) : is_nan (round_digits x n) = is_nan x.
Proof. destruct x; reflexivity. Qed.

Lemma ns_per_day_positive : 0 < ns_per_day.
Proof. reflexivity. Qed.

(** Whole days at most [w] means less than [w + 1] days. *)
Lemma days_bound (delta w : Z) :
  days delta <= w -> delta < (w + 1) * ns_per_day.
Proof.
  unfold days. intros H.
  pose proof ns_per_day_positive as Hd.
  pose proof (Z.div_mod delta ns_per_day ltac:(lia)) as Hdm.
  pose proof (Z.mod_pos_bound delta ns_per_day Hd) as Hm.
  nia.
Qed.

(** One pass of the inner loop appends to all seven lists or to none. *)
Lemma visit_appends (obs_window : Z) (s : site) (acc acc' : accumulators)
    (count : nat) (d : Z) :
  visit obs_window s acc count d = Some acc' ->
  acc' = acc \/
  exists p value,
    sel_nearest d (ds_s2 s) = Some p /\
    days (time_delta d p) <= obs_window /\
    nth_error (site_values s) count = Some value /\
    is_nan (ndci p) = false /\ is_nan value = false /\
    acc' = {| site_names := site_names acc ++ [SiteName s];
              match_dates := match_dates acc ++ [d];
              match_values := match_values acc ++ [value];
              ndci_values := ndci_values acc ++ [round_digits (ndci p) 4];
              red_values := red_values acc ++ [nbart_red p];
              rededge_values := rededge_values acc ++ [nbart_red_edge_1 p];
              time_deltas := time_deltas acc ++ [days (time_delta d p)] |}.
Proof.
  unfold visit. intros H.
  destruct (sel_nearest d (ds_s2 s)) as [p |] eqn:Hsel; [ | discriminate ].
  destruct (days (time_delta d p) <=? obs_window) eqn:Hwin; [ | left; congruence ].
  destruct (negb (is_nan (ndci p))) eqn:Hn1; [ | left; congruence ].
  destruct (nth_error (site_values s) count) as [value |] eqn:Hval;
    [ | discriminate ].
  destruct (negb (is_nan value)) eqn:Hn2; [ | left; congruence ].
  right. exists p, value.
  apply negb_true_iff in Hn1, Hn2. apply Z.leb_le in Hwin.
  injection H as <-. repeat split; assumption || reflexivity.
Qed.

(** The lists stay equally long through every pass. *)
Lemma visit_keeps_same_length (obs_window : Z) (s : site)
    (acc acc' : accumulators) (count : nat) (d : Z) :
  same_length acc = true ->
  visit obs_window s acc count d = Some acc' ->
  same_length acc' = true.
Proof.
  intros Hlen Hv.
  destruct (visit_appends _ _ _ _ _ _ Hv) as [-> | (p & value & _ & _ & _ & _ & _ & ->)].
  - exact Hlen.
  - unfold same_length in *. simpl.
    repeat (apply andb_true_iff in Hlen; destruct Hlen as [Hlen ?]).
    repeat match goal with H : (_ =? _)%nat = true |- _ => apply Nat.eqb_eq in H end.
    rewrite !length_app. simpl.
    repeat (apply andb_true_iff; split); apply Nat.eqb_eq; lia.
Qed.

Section Invariant.

Variable obs_window : Z.
Variable locations : list site.

Lemma table_initially : table_of_matches obs_window locations empty_lists.
Proof. exists []. split; [ reflexivity | constructor ]. Qed.

Lemma visit_keeps_table (s : site) (acc acc' : accumulators) (count : nat) (d : Z) :
  In s locations ->
  table_of_matches obs_window locations acc ->
  visit obs_window s acc count d = Some acc' ->
  table_of_matches obs_window locations acc'.
Proof.
  intros Hs (rows & -> & Hrows) Hv.
  destruct (visit_appends _ _ _ _ _ _ Hv)
    as [-> | (p & value & Hsel & Hwin & Hval & Hn1 & Hn2 & ->)].
  - exists rows. split; [ reflexivity | exact Hrows ].
  - exists (rows ++ [ {| r_SiteName := SiteName s; r_ObservationDate := d;
                         r_TimeDelta := days (time_delta d p);
                         r_ObservationValue := value; r_Red := nbart_red p;
                         r_RedEdge := nbart_red_edge_1 p;
                         r_NDCI := round_digits (ndci p) 4 |} ]).
    split.
    + unfold columns. simpl. rewrite !map_app. reflexivity.
    + apply Forall_app. split; [ exact Hrows | ].
      constructor; [ | constructor ].
      unfold recorded. simpl.
      split; [ exact Hwin | ].
      split; [ rewrite round_digits_nan; exact Hn1 | ].
      split; [ exact Hn2 | ].
      exists s, p. repeat split; try assumption; try reflexivity.
      apply days_bound. exact Hwin.
Qed.

Lemma loop_dates_keeps_table (s : site) (site_dates : list Z) :
  In s locations ->
  forall acc acc' count,
    table_of_matches obs_window locations acc ->
    loop_dates obs_window s acc count site_dates = Some acc' ->
    table_of_matches obs_window locations acc'.
Proof.
  intros Hs. induction site_dates as [| d rest IH]; intros acc acc' count Hacc Hloop.
  - simpl in Hloop. injection Hloop as <-. exact Hacc.
  - simpl in Hloop.
    destruct (visit obs_window s acc count d) as [acc1 |] eqn:Hv; [ | discriminate ].
    apply (IH acc1 acc' (S count)); [ | exact Hloop ].
    exact (visit_keeps_table s acc acc1 count d Hs Hacc Hv).
Qed.

Lemma loop_sites_keeps_table (site_dates : list Z) (sites : list site) :
  incl sites locations ->
  forall acc acc',
    table_of_matches obs_window locations acc ->
    loop_sites obs_window site_dates acc sites = Some acc' ->
    table_of_matches obs_window locations acc'.
Proof.
  induction sites as [| s rest IH]; intros Hincl acc acc' Hacc Hloop.
  - simpl in Hloop. injection Hloop as <-. exact Hacc.
  - simpl in Hloop.
    destruct (loop_dates obs_window s acc 0 site_dates) as [acc1 |] eqn:Hd;
      [ | discriminate ].
    apply (IH (fun x Hx => Hincl x (or_intror Hx)) acc1 acc'); [ | exact Hloop ].
    apply (loop_dates_keeps_table s site_dates (Hincl s (or_introl eq_refl))
             acc acc1 0%nat Hacc Hd).
Qed.

End Invariant.

(** The loop finishes without an exception when every site has at
    least one satellite timestep and a ground value for every date. *)
Lemma sel_nearest_some (target : Z) (ds : list timestep) :
  ds <> [] -> exists p, sel_nearest target ds = Some p.
Proof.
  destruct ds as [| t rest]; [ congruence | intros _ ].
  simpl. destruct (sel_nearest target rest) as [u |].
  - destruct (Z.abs (target - time t) <? Z.abs (target - time u)); eexists; reflexivity.
  - eexists; reflexivity.
Qed.

Lemma loop_dates_total (obs_window : Z) (s : site) (site_dates : list Z) :
  ds_s2 s <> [] ->
  forall acc count,
    (count + List.length site_dates <= List.length (site_values s))%nat ->
    exists acc', loop_dates obs_window s acc count site_dates = Some acc'.
Proof.
  intros Hds. induction site_dates as [| d rest IH]; intros acc count Hlen.
  - eexists; reflexivity.
  - simpl in Hlen. simpl.
    assert (Hv : exists acc1, visit obs_window s acc count d = Some acc1).
    { unfold visit.
      destruct (sel_nearest_some d (ds_s2 s) Hds) as (p & ->).
      destruct (nth_error (site_values s) count) as [value |] eqn:Hnth.
      - destruct (days (time_delta d p) <=? obs_window);
          [ destruct (negb (is_nan (ndci p))); [ destruct (negb (is_nan value)) | ] | ];
          eexists; reflexivity.
      - apply nth_error_None in Hnth. lia. }
    destruct Hv as (acc1 & ->). apply IH. lia.
Qed.

(** Neither the lookup of the nearest timestep nor the indexing of the
    ground values raises when every site has a satellite timestep and
    a ground value for every sampling date. *)
Lemma match_all_total (obs_window : Z) (site_dates : list Z) (locations : list site) :
  (forall s, In s locations ->
     ds_s2 s <> [] /\ (List.length site_dates <= List.length (site_values s))%nat) ->
  exists acc, match_all obs_window site_dates locations = Some acc.
Proof.
  unfold match_all. generalize empty_lists.
  induction locations as [| s rest IH]; intros acc Hok.
  - eexists; reflexivity.
  - simpl.
    destruct (Hok s (or_introl eq_refl)) as [Hds Hlen].
    destruct (loop_dates_total obs_window s site_dates Hds acc 0%nat Hlen) as (acc1 & ->).
    apply IH. intros s' Hs'. apply Hok. right. exact Hs'.
Qed.

Lemma match_all_total_witness :
  exists acc, match_all 7 [Samples.sampling_date] [Samples.lagoon] = Some acc.
Proof.
  apply match_all_total.
  intros s [<- | []]. split; [ discriminate | simpl; lia ].
Defined.

(** C10, as stated, fails on the distance in time: a satellite pass
    seven days and one hour before the sampling date is recorded under a
    window of seven days, with [TimeDelta] 7. *)
Lemma C10_counterexample :
  exists r,
    matched_data 7 [Samples.sampling_date] [Samples.lagoon] = Some [r] /\
    r_TimeDelta r = 7 /\
    sel_nearest (r_ObservationDate r) (ds_s2 Samples.lagoon) = Some Samples.late_pass /\
    time_delta (r_ObservationDate r) Samples.late_pass = 7 * ns_per_day + Samples.hour /\
    time_delta (r_ObservationDate r) Samples.late_pass > 7 * ns_per_day.
Proof.
  eexists. split; [ reflexivity | ].
  repeat split; reflexivity.
Qed.

(** C10, amended: the seven lists are appended to together, so they
    have equal length after every pass of the loop and at its end, and
    the table built from them is written without error.  Every row stems
    from the satellite timestep nearest to the observation date; the
    whole days between the two, which is the row's [TimeDelta], are at
    most [obs_window], so the timestep is less than [obs_window + 1]
    days away; its NDCI and its ground value are not NaN. *)
Theorem C10_matched_rows :
  forall obs_window site_dates locations acc,
    match_all obs_window site_dates locations = Some acc ->
    same_length acc = true /\
    (forall s acc0 acc1 count d,
       same_length acc0 = true ->
       visit obs_window s acc0 count d = Some acc1 ->
       same_length acc1 = true) /\
    exists rows,
      matched_data obs_window site_dates locations = Some rows /\
      acc = columns rows /\
      forall r, In r rows -> recorded obs_window locations r.
Proof.
  intros obs_window site_dates locations acc Hrun.
  assert (Htab : table_of_matches obs_window locations acc).
  { apply (loop_sites_keeps_table obs_window locations site_dates locations
             (incl_refl _) empty_lists acc (table_initially _ _) Hrun). }
  destruct Htab as (rows & -> & Hrows).
  split; [ apply same_length_columns | ].
  split; [ intros s acc0 acc1 count d; apply visit_keeps_same_length | ].
  exists rows. split.
  - unfold matched_data. rewrite Hrun. apply location_results_columns.
  - split; [ reflexivity | ].
    apply Forall_forall. exact Hrows.
Qed.

Lemma C10_witness :
  exists rows,
    matched_data 7 [Samples.sampling_date] [Samples.lagoon] = Some rows /\
    forall r, In r rows -> r_TimeDelta r <= 7 /\ is_nan (r_NDCI r) = false.
Proof.
  assert (Hrun : exists acc,
             match_all 7 [Samples.sampling_date] [Samples.lagoon] = Some acc)
    by (eexists; vm_compute; reflexivity).
  destruct Hrun as (acc & Hacc).
  destruct (C10_matched_rows 7 [Samples.sampling_date] [Samples.lagoon] acc Hacc)
    as (_ & _ & rows & Hrows & _ & Hrec).
  exists rows. split; [ exact Hrows | ].
  intros r Hr. destruct (Hrec r Hr) as (Hdelta & Hndci & _).
  split; assumption.
Defined.

(* ------------------------------------------------------------------ *)
(** * Part II, continued: further properties of the cells *)
(* ------------------------------------------------------------------ *)

(** ** Site matching: which rows are written *)

Import Lists MatchTable.

Lemma subsequence_refl {A : Type} (xs : list A) : subsequence xs xs.
Proof. induction xs; [ apply sub_nil | apply sub_keep; assumption ]. Qed.

Lemma subsequence_nil {A : Type} (ys : list A) : subsequence [] ys.
Proof. induction ys; [ apply sub_nil | apply sub_skip; assumption ]. Qed.

Lemma subsequence_app {A : Type} (xs xs' ys ys' : list A) :
  subsequence xs ys -> subsequence xs' ys' -> subsequence (xs ++ xs') (ys ++ ys').
Proof.
  intros H H'. induction H; simpl.
  - exact H'.
  - apply sub_skip. assumption.
  - apply sub_keep. assumption.
Qed.


Lemma subsequence_In {A : Type} (xs ys : list A) (x : A) :
  subsequence xs ys -> In x xs -> In x ys.
Proof.
  induction 1; simpl; intros Hin.
  - contradiction.
  - right. auto.
  - destruct Hin as [-> | Hin]; [ left; reflexivity | right; auto ].
Qed.

Lemma subsequence_map {A B : Type} (f : A -> B) (xs ys : list A) :
  subsequence xs ys -> subsequence (map f xs) (map f ys).
Proof.
  induction 1; simpl;
    [ apply sub_nil | apply sub_skip; assumption | apply sub_keep; assumption ].
Qed.

Lemma columns_app (rows : list row) (r : row) :
  columns (rows ++ [r]) =
  {| site_names := site_names (columns rows) ++ [r_SiteName r];
     match_dates := match_dates (columns rows) ++ [r_ObservationDate r];
     match_values := match_values (columns rows) ++ [r_ObservationValue r];
     ndci_values := ndci_values (columns rows) ++ [r_NDCI r];
     red_values := red_values (columns rows) ++ [r_Red r];
     rededge_values := rededge_values (columns rows) ++ [r_RedEdge r];
     time_deltas := time_deltas (columns rows) ++ [r_TimeDelta r] |}.
Proof. unfold columns. simpl. rewrite !map_app. reflexivity. Qed.

(** A pass of the inner loop that ends without exception appends
    exactly the row [match_at] describes. *)
Lemma visit_match_at (obs_window : Z) (s : site) (rows : list row)
    (acc' : accumulators) (count : nat) (d : Z) :
  visit obs_window s (columns rows) count d = Some acc' ->
  acc' = columns (rows ++ option_list (match_at obs_window s count d)).
Proof.
  unfold visit, match_at. intros H.
  destruct (sel_nearest d (ds_s2 s)) as [p |]; [ | discriminate ].
  destruct (days (time_delta d p) <=? obs_window); simpl.
  - destruct (negb (is_nan (ndci p))); simpl.
    + destruct (nth_error (site_values s) count) as [value |]; [ | discriminate ].
      destruct (negb (is_nan value)); simpl.
      * injection H as <-. rewrite columns_app. reflexivity.
      * injection H as <-. rewrite app_nil_r. reflexivity.
    + injection H as <-.
      destruct (nth_error (site_values s) count); rewrite app_nil_r; reflexivity.
  - injection H as <-.
    destruct (nth_error (site_values s) count); rewrite app_nil_r; reflexivity.
Qed.

Lemma loop_dates_rows (obs_window : Z) (s : site) (site_dates : list Z) :
  forall rows acc' count,
    loop_dates obs_window s (columns rows) count site_dates = Some acc' ->
    acc' = columns (rows ++
             flat_map (fun cd => option_list (match_at obs_window s (fst cd) (snd cd)))
                      (enumerate_from count site_dates)).
Proof.
  induction site_dates as [| d rest IH]; intros rows acc' count H; simpl in *.
  - injection H as <-. rewrite app_nil_r. reflexivity.
  - destruct (visit obs_window s (columns rows) count d) as [acc1 |] eqn:Hv;
      [ | discriminate ].
    apply visit_match_at in Hv. subst acc1.
    apply IH in H. rewrite H, <- app_assoc. reflexivity.
Qed.

Lemma loop_sites_rows (obs_window : Z) (site_dates : list Z) (sites : list site) :
  forall rows acc',
    loop_sites obs_window site_dates (columns rows) sites = Some acc' ->
    acc' = columns (rows ++ expected_rows obs_window site_dates sites).
Proof.
  induction sites as [| s rest IH]; intros rows acc' H; simpl in *.
  - injection H as <-. rewrite app_nil_r. reflexivity.
  - destruct (loop_dates obs_window s (columns rows) 0 site_dates) as [acc1 |] eqn:Hd;
      [ | discriminate ].
    apply loop_dates_rows in Hd. subst acc1.
    apply IH in H. rewrite H, <- app_assoc. reflexivity.
Qed.

(** The table written is the comprehension over sites and dates. *)
Lemma matched_data_expected (obs_window : Z) (site_dates : list Z)
    (locations : list site) (rows : list row) :
  matched_data obs_window site_dates locations = Some rows ->
  rows = expected_rows obs_window site_dates locations.
Proof.
  unfold matched_data, match_all. intros H.
  destruct (loop_sites obs_window site_dates empty_lists locations) as [acc |] eqn:Hl;
    [ | discriminate ].
  change empty_lists with (columns []) in Hl.
  apply loop_sites_rows in Hl. subst acc. simpl in H.
  rewrite location_results_columns in H. injection H as <-. reflexivity.
Qed.


Lemma flat_map_subsequence {A B : Type} (f g : A -> list B) (xs : list A) :
  (forall x, In x xs -> subsequence (f x) (g x)) ->
  subsequence (flat_map f xs) (flat_map g xs).
Proof.
  induction xs as [| x xs IH]; intros H; simpl.
  - apply sub_nil.
  - apply subsequence_app.
    + apply H. left. reflexivity.
    + apply IH. intros y Hy. apply H. right. exact Hy.
Qed.

Lemma map_enumerate_from {A : Type} (count : nat) (xs : list A) :
  map snd (enumerate_from count xs) = xs.
Proof.
  revert count. induction xs as [| x xs IH]; intros count; simpl.
  - reflexivity.
  - rewrite IH. reflexivity.
Qed.

Lemma In_enumerate_from {A : Type} (xs : list A) :
  forall count i x,
    nth_error xs i = Some x -> In ((count + i)%nat, x) (enumerate_from count xs).
Proof.
  induction xs as [| y xs IH]; intros count i x H.
  - destruct i; discriminate.
  - destruct i as [| i]; simpl in *.
    + injection H as ->. left. f_equal. lia.
    + right. replace (count + S i)%nat with (S count + i)%nat by lia.
      apply IH. exact H.
Qed.




(** The timestep that [sel] returns is one of the dataset and no other
    timestep is closer to the target. *)
Lemma sel_nearest_minimal (target : Z) (ds : list timestep) (p : timestep) :
  sel_nearest target ds = Some p ->
  In p ds /\ forall t, In t ds -> time_delta target p <= time_delta target t.
Proof.
  unfold time_delta. revert p.
  induction ds as [| t0 rest IH]; intros p H; simpl in H.
  - discriminate.
  - destruct (sel_nearest target rest) as [u |] eqn:Hu.
    + destruct (IH u eq_refl) as [Hin Hmin].
      destruct (Z.ltb_spec (Z.abs (target - time t0)) (Z.abs (target - time u)));
        injection H as <-.
      * split; [ left; reflexivity | ].
        intros t [<- | Ht]; [ lia | specialize (Hmin t Ht); lia ].
      * split; [ right; exact Hin | ].
        intros t [<- | Ht]; [ lia | exact (Hmin t Ht) ].
    + injection H as <-. split; [ left; reflexivity | ].
      intros t [<- | Ht]; [ lia | ].
      destruct rest; [ contradiction | simpl in Hu ].
      destruct (sel_nearest target rest); [ destruct (_ <? _) | ]; discriminate.
Qed.

Lemma days_monotone (a b : Z) : a <= b -> days a <= days b.
Proof.
  unfold days. intros H. apply Z.div_le_mono; [ reflexivity | exact H ].
Qed.

Lemma days_nonnegative (target : Z) (p : timestep) : 0 <= days (time_delta target p).
Proof.
  unfold days, time_delta. apply Z.div_pos; [ lia | reflexivity ].
Qed.

(** No match is missed: when some satellite timestep of a site lies
    within [obs_window] whole days of a sampling date, and the NDCI at
    the nearest timestep and the ground value of that date are numbers,
    the table has a row for the site and the date, carrying that ground
    value and a [TimeDelta] no larger than the distance of the given
    timestep. *)
Theorem no_match_is_missed :
  forall obs_window site_dates locations rows s i d t p v,
    matched_data obs_window site_dates locations = Some rows ->
    In s locations ->
    nth_error site_dates i = Some d ->
    In t (ds_s2 s) ->
    days (time_delta d t) <= obs_window ->
    sel_nearest d (ds_s2 s) = Some p ->
    is_nan (ndci p) = false ->
    nth_error (site_values s) i = Some v ->
    is_nan v = false ->
    exists r,
      In r rows /\
      r_SiteName r = SiteName s /\ r_ObservationDate r = d /\
      r_ObservationValue r = v /\
      r_TimeDelta r = days (time_delta d p) /\
      r_TimeDelta r <= days (time_delta d t).
Proof.
  intros w dates sites rows s i d t p v Hrun Hs Hd Ht Hwin Hsel Hndci Hv Hvn.
  apply matched_data_expected in Hrun. subst rows.
  pose proof (sel_nearest_minimal d (ds_s2 s) p Hsel) as [_ Hmin].
  pose proof (days_monotone _ _ (Hmin t Ht)) as Hle.
  assert (Hm : match_at w s i d =
               Some {| r_SiteName := SiteName s; r_ObservationDate := d;
                       r_TimeDelta := days (time_delta d p);
                       r_ObservationValue := v; r_Red := nbart_red p;
                       r_RedEdge := nbart_red_edge_1 p;
                       r_NDCI := round_digits (ndci p) 4 |}).
  { unfold match_at. rewrite Hsel, Hv, Hndci, Hvn.
    replace (days (time_delta d p) <=? w) with true
      by (symmetry; apply Z.leb_le; lia).
    reflexivity. }
  eexists. split.
  - unfold expected_rows. apply in_flat_map. exists s. split; [ exact Hs | ].
    unfold site_rows. apply in_flat_map. exists (i, d). split.
    + exact (In_enumerate_from dates 0%nat i d Hd).
    + simpl. rewrite Hm. left. reflexivity.
  - simpl. repeat split; try reflexivity. exact Hle.
Qed.

Lemma no_match_is_missed_witness :
  exists r,
    In r [ {| r_SiteName := "Lagoon"; r_ObservationDate := Samples.sampling_date;
              r_TimeDelta := 7; r_ObservationValue := Fin 3; r_Red := Fin 100;
              r_RedEdge := Fin 300; r_NDCI := Fin (inject_Z 5000 / inject_Z 10000) |} ] /\
    r_ObservationValue r = Fin 3.
Proof.
  destruct (no_match_is_missed 7 [Samples.sampling_date] [Samples.lagoon] _
              Samples.lagoon 0%nat Samples.sampling_date Samples.late_pass
              Samples.late_pass (Fin 3)
              eq_refl (or_introl eq_refl) eq_refl (or_introl eq_refl)
              ltac:(vm_compute; discriminate) eq_refl eq_refl eq_refl eq_refl)
    as (r & Hin & _ & _ & Hv & _).
  exists r. split; assumption.
Defined.

Lemma match_at_wider_window (w1 w2 : Z) (s : site) (count : nat) (d : Z) (r : row) :
  w1 <= w2 ->
  match_at w1 s count d = Some r -> match_at w2 s count d = Some r.
Proof.
  unfold match_at. intros Hw H.
  destruct (sel_nearest d (ds_s2 s)) as [p |]; [ | discriminate ].
  destruct (nth_error (site_values s) count) as [v |]; [ | discriminate ].
  destruct (days (time_delta d p) <=? w1) eqn:E1; [ | discriminate ].
  apply Z.leb_le in E1.
  replace (days (time_delta d p) <=? w2) with true
    by (symmetry; apply Z.leb_le; lia).
  exact H.
Qed.

(** Widening the window only adds rows: the table for a window is the
    table for any larger window with some rows left out. *)
Theorem wider_window_keeps_every_match :
  forall w1 w2 site_dates locations rows1 rows2,
    w1 <= w2 ->
    matched_data w1 site_dates locations = Some rows1 ->
    matched_data w2 site_dates locations = Some rows2 ->
    subsequence rows1 rows2.
Proof.
  intros w1 w2 dates sites rows1 rows2 Hw H1 H2.
  apply matched_data_expected in H1, H2. subst rows1 rows2.
  unfold expected_rows. apply flat_map_subsequence. intros s _.
  unfold site_rows. apply flat_map_subsequence. intros [count d] _. simpl.
  destruct (match_at w1 s count d) as [r |] eqn:Hm; simpl.
  - rewrite (match_at_wider_window w1 w2 s count d r Hw Hm). apply subsequence_refl.
  - apply subsequence_nil.
Qed.

Lemma wider_window_keeps_every_match_witness :
  subsequence [] [ {| r_SiteName := "Lagoon"; r_ObservationDate := Samples.sampling_date;
                      r_TimeDelta := 7; r_ObservationValue := Fin 3; r_Red := Fin 100;
                      r_RedEdge := Fin 300;
                      r_NDCI := Fin (inject_Z 5000 / inject_Z 10000) |} ].
Proof.
  apply (wider_window_keeps_every_match 6 7 [Samples.sampling_date] [Samples.lagoon]).
  - lia.
  - reflexivity.
  - reflexivity.
Defined.

Lemma site_rows_negative_window (obs_window : Z) (site_dates : list Z) (s : site) :
  obs_window < 0 -> site_rows obs_window site_dates s = [].
Proof.
  intros Hw. unfold site_rows, enumerate. generalize 0%nat.
  induction site_dates as [| d dates IHd]; intros count; simpl; [ reflexivity | ].
  rewrite IHd, app_nil_r. unfold match_at.
  destruct (sel_nearest d (ds_s2 s)) as [p |]; [ | reflexivity ].
  destruct (nth_error (site_values s) count) as [v |]; [ | reflexivity ].
  pose proof (days_nonnegative d p).
  replace (days (time_delta d p) <=? obs_window) with false
    by (symmetry; apply Z.leb_gt; lia).
  reflexivity.
Qed.

(** A negative window matches nothing: the table is written empty. *)
Theorem negative_window_matches_nothing :
  forall obs_window site_dates locations rows,
    obs_window < 0 ->
    matched_data obs_window site_dates locations = Some rows ->
    rows = [].
Proof.
  intros w dates sites rows Hw H.
  apply matched_data_expected in H. subst rows.
  unfold expected_rows.
  induction sites as [| s rest IH]; simpl; [ reflexivity | ].
  rewrite IH, site_rows_negative_window by exact Hw. reflexivity.
Qed.

Lemma negative_window_matches_nothing_witness :
  matched_data (-1) [Samples.sampling_date] [Samples.lagoon] = Some [].
Proof.
  assert (Hrun : exists rows,
             matched_data (-1) [Samples.sampling_date] [Samples.lagoon] = Some rows)
    by (eexists; vm_compute; reflexivity).
  destruct Hrun as (rows & Hrows).
  rewrite Hrows. f_equal.
  apply (negative_window_matches_nothing (-1) [Samples.sampling_date]
           [Samples.lagoon] rows); [ lia | exact Hrows ].
Defined.

Lemma loop_dates_without_timesteps (obs_window : Z) (s : site)
    (acc : accumulators) (count : nat) (site_dates : list Z) :
  ds_s2 s = [] -> site_dates <> [] ->
  loop_dates obs_window s acc count site_dates = None.
Proof.
  intros Hds Hdates. destruct site_dates as [| d rest]; [ congruence | ].
  simpl. unfold visit. rewrite Hds. reflexivity.
Qed.

(** A site for which no satellite timestep was loaded ends the cell
    with an exception as soon as there is a date to look up, whatever the
    other sites hold: nothing is written. *)
Theorem site_without_timesteps_stops_matching :
  forall obs_window site_dates locations s,
    In s locations ->
    ds_s2 s = [] ->
    site_dates <> [] ->
    matched_data obs_window site_dates locations = None.
Proof.
  intros w dates sites s Hs Hds Hdates.
  unfold matched_data, match_all. generalize empty_lists.
  induction sites as [| s0 rest IH]; intros acc; [ contradiction | ].
  simpl. destruct Hs as [-> | Hs].
  - rewrite (loop_dates_without_timesteps w s acc 0 dates Hds Hdates). reflexivity.
  - destruct (loop_dates w s0 acc 0 dates) as [acc1 |]; [ | reflexivity ].
    apply (IH Hs).
Qed.

Lemma site_without_timesteps_stops_matching_witness :
  matched_data 7 [Samples.sampling_date]
    [Samples.lagoon;
     {| SiteName := "Inlet"; site_values := [Fin 1]; ds_s2 := [] |}] = None.
Proof.
  apply (site_without_timesteps_stops_matching 7 [Samples.sampling_date] _
           {| SiteName := "Inlet"; site_values := [Fin 1]; ds_s2 := [] |}).
  - right. left. reflexivity.
  - reflexivity.
  - discriminate.
Defined.

(** ** The average colour *)

Import Rgb Reductions AverageColour.

Lemma get_rgb_of_numbers (scaled_ds : string -> fl) :
  (forall band, In band bands -> is_nan (scaled_ds band) = false) ->
  exists red green blue,
    channel (scaled_ds "red") = Some red /\
    channel (scaled_ds "green") = Some green /\
    channel (scaled_ds "blue") = Some blue /\
    0 <= red <= 255 /\ 0 <= green <= 255 /\ 0 <= blue <= 255 /\
    get_rgb scaled_ds =
      Some ([red; green; blue],
            ("#" ++ format_02x red ++ format_02x green ++ format_02x blue)%string).
Proof.
  intros Hnum.
  destruct (channel_range (scaled_ds "red")) as (cr & red & _ & _ & Hr & _ & Hred);
    [ apply Hnum; simpl; tauto | ].
  destruct (channel_range (scaled_ds "green")) as (cg & green & _ & _ & Hg & _ & Hgreen);
    [ apply Hnum; simpl; tauto | ].
  destruct (channel_range (scaled_ds "blue")) as (cb & blue & _ & _ & Hb & _ & Hblue);
    [ apply Hnum; simpl; tauto | ].
  exists red, green, blue. repeat (split; [ assumption | ]).
  unfold get_rgb. simpl traverse. rewrite Hr, Hg, Hb. reflexivity.
Qed.

Lemma channel_nan (x : fl) : is_nan x = true -> channel x = None.
Proof. destruct x; try discriminate. reflexivity. Qed.

Lemma get_rgb_of_nan (scaled_ds : string -> fl) (band : string) :
  In band bands -> is_nan (scaled_ds band) = true -> get_rgb scaled_ds = None.
Proof.
  intros Hin Hnan. apply channel_nan in Hnan.
  unfold get_rgb. simpl traverse.
  destruct Hin as [<- | [<- | [<- | []]]]; rewrite Hnan.
  - reflexivity.
  - destruct (channel (scaled_ds "red")); reflexivity.
  - destruct (channel (scaled_ds "red")), (channel (scaled_ds "green")); reflexivity.
Qed.

(** [get_rgb] raises exactly when one of the three band values is NaN:
    infinite values are clipped, only NaN reaches [int]. *)
Theorem get_rgb_raises_iff_nan :
  forall scaled_ds : string -> fl,
    get_rgb scaled_ds = None <->
    exists band, In band bands /\ is_nan (scaled_ds band) = true.
Proof.
  intros ds. split.
  - intros Hnone.
    destruct (is_nan (ds "red")) eqn:Er; [ exists "red"; simpl; tauto | ].
    destruct (is_nan (ds "green")) eqn:Eg; [ exists "green"; simpl; tauto | ].
    destruct (is_nan (ds "blue")) eqn:Eb; [ exists "blue"; simpl; tauto | ].
    exfalso.
    destruct (get_rgb_of_numbers ds) as (r & g & b & _ & _ & _ & _ & _ & _ & Hsome).
    + intros band [<- | [<- | [<- | []]]]; assumption.
    + congruence.
  - intros (band & Hin & Hnan). exact (get_rgb_of_nan ds band Hin Hnan).
Qed.

(** Two digits printed by [{:02x}] read back as the number. *)
Lemma hex_pair_format_02x (n : Z) :
  0 <= n <= 255 ->
  exists hi lo, format_02x n = String hi (String lo "") /\ hex_pair hi lo = Some n.
Proof.
  intros Hn.
  set (ok := fun k : nat =>
    match format_02x (Z.of_nat k) with
    | String hi (String lo EmptyString) =>
        match hex_pair hi lo with
        | Some m => m =? Z.of_nat k
        | None => false
        end
    | _ => false
    end).
  assert (Hall : forallb ok (seq 0 256) = true) by (vm_compute; reflexivity).
  rewrite forallb_forall in Hall.
  specialize (Hall (Z.to_nat n)).
  unfold ok in Hall. rewrite Z2Nat.id in Hall by lia.
  assert (Hin : In (Z.to_nat n) (seq 0 256)) by (apply in_seq; lia).
  specialize (Hall Hin).
  destruct (format_02x n) as [| hi [| lo [| ? ?]]]; try discriminate Hall.
  destruct (hex_pair hi lo) as [m |] eqn:E; try discriminate Hall.
  apply Z.eqb_eq in Hall. subst m.
  exists hi, lo. split; [ reflexivity | exact E ].
Qed.

(** The hex code returned by [get_rgb] denotes the colour of the three
    integers returned with it: read as [#rrggbb] it gives them back. *)
Theorem hex_code_reads_back :
  forall (scaled_ds : string -> fl) rgb hex_value,
    get_rgb scaled_ds = Some (rgb, hex_value) ->
    parse_colour hex_value = Some rgb.
Proof.
  intros ds rgb hex_value Hget.
  assert (Hnum : forall band, In band bands -> is_nan (ds band) = false).
  { intros band Hin. destruct (is_nan (ds band)) eqn:E; [ | reflexivity ].
    rewrite (get_rgb_of_nan ds band Hin E) in Hget. discriminate Hget. }
  destruct (get_rgb_of_numbers ds Hnum)
    as (r & g & b & _ & _ & _ & Hr & Hg & Hb & Hsome).
  rewrite Hsome in Hget. injection Hget as <- <-.
  destruct (hex_pair_format_02x r Hr) as (r1 & r0 & -> & Er).
  destruct (hex_pair_format_02x g Hg) as (g1 & g0 & -> & Eg).
  destruct (hex_pair_format_02x b Hb) as (b1 & b0 & -> & Eb).
  cbn [append parse_colour]. rewrite Er, Eg, Eb. reflexivity.
Qed.

Lemma hex_code_reads_back_witness :
  parse_colour "#aa5533" = Some [170; 85; 51].
Proof.
  apply (hex_code_reads_back Samples.scaled_average). reflexivity.
Defined.

(** *** The mean of the positive pixels *)

Lemma kept_where_positive (xs : list Z) :
  filter not_nan (map where_positive xs) =
  map (fun x => Fin (inject_Z x)) (filter positive xs).
Proof.
  induction xs as [| x xs IH]; [ reflexivity | ].
  cbn [map filter].
  change (where_positive x) with (if x >? 0 then Fin (inject_Z x) else NaN).
  change (positive x) with (x >? 0).
  destruct (x >? 0); cbn [not_nan is_nan negb map]; rewrite IH; reflexivity.
Qed.

Lemma total_of_integers (xs : list Z) :
  exists q, total (map (fun x => Fin (inject_Z x)) xs) = Fin q.
Proof.
  induction xs as [| x xs (q & Hq)].
  - exists 0%Q. reflexivity.
  - exists (inject_Z x + q)%Q. unfold total in *. simpl. rewrite Hq. reflexivity.
Qed.

Lemma Qeq_bool_false_of_positive (q : Q) : (0 < q)%Q -> Qeq_bool q 0 = false.
Proof.
  intros H. destruct (Qeq_bool q 0) eqn:E; [ | reflexivity ].
  apply Qeq_bool_eq in E. lra.
Qed.

(** The mean of a band is NaN when no pixel is positive, and a number
    otherwise. *)
Lemma average_spec (ds : string -> list Z) (band : string) :
  match filter positive (ds band) with
  | [] => average ds band = NaN
  | _ => exists q, average ds band = Fin q
  end.
Proof.
  unfold average, mean. rewrite kept_where_positive.
  destruct (filter positive (ds band)) as [| x kept]; [ reflexivity | ].
  destruct (total_of_integers (x :: kept)) as (s & Hs).
  cbn [map].
  change (Fin (inject_Z x) :: map (fun x => Fin (inject_Z x)) kept)
    with (map (fun x => Fin (inject_Z x)) (x :: kept)).
  rewrite Hs, length_map.
  unfold fdiv.
  rewrite Qeq_bool_false_of_positive; [ eexists; reflexivity | ].
  change 0%Q with (inject_Z 0). rewrite <- Zlt_Qlt. simpl List.length. lia.
Qed.

Lemma scaled_average_nan (ds : string -> list Z) (band : string) :
  filter positive (ds band) = [] -> scaled_average ds band = NaN.
Proof.
  intros He. unfold scaled_average.
  pose proof (average_spec ds band) as H. rewrite He in H. rewrite H. reflexivity.
Qed.

Lemma scaled_average_number (ds : string -> list Z) (band : string) :
  filter positive (ds band) <> [] -> is_nan (scaled_average ds band) = false.
Proof.
  intros Hne. unfold scaled_average.
  pose proof (average_spec ds band) as H.
  destruct (filter positive (ds band)) as [| x kept]; [ congruence | ].
  destruct H as (q & ->). reflexivity.
Qed.

Lemma no_positive_pixel (xs : list Z) :
  filter positive xs = [] <-> (forall x, In x xs -> x <= 0).
Proof.
  split.
  - intros He x Hin.
    destruct (positive x) eqn:Ep; [ | unfold positive in Ep; lia ].
    assert (Hf : In x (filter positive xs)) by (apply filter_In; tauto).
    rewrite He in Hf. destruct Hf.
  - intros Hall. destruct (filter positive xs) as [| y ys] eqn:E; [ reflexivity | ].
    assert (Hy : In y (filter positive xs)) by (rewrite E; left; reflexivity).
    apply filter_In in Hy. destruct Hy as [Hin Hp].
    specialize (Hall y Hin). unfold positive in Hp. lia.
Qed.

(** The cell that computes the colour raises exactly when some band has
    no positive pixel (an empty area included): the mean of that band is
    NaN, and [int] raises on it. *)
Theorem average_colour_raises_iff_no_positive_pixel :
  forall (ds : string -> list Z),
    average_colour ds = None <->
    exists band, In band bands /\ forall pixel, In pixel (ds band) -> pixel <= 0.
Proof.
  intros ds. unfold average_colour. split.
  - intros Hnone.
    assert (Hex : exists band, In band bands /\ filter positive (ds band) = []).
    { destruct (filter positive (ds "red")) eqn:Er; [ exists "red"; simpl; tauto | ].
      destruct (filter positive (ds "green")) eqn:Eg; [ exists "green"; simpl; tauto | ].
      destruct (filter positive (ds "blue")) eqn:Eb; [ exists "blue"; simpl; tauto | ].
      exfalso.
      destruct (get_rgb_of_numbers (scaled_average ds))
        as (r & g & b & _ & _ & _ & _ & _ & _ & Hsome).
      - intros band [<- | [<- | [<- | []]]];
          apply scaled_average_number; congruence.
      - congruence. }
    destruct Hex as (band & Hin & He). exists band. split; [ exact Hin | ].
    apply no_positive_pixel, He.
  - intros (band & Hin & Hall).
    apply (get_rgb_of_nan _ band Hin).
    rewrite scaled_average_nan; [ reflexivity | ].
    apply no_positive_pixel, Hall.
Qed.

(** ** The tide filter *)

Import Tides TideFilter.

Lemma flt_finite (a b : Q) : flt (Fin a) (Fin b) = true <-> (a < b)%Q.
Proof.
  unfold flt, fle. rewrite andb_true_iff, negb_true_iff, Qle_bool_iff.
  split.
  - intros [Hle Hn].
    assert (~ (b <= a)%Q) by (rewrite <- Qle_bool_iff; congruence).
    lra.
  - intros Hlt. split; [ lra | ].
    destruct (Qle_bool b a) eqn:E; [ | reflexivity ].
    apply Qle_bool_iff in E. lra.
Qed.

Lemma in_tide_range_spec (lo hi : Q) (h : fl) :
  in_tide_range (Fin lo, Fin hi) h = true <->
  exists q, h = Fin q /\ (lo < q < hi)%Q.
Proof.
  unfold in_tide_range. cbn [fst snd]. rewrite andb_true_iff. split.
  - intros [H1 H2]. destruct h as [| | | q]; try discriminate.
    exists q. rewrite flt_finite in H1, H2. auto.
  - intros (q & -> & H1 & H2). rewrite !flt_finite. auto.
Qed.

Lemma sel_mask_nil_mask {A : Type} (xs : list A) (mask : list bool) :
  (forall b, In b mask -> b = false) -> ForestrySplit.sel_mask xs mask = [].
Proof.
  unfold ForestrySplit.sel_mask.
  revert mask. induction xs as [| x xs IH]; intros [| b mask] Hall; try reflexivity.
  cbn [combine filter snd].
  rewrite (Hall b) by (left; reflexivity).
  apply IH. intros c Hc. apply Hall. right. exact Hc.
Qed.

Lemma sel_mask_combine {A B : Type} (f : B -> bool) (xs : list A) (ys : list B) :
  List.length xs = List.length ys ->
  combine (ForestrySplit.sel_mask xs (map f ys)) (ForestrySplit.sel_mask ys (map f ys)) =
  filter (fun p => f (snd p)) (combine xs ys).
Proof.
  unfold ForestrySplit.sel_mask.
  revert ys. induction xs as [| x xs IH]; intros [| y ys] Hlen; try discriminate Hlen;
    [ reflexivity | ].
  injection Hlen as Hlen.
  cbn [map combine filter snd fst]. destruct (f y); cbn [map fst combine].
  - f_equal. apply IH, Hlen.
  - apply IH, Hlen.
Qed.

Lemma sel_mask_length {A B : Type} (xs : list A) (ys : list B) (mask : list bool) :
  List.length xs = List.length ys ->
  List.length (ForestrySplit.sel_mask xs mask) = List.length (ForestrySplit.sel_mask ys mask).
Proof.
  unfold ForestrySplit.sel_mask. rewrite !length_map.
  revert ys mask. induction xs as [| x xs IH]; intros [| y ys] mask Hlen;
    try discriminate Hlen; [ reflexivity | ].
  injection Hlen as Hlen. destruct mask as [| b mask]; [ reflexivity | ].
  cbn [combine filter snd]. destruct b; cbn [List.length]; rewrite (IH ys mask Hlen);
    reflexivity.
Qed.

Lemma get_var_where_drop (cond : list bool) (ds : dataset) (k : string) :
  get_var (where_drop cond ds) k =
  option_map (fun v => ForestrySplit.sel_mask v cond) (get_var ds k).
Proof.
  unfold get_var, where_drop. cbn [data_vars].
  induction (data_vars ds) as [| [k' v] vars IH]; [ reflexivity | ].
  cbn [map find fst snd]. destruct (String.eqb k k'); [ reflexivity | exact IH ].
Qed.

(** The filtering cell keeps exactly the images whose tide height is
    strictly inside the range, in their order: an image at a bound of
    the range, or without a tide height (NaN), is dropped; every
    variable keeps one value per image kept. *)
Theorem tide_filter_keeps_images_strictly_inside :
  forall (lo hi : Q) (landsat_ds : dataset) (tide_height : list fl),
    get_var landsat_ds "tide_height" = Some tide_height ->
    well_formed landsat_ds ->
    exists filtered,
      landsat_filtered (Fin lo, Fin hi) landsat_ds = Some filtered /\
      tagged_images filtered =
        filter (fun image => in_tide_range (Fin lo, Fin hi) (snd image))
               (tagged_images landsat_ds) /\
      (forall t h, In (t, h) (tagged_images filtered) <->
                   In (t, h) (tagged_images landsat_ds) /\
                   exists q, h = Fin q /\ (lo < q < hi)%Q) /\
      well_formed filtered.
Proof.
  intros lo hi ds hs Hget Hwf.
  assert (Hlen : List.length (time ds) = List.length hs).
  { unfold get_var in Hget.
    destruct (find _ (data_vars ds)) as [kv |] eqn:Ef; [ | discriminate Hget ].
    injection Hget as <-. symmetry. apply Hwf.
    apply find_some in Ef. apply Ef. }
  unfold landsat_filtered. rewrite Hget. eexists. split; [ reflexivity | ].
  assert (Himages :
    tagged_images (where_drop (map (in_tide_range (Fin lo, Fin hi)) hs) ds) =
    filter (fun image => in_tide_range (Fin lo, Fin hi) (snd image)) (tagged_images ds)).
  { unfold tagged_images. rewrite get_var_where_drop, Hget. cbn [option_map].
    unfold where_drop at 1. cbn [time].
    apply sel_mask_combine, Hlen. }
  split; [ exact Himages | split ].
  - intros t h. rewrite Himages, filter_In. cbn [snd].
    rewrite in_tide_range_spec. tauto.
  - intros kv Hin. unfold where_drop in Hin |- *. cbn [data_vars time] in *.
    apply in_map_iff in Hin. destruct Hin as (kv' & <- & Hin'). cbn [snd].
    apply sel_mask_length, Hwf, Hin'.
Qed.

Lemma tide_filter_keeps_images_strictly_inside_witness :
  exists filtered,
    landsat_filtered (Fin 0, Fin 2)
      {| time := [10; 20; 30; 40];
         data_vars := [("tide_height", [Fin 0; Fin 1; NaN; Fin (3 # 2)]);
                       ("water_index", [Fin 1; Fin 1; Fin 1; Fin (-1)])] |}
      = Some filtered /\
    tagged_images filtered = [(20, Fin 1); (40, Fin (3 # 2))].
Proof.
  destruct (tide_filter_keeps_images_strictly_inside 0 2
      {| time := [10; 20; 30; 40];
         data_vars := [("tide_height", [Fin 0; Fin 1; NaN; Fin (3 # 2)]);
                       ("water_index", [Fin 1; Fin 1; Fin 1; Fin (-1)])] |}
      [Fin 0; Fin 1; NaN; Fin (3 # 2)])
    as (filtered & Hrun & Himages & _).
  - reflexivity.
  - intros kv [<- | [<- | []]]; reflexivity.
  - exists filtered. split; [ exact Hrun | ]. rewrite Himages. reflexivity.
Defined.

(** A range whose upper bound is not above its lower bound keeps no
    image at all: the filtered dataset has an empty time axis. *)
Theorem empty_tide_range_keeps_nothing :
  forall (lo hi : Q) (landsat_ds filtered : dataset),
    (hi <= lo)%Q ->
    landsat_filtered (Fin lo, Fin hi) landsat_ds = Some filtered ->
    time filtered = [] /\
    forall kv, In kv (data_vars filtered) -> snd kv = [].
Proof.
  intros lo hi ds filtered Hle Hrun.
  unfold landsat_filtered in Hrun.
  destruct (get_var ds "tide_height") as [hs |]; [ | discriminate Hrun ].
  injection Hrun as <-.
  assert (Hmask : forall b, In b (map (in_tide_range (Fin lo, Fin hi)) hs) -> b = false).
  { intros b Hb. apply in_map_iff in Hb. destruct Hb as (h & <- & _).
    destruct (in_tide_range (Fin lo, Fin hi) h) eqn:E; [ | reflexivity ].
    apply in_tide_range_spec in E. destruct E as (q & _ & H1 & H2). lra. }
  unfold where_drop. cbn [time data_vars]. split.
  - apply sel_mask_nil_mask, Hmask.
  - intros kv Hin. apply in_map_iff in Hin. destruct Hin as (kv' & <- & _).
    cbn [snd]. apply sel_mask_nil_mask, Hmask.
Qed.

Lemma empty_tide_range_keeps_nothing_witness :
  exists filtered,
    landsat_filtered (Fin 2, Fin 0)
      {| time := [10; 20]; data_vars := [("tide_height", [Fin 1; Fin 1])] |}
      = Some filtered /\
    time filtered = [].
Proof.
  eexists. split; [ reflexivity | ].
  apply (empty_tide_range_keeps_nothing 2 0
           {| time := [10; 20]; data_vars := [("tide_height", [Fin 1; Fin 1])] |}).
  - unfold Qle. simpl. lia.
  - reflexivity.
Defined.

(** ** Tidal intervals *)

Import TidalIntervals.

Lemma fle_finite (a b : Q) : fle (Fin a) (Fin b) = true <-> (a <= b)%Q.
Proof. apply Qle_bool_iff. Qed.

Lemma In_insert {A : Type} (le : A -> A -> bool) (x y : A) (xs : list A) :
  In y (insert le x xs) <-> y = x \/ In y xs.
Proof.
  induction xs as [| z xs IH]; simpl.
  - intuition congruence.
  - destruct (le x z); simpl; [ intuition congruence | ].
    rewrite IH. intuition congruence.
Qed.

Lemma In_sort {A : Type} (le : A -> A -> bool) (y : A) (xs : list A) :
  In y (sort le xs) <-> In y xs.
Proof.
  induction xs as [| x xs IH]; simpl; [ tauto | ].
  rewrite In_insert, IH. intuition congruence.
Qed.

Lemma length_insert {A : Type} (le : A -> A -> bool) (x : A) (xs : list A) :
  List.length (insert le x xs) = S (List.length xs).
Proof.
  induction xs as [| z xs IH]; simpl; [ reflexivity | ].
  destruct (le x z); simpl; [ reflexivity | rewrite IH; reflexivity ].
Qed.

Lemma length_sort {A : Type} (le : A -> A -> bool) (xs : list A) :
  List.length (sort le xs) = List.length xs.
Proof.
  induction xs as [| x xs IH]; simpl; [ reflexivity | ].
  rewrite length_insert, IH. reflexivity.
Qed.

Lemma insert_ascending (x : Q) (xs : list Q) :
  ascending xs -> ascending (insert Qle_bool x xs).
Proof.
  induction xs as [| z xs IH]; intros Hasc.
  - simpl. split; [ intros y [] | exact I ].
  - destruct Hasc as [Hz Hrest]. simpl.
    destruct (Qle_bool x z) eqn:E.
    + apply Qle_bool_iff in E. split; [ | split; assumption ].
      intros y [<- | Hy]; [ exact E | ].
      specialize (Hz y Hy). lra.
    + assert (Hzx : (z <= x)%Q).
      { destruct (Qlt_le_dec x z) as [Hlt | Hle]; [ | exact Hle ].
        assert (Qle_bool x z = true) by (apply Qle_bool_iff; lra). congruence. }
      split; [ | apply IH, Hrest ].
      intros y Hy. apply In_insert in Hy. destruct Hy as [-> | Hy]; [ exact Hzx | ].
      apply Hz, Hy.
Qed.

Lemma sort_ascending (xs : list Q) : ascending (sort Qle_bool xs).
Proof.
  induction xs as [| x xs IH]; simpl; [ exact I | ].
  apply insert_ascending, IH.
Qed.

Lemma ascending_nth (xs : list Q) (d : Q) (i j : nat) :
  ascending xs -> (i <= j < List.length xs)%nat ->
  (nth i xs d <= nth j xs d)%Q.
Proof.
  revert i j. induction xs as [| x xs IH]; intros i j Hasc Hij; simpl in Hij; [ lia | ].
  destruct Hasc as [Hx Hrest].
  destruct i as [| i], j as [| j]; simpl; try lia.
  - lra.
  - apply Hx, nth_In. lia.
  - apply IH; [ exact Hrest | lia ].
Qed.

Lemma insert_map_Fin (q : Q) (zs : list Q) :
  insert fle (Fin q) (map Fin zs) = map Fin (insert Qle_bool q zs).
Proof.
  induction zs as [| z zs IH]; [ reflexivity | ].
  cbn [map insert]. change (fle (Fin q) (Fin z)) with (Qle_bool q z).
  destruct (Qle_bool q z); [ reflexivity | ].
  cbn [map]. rewrite IH. reflexivity.
Qed.

Lemma sort_map_Fin (qs : list Q) :
  sort fle (map Fin qs) = map Fin (sort Qle_bool qs).
Proof.
  induction qs as [| q qs IH]; [ reflexivity | ].
  cbn [map sort fold_right]. fold (sort fle (map Fin qs)). rewrite IH.
  apply insert_map_Fin.
Qed.

(** The values a quantile is taken of, when every tide height is a
    number or NaN. *)
Lemma kept_values (tide_height : list fl) :
  Forall finite_or_nan tide_height ->
  exists qs, filter not_nan tide_height = map Fin qs /\
             forall q, In q qs <-> In (Fin q) tide_height.
Proof.
  induction tide_height as [| h hs IH]; intros Hall.
  - exists []. split; [ reflexivity | simpl; tauto ].
  - inversion Hall as [| ? ? Hh Hrest]; subst.
    destruct (IH Hrest) as (qs & Hqs & Hin).
    destruct Hh as [-> | (q & ->)].
    + exists qs. split; [ exact Hqs | ].
      intros q. rewrite Hin. simpl. intuition discriminate.
    + exists (q :: qs). split; [ simpl; rewrite Hqs; reflexivity | ].
      intros q'. simpl. rewrite Hin. intuition congruence.
Qed.

Lemma lerp_finite (a b t : Q) :
  exists r, lerp (Fin a) (Fin b) t = Fin r /\ (r == a + (b - a) * t)%Q.
Proof.
  unfold lerp. destruct (Qle_bool (1 # 2) t).
  - eexists. split; [ reflexivity | ]. ring.
  - eexists. split; [ reflexivity | ]. ring.
Qed.

(** A quantile of numbers is interpolated between two of them. *)
Lemma quantile_of_numbers (tide_height : list fl) (qs : list Q) (q : Q) :
  filter not_nan tide_height = map Fin qs -> qs <> [] ->
  let sorted := sort Qle_bool qs in
  let last_index := Z.of_nat (List.length qs - 1) in
  let position := (q * inject_Z last_index)%Q in
  let below := Qfloor position in
  let above := Z.min (below + 1) last_index in
  exists r,
    quantile tide_height q = Fin r /\
    (r == nth (Z.to_nat below) sorted (hd 0%Q sorted)
          + (nth (Z.to_nat above) sorted (hd 0%Q sorted)
             - nth (Z.to_nat below) sorted (hd 0%Q sorted))
            * (position - inject_Z below))%Q.
Proof.
  intros Hkept Hne sorted last_index position below above.
  unfold quantile. rewrite Hkept, sort_map_Fin. fold sorted.
  assert (Hlen : List.length sorted = List.length qs) by apply length_sort.
  destruct sorted as [| first rest] eqn:Es.
  - destruct qs; [ congruence | discriminate Hlen ].
  - cbn [map hd].
    change (Fin first :: map Fin rest) with (map Fin (first :: rest)).
    rewrite !(map_nth Fin), length_map, Hlen.
    apply lerp_finite.
Qed.

Lemma nth_hd_In (xs : list Q) (i : nat) :
  xs <> [] -> In (nth i xs (hd 0%Q xs)) xs.
Proof.
  intros Hne. destruct (Nat.lt_ge_cases i (List.length xs)) as [Hlt | Hge].
  - apply nth_In, Hlt.
  - rewrite nth_overflow by exact Hge.
    destruct xs; [ congruence | left; reflexivity ].
Qed.

Lemma sort_not_nil {A : Type} (le : A -> A -> bool) (xs : list A) :
  xs <> [] -> sort le xs <> [].
Proof.
  intros Hne He. apply (f_equal (@List.length A)) in He.
  rewrite length_sort in He. destruct xs; [ congruence | discriminate He ].
Qed.

(** On numbers the quantile at 0 is the lowest of them. *)
Lemma quantile_lowest (tide_height : list fl) (qs : list Q) (q : Q) :
  filter not_nan tide_height = map Fin qs -> qs <> [] -> (q == 0)%Q ->
  exists r, quantile tide_height q = Fin r /\
            (forall x, In x qs -> (r <= x)%Q) /\
            (exists m, In m qs /\ (r == m)%Q).
Proof.
  intros Hkept Hne Hq.
  destruct (quantile_of_numbers tide_height qs q Hkept Hne) as (r & Hr & Heq).
  cbv zeta in Heq.
  assert (Hpos : (q * inject_Z (Z.of_nat (List.length qs - 1)) == 0)%Q)
    by (rewrite Hq; ring).
  assert (Hfloor : Qfloor (q * inject_Z (Z.of_nat (List.length qs - 1))) = 0).
  { rewrite (Qfloor_comp _ _ Hpos). reflexivity. }
  rewrite Hfloor in Heq. change (Z.to_nat 0) with 0%nat in Heq.
  pose proof (sort_not_nil Qle_bool qs Hne) as Hsne.
  pose proof (sort_ascending qs) as Hasc.
  destruct (sort Qle_bool qs) as [| first rest] eqn:Es; [ congruence | ].
  cbn [nth hd] in Heq.
  assert (Hrf : (r == first)%Q).
  { rewrite Heq, Hpos. change (inject_Z 0) with 0%Q. ring. }
  exists r. split; [ exact Hr | split ].
  - intros x Hx. rewrite Hrf.
    assert (Hin : In x (first :: rest)) by (rewrite <- Es; apply In_sort, Hx).
    destruct Hin as [<- | Hin]; [ lra | ].
    apply Hasc, Hin.
  - exists first. split; [ | exact Hrf ].
    apply (In_sort Qle_bool). rewrite Es. left. reflexivity.
Qed.

(** On numbers the quantile at 1 is the highest of them. *)
Lemma quantile_highest (tide_height : list fl) (qs : list Q) (q : Q) :
  filter not_nan tide_height = map Fin qs -> qs <> [] -> (q == 1)%Q ->
  exists r, quantile tide_height q = Fin r /\
            (forall x, In x qs -> (x <= r)%Q) /\
            (exists m, In m qs /\ (r == m)%Q).
Proof.
  intros Hkept Hne Hq.
  destruct (quantile_of_numbers tide_height qs q Hkept Hne) as (r & Hr & Heq).
  cbv zeta in Heq.
  set (last_index := Z.of_nat (List.length qs - 1)) in *.
  assert (Hpos : (q * inject_Z last_index == inject_Z last_index)%Q)
    by (rewrite Hq; ring).
  assert (Hfloor : Qfloor (q * inject_Z last_index) = last_index).
  { rewrite (Qfloor_comp _ _ Hpos). apply Qfloor_Z. }
  rewrite Hfloor in Heq.
  replace (Z.min (last_index + 1) last_index) with last_index in Heq by lia.
  unfold last_index in Heq at 1 2 3. rewrite Nat2Z.id in Heq.
  pose proof (sort_not_nil Qle_bool qs Hne) as Hsne.
  pose proof (sort_ascending qs) as Hasc.
  pose proof (length_sort Qle_bool qs) as Hlen.
  set (sorted := sort Qle_bool qs) in *.
  set (top := nth (List.length qs - 1) sorted (hd 0%Q sorted)) in *.
  assert (Hrt : (r == top)%Q).
  { rewrite Heq, Hpos. ring. }
  assert (Hn : (0 < List.length qs)%nat).
  { destruct qs; [ congruence | simpl; lia ]. }
  exists r. split; [ exact Hr | split ].
  - intros x Hx. rewrite Hrt.
    assert (Hin : In x sorted) by (apply In_sort, Hx).
    destruct (In_nth sorted x (hd 0%Q sorted) Hin) as (i & Hi & <-).
    apply ascending_nth; [ exact Hasc | lia ].
  - exists top. split; [ | exact Hrt ].
    apply (In_sort Qle_bool). apply nth_In. fold sorted. lia.
Qed.

(** Every quantile of numbers that are all equal is that number. *)
Lemma quantile_of_equal (tide_height : list fl) (qs : list Q) (q v : Q) :
  filter not_nan tide_height = map Fin qs -> qs <> [] ->
  (forall x, In x qs -> (x == v)%Q) ->
  exists r, quantile tide_height q = Fin r /\ (r == v)%Q.
Proof.
  intros Hkept Hne Hall.
  destruct (quantile_of_numbers tide_height qs q Hkept Hne) as (r & Hr & Heq).
  cbv zeta in Heq.
  pose proof (sort_not_nil Qle_bool qs Hne) as Hsne.
  exists r. split; [ exact Hr | ].
  rewrite Heq.
  rewrite !(Hall (nth _ (sort Qle_bool qs) _))
    by (apply (In_sort Qle_bool), nth_hd_In, Hsne).
  ring.
Qed.

Lemma quantile_without_numbers (tide_height : list fl) (q : Q) :
  filter not_nan tide_height = [] -> quantile tide_height q = NaN.
Proof. intros He. unfold quantile. rewrite He. reflexivity. Qed.

Lemma quantiles_finite (tide_height : list fl) (qs probabilities : list Q) :
  filter not_nan tide_height = map Fin qs -> qs <> [] ->
  exists rs, map (quantile tide_height) probabilities = map Fin rs /\
             List.length rs = List.length probabilities.
Proof.
  intros Hkept Hne. induction probabilities as [| q ps (rs & Hrs & Hlen)].
  - exists []. split; reflexivity.
  - destruct (quantile_of_numbers tide_height qs q Hkept Hne) as (r & Hr & _).
    exists (r :: rs). cbn [map List.length]. rewrite Hr, Hrs, Hlen. split; reflexivity.
Qed.

Lemma linspace_ends :
  exists q0 mid q9,
    linspace 0 1 10 = q0 :: mid ++ [q9] /\
    (q0 == 0)%Q /\ (q9 == 1)%Q /\ List.length mid = 8%nat.
Proof.
  eexists. exists (firstn 8 (tl (linspace 0 1 10))). eexists.
  split; [ vm_compute; reflexivity | ].
  split; [ reflexivity | ]. split; reflexivity.
Qed.

(** The edges of the binning cell on tide heights among which there is
    a number: finite, the first the lowest height and the last the
    highest. *)
Lemma binInterval_of_numbers (tide_height : list fl) (qs : list Q) :
  filter not_nan tide_height = map Fin qs -> qs <> [] ->
  exists b0 mid b9,
    binInterval tide_height = map Fin (b0 :: mid ++ [b9]) /\
    List.length mid = 8%nat /\
    (forall x, In x qs -> (b0 <= x <= b9)%Q) /\
    (exists m, In m qs /\ (b0 == m)%Q) /\
    (exists m, In m qs /\ (b9 == m)%Q).
Proof.
  intros Hkept Hne.
  destruct linspace_ends as (q0 & ps & q9 & Hlin & Hq0 & Hq9 & Hps).
  destruct (quantile_lowest tide_height qs q0 Hkept Hne Hq0) as (b0 & Hb0 & Hlow & Hm0).
  destruct (quantile_highest tide_height qs q9 Hkept Hne Hq9) as (b9 & Hb9 & Hhigh & Hm9).
  destruct (quantiles_finite tide_height qs ps Hkept Hne) as (mid & Hmid & Hlen).
  exists b0, mid, b9.
  split; [ | split; [ congruence | split; [ | split; assumption ] ] ].
  - unfold binInterval. rewrite Hlin.
    cbn [map]. rewrite !map_app. cbn [map]. rewrite Hb0, Hb9, Hmid. reflexivity.
  - intros x Hx. split; [ apply Hlow | apply Hhigh ]; exact Hx.
Qed.

Lemma length_binInterval (tide_height : list fl) :
  List.length (binInterval tide_height) = 10%nat.
Proof. unfold binInterval. rewrite length_map. reflexivity. Qed.

Lemma cut_some (x bins : list fl) (labels : list Z) (include_lowest : bool)
  (result : list (option Z)) :
  cut x bins labels include_lowest = Some result ->
  decreases bins = false /\
  (has_duplicates bins = false \/ List.length bins = 2%nat) /\
  result = map (bin_of bins labels include_lowest) x.
Proof.
  unfold cut. intros H.
  destruct (decreases bins); [ discriminate H | ].
  destruct (has_duplicates bins) eqn:Ed.
  - destruct (Nat.eqb (List.length bins) 2) eqn:El; [ | discriminate H ].
    apply Nat.eqb_eq in El. simpl in H.
    destruct (negb _); [ discriminate H | ].
    injection H as <-. auto.
  - simpl in H. destruct (negb _); [ discriminate H | ].
    injection H as <-. auto.
Qed.

Lemma cut_duplicates (x bins : list fl) (labels : list Z) (include_lowest : bool) :
  has_duplicates bins = true -> List.length bins <> 2%nat ->
  cut x bins labels include_lowest = None.
Proof.
  intros Hd Hl. unfold cut. rewrite Hd.
  apply Nat.eqb_neq in Hl. rewrite Hl.
  destruct (decreases bins); reflexivity.
Qed.

Lemma decreases_false_ascending (bs : list Q) :
  decreases (map Fin bs) = false -> ascending bs.
Proof.
  induction bs as [| a bs IH]; intros Hd; [ exact I | ].
  destruct bs as [| b bs].
  - split; [ intros y [] | exact I ].
  - cbn [map decreases] in Hd. apply orb_false_iff in Hd. destruct Hd as [Hab Hrest].
    specialize (IH Hrest). split; [ | exact IH ].
    assert (Hle : (a <= b)%Q).
    { destruct (Qlt_le_dec b a) as [Hlt | Hle]; [ | exact Hle ].
      assert (flt (fsub (Fin b) (Fin a)) (Fin 0) = true).
      { cbn [fsub fneg fadd]. apply flt_finite. lra. }
      congruence. }
    intros y [<- | Hy]; [ exact Hle | ].
    destruct IH as [Hb _]. specialize (Hb y Hy). lra.
Qed.

Lemma same_edge_finite (a b : Q) :
  same_edge (Fin a) (Fin b) = false <-> ~ (a == b)%Q.
Proof.
  unfold same_edge. cbn [is_nan andb orb]. split.
  - intros H Heq.
    assert (fle (Fin a) (Fin b) = true) by (apply fle_finite; lra).
    assert (fle (Fin b) (Fin a) = true) by (apply fle_finite; lra).
    rewrite H0, H1 in H. discriminate H.
  - intros Hne. destruct (fle (Fin a) (Fin b)) eqn:E1; [ | reflexivity ].
    destruct (fle (Fin b) (Fin a)) eqn:E2; [ | reflexivity ].
    apply fle_finite in E1, E2. exfalso. apply Hne. lra.
Qed.

Lemma no_duplicate_of_last (pre : list Q) (b : Q) :
  has_duplicates (map Fin (pre ++ [b])) = false ->
  forall x, In x pre -> ~ (x == b)%Q.
Proof.
  induction pre as [| a pre IH]; intros Hd x Hx; [ destruct Hx | ].
  cbn [app map has_duplicates] in Hd. apply orb_false_iff in Hd.
  destruct Hd as [Ha Hrest].
  destruct Hx as [<- | Hx]; [ | apply IH; assumption ].
  apply same_edge_finite.
  destruct (same_edge (Fin a) (Fin b)) eqn:E; [ | reflexivity ].
  assert (existsb (same_edge (Fin a)) (map Fin (pre ++ [b])) = true).
  { apply existsb_exists. exists (Fin b). split; [ | exact E ].
    apply in_map, in_or_app. right. left. reflexivity. }
  congruence.
Qed.

Lemma ascending_before_last (pre : list Q) (b : Q) :
  ascending (pre ++ [b]) -> forall x, In x pre -> (x <= b)%Q.
Proof.
  induction pre as [| a pre IH]; intros Hasc x Hx; [ destruct Hx | ].
  destruct Hasc as [Ha Hrest].
  destruct Hx as [<- | Hx]; [ | apply IH; assumption ].
  apply Ha, in_or_app. right. left. reflexivity.
Qed.

Lemma lt_nan_last_finite (b v : Q) :
  lt_nan_last (Fin b) (Fin v) = true <-> (b < v)%Q.
Proof.
  unfold lt_nan_last, le_nan_last. cbn [is_nan orb].
  rewrite negb_true_iff. split.
  - intros H. destruct (Qlt_le_dec b v) as [Hlt | Hle]; [ exact Hlt | ].
    assert (fle (Fin v) (Fin b) = true) by (apply fle_finite; exact Hle). congruence.
  - intros Hlt. destruct (fle (Fin v) (Fin b)) eqn:E; [ | reflexivity ].
    apply fle_finite in E. lra.
Qed.

Lemma lt_nan_last_false (b v : Q) :
  lt_nan_last (Fin b) (Fin v) = false <-> (v <= b)%Q.
Proof.
  rewrite <- not_true_iff_false, lt_nan_last_finite. split; intros H; lra.
Qed.

(** Searching an edge that is not below the value stops at it. *)
Lemma searchsorted_upper (pre post : list Q) (b v : Q) :
  (v <= b)%Q ->
  (searchsorted_left (map Fin (pre ++ b :: post)) (Fin v) <= List.length pre)%nat.
Proof.
  intros Hvb. induction pre as [| a pre IH]; cbn [app map searchsorted_left List.length].
  - apply lt_nan_last_false in Hvb. rewrite Hvb. lia.
  - destruct (lt_nan_last (Fin a) (Fin v)); lia.
Qed.

Lemma searchsorted_exact (pre post : list Q) (b v : Q) :
  (forall x, In x pre -> (x < v)%Q) -> (v <= b)%Q ->
  searchsorted_left (map Fin (pre ++ b :: post)) (Fin v) = List.length pre.
Proof.
  intros Hpre Hvb. induction pre as [| a pre IH]; cbn [app map searchsorted_left List.length].
  - apply lt_nan_last_false in Hvb. rewrite Hvb. reflexivity.
  - assert (Ha : lt_nan_last (Fin a) (Fin v) = true).
    { apply lt_nan_last_finite, Hpre. left. reflexivity. }
    rewrite Ha, IH; [ reflexivity | ].
    intros x Hx. apply Hpre. right. exact Hx.
Qed.

Lemma searchsorted_monotone (bs : list Q) (v w : Q) :
  (v <= w)%Q ->
  (searchsorted_left (map Fin bs) (Fin v) <= searchsorted_left (map Fin bs) (Fin w))%nat.
Proof.
  intros Hvw. induction bs as [| b bs IH]; cbn [map searchsorted_left]; [ lia | ].
  destruct (lt_nan_last (Fin b) (Fin v)) eqn:Ev; [ | lia ].
  apply lt_nan_last_finite in Ev.
  assert (Ew : lt_nan_last (Fin b) (Fin w) = true) by (apply lt_nan_last_finite; lra).
  rewrite Ew. lia.
Qed.

Lemma nth_error_labels (k : nat) :
  (1 <= k <= 9)%nat -> nth_error labels_1_to_9 (k - 1) = Some (Z.of_nat k).
Proof.
  intros Hk.
  do 10 (destruct k as [| k]; [ try lia; reflexivity | ]). lia.
Qed.

(** The interval of a tide height that lies between the first and the
    last of ten finite edges. *)
Lemma bin_of_between (b0 b9 v : Q) (mid : list Q) :
  List.length mid = 8%nat -> (b0 <= v <= b9)%Q ->
  let bins := map Fin (b0 :: mid ++ [b9]) in
  let ids := if Qeq_bool v b0 then 1%nat else searchsorted_left bins (Fin v) in
  (1 <= ids <= 9)%nat /\
  bin_of bins labels_1_to_9 true (Fin v) = Some (Z.of_nat ids).
Proof.
  intros Hmid [Hlo Hhi] bins ids.
  assert (Hupper : (searchsorted_left bins (Fin v) <= 9)%nat).
  { unfold bins.
    replace 9%nat with (List.length (b0 :: mid)) by (simpl; lia).
    change (b0 :: mid ++ [b9]) with ((b0 :: mid) ++ [b9]).
    apply searchsorted_upper, Hhi. }
  assert (Hids : (1 <= ids <= 9)%nat).
  { unfold ids. destruct (Qeq_bool v b0) eqn:E; [ lia | ].
    split; [ | exact Hupper ].
    unfold bins. cbn [map searchsorted_left].
    assert (Hlt : lt_nan_last (Fin b0) (Fin v) = true).
    { apply lt_nan_last_finite.
      assert (~ (v == b0)%Q) by (intros Heq; apply Qeq_bool_iff in Heq; congruence).
      lra. }
    rewrite Hlt. lia. }
  split; [ exact Hids | ].
  unfold bin_of. fold bins.
  assert (Hlen : List.length bins = 10%nat).
  { unfold bins. rewrite length_map. cbn [List.length]. rewrite length_app, Hmid.
    reflexivity. }
  assert (Hadj :
    match bins with
    | lowest :: _ =>
        if true && fle (Fin v) lowest && fle lowest (Fin v)
        then 1%nat else searchsorted_left bins (Fin v)
    | [] => searchsorted_left bins (Fin v)
    end = ids).
  { unfold bins at 1. cbn [map andb]. unfold ids.
    destruct (Qeq_bool v b0) eqn:E.
    - apply Qeq_bool_iff in E.
      assert (H1 : fle (Fin v) (Fin b0) = true) by (apply fle_finite; lra).
      assert (H2 : fle (Fin b0) (Fin v) = true) by (apply fle_finite; lra).
      rewrite H1, H2. reflexivity.
    - destruct (fle (Fin v) (Fin b0)) eqn:E1; [ | reflexivity ].
      destruct (fle (Fin b0) (Fin v)) eqn:E2; [ | reflexivity ].
      apply fle_finite in E1, E2.
      assert (Qeq_bool v b0 = true) by (apply Qeq_bool_iff; lra). congruence. }
  rewrite Hadj, Hlen. cbn [is_nan orb].
  assert (E10 : Nat.eqb ids 10 = false) by (apply Nat.eqb_neq; lia).
  assert (E0 : Nat.eqb ids 0 = false) by (apply Nat.eqb_neq; lia).
  rewrite E10, E0. cbn [orb].
  apply nth_error_labels, Hids.
Qed.

Lemma bin_of_nan (bins : list fl) (labels : list Z) (include_lowest : bool) :
  bin_of bins labels include_lowest NaN = None.
Proof. unfold bin_of. reflexivity. Qed.

Lemma In_combine_map {A B : Type} (f : A -> B) (xs : list A) (x : A) (y : B) :
  In (x, y) (combine xs (map f xs)) <-> In x xs /\ y = f x.
Proof.
  induction xs as [| a xs IH]; simpl; [ tauto | ].
  rewrite IH. split.
  - intros [H | H]; [ injection H as <- <-; auto | tauto ].
  - intros [[<- | H] ->]; [ left; reflexivity | right; tauto ].
Qed.

Ltac numbers_or_nan :=
  repeat (apply Forall_cons;
          [ first [ left; reflexivity | right; eexists; reflexivity ] | ]);
  apply Forall_nil.

Lemma tide_intervals_without_numbers (tide_height : list fl) :
  filter not_nan tide_height = [] -> tide_intervals tide_height = None.
Proof.
  intros He. unfold tide_intervals. apply cut_duplicates.
  - unfold binInterval.
    rewrite (map_ext _ (fun _ => NaN))
      by (intros q; apply quantile_without_numbers, He).
    reflexivity.
  - rewrite length_binInterval. discriminate.
Qed.

(** What a successful run of the binning cell says of its edges. *)
Lemma tide_intervals_some (tide_height : list fl) (intervals : list (option Z)) :
  Forall finite_or_nan tide_height ->
  tide_intervals tide_height = Some intervals ->
  exists qs b0 mid b9,
    (forall q, In q qs <-> In (Fin q) tide_height) /\
    binInterval tide_height = map Fin (b0 :: mid ++ [b9]) /\
    List.length mid = 8%nat /\
    (forall x, In x qs -> (b0 <= x <= b9)%Q) /\
    (exists m, In m qs /\ (b0 == m)%Q) /\
    (exists m, In m qs /\ (b9 == m)%Q) /\
    (forall x, In x (b0 :: mid) -> (x < b9)%Q) /\
    intervals = map (bin_of (binInterval tide_height) labels_1_to_9 true) tide_height.
Proof.
  intros Hall Hrun.
  destruct (kept_values tide_height Hall) as (qs & Hkept & Hin).
  destruct qs as [| q0 qs'] eqn:Eq.
  { rewrite tide_intervals_without_numbers in Hrun by exact Hkept. discriminate Hrun. }
  rewrite <- Eq in *.
  assert (Hne : qs <> []) by (rewrite Eq; discriminate).
  destruct (binInterval_of_numbers tide_height qs Hkept Hne)
    as (b0 & mid & b9 & Hbins & Hmid & Hbetween & Hm0 & Hm9).
  unfold tide_intervals in Hrun. apply cut_some in Hrun.
  destruct Hrun as (Hdec & Hdup & Hmap).
  destruct Hdup as [Hdup | Hlen];
    [ | rewrite length_binInterval in Hlen; discriminate Hlen ].
  exists qs, b0, mid, b9.
  repeat (split; [ assumption | ]).
  split; [ | exact Hmap ].
  rewrite Hbins in Hdec, Hdup.
  change (b0 :: mid ++ [b9]) with ((b0 :: mid) ++ [b9]) in Hdec, Hdup.
  intros x Hx.
  pose proof (ascending_before_last _ _ (decreases_false_ascending _ Hdec) x Hx) as Hle.
  pose proof (no_duplicate_of_last _ _ Hdup x Hx) as Hneq.
  lra.
Qed.

(** When the binning cell succeeds on tide heights that are numbers or
    NaN, every image gets one entry: an interval from 1 to 9 where the
    tide height is a number, and none where it is NaN (an image outside
    the range of the tide file). *)
Theorem every_tide_height_gets_an_interval :
  forall (tide_height : list fl) (intervals : list (option Z)),
    Forall finite_or_nan tide_height ->
    tide_intervals tide_height = Some intervals ->
    List.length intervals = List.length tide_height /\
    forall h interval,
      In (h, interval) (combine tide_height intervals) ->
      (h = NaN -> interval = None) /\
      (forall q, h = Fin q -> exists k, interval = Some k /\ 1 <= k <= 9).
Proof.
  intros hs intervals Hall Hrun.
  destruct (tide_intervals_some hs intervals Hall Hrun)
    as (qs & b0 & mid & b9 & Hin & Hbins & Hmid & Hbetween & _ & _ & _ & ->).
  split; [ apply length_map | ].
  intros h interval Hhi. apply In_combine_map in Hhi. destruct Hhi as [Hh ->].
  split.
  - intros ->. apply bin_of_nan.
  - intros q ->. rewrite Hbins.
    assert (Hq : (b0 <= q <= b9)%Q) by (apply Hbetween, Hin, Hh).
    destruct (bin_of_between b0 b9 q mid Hmid Hq) as [Hids Hbin].
    eexists. split; [ exact Hbin | lia ].
Qed.

Lemma every_tide_height_gets_an_interval_witness :
  exists intervals,
    tide_intervals [Fin (3 # 10); NaN; Fin (12 # 10); Fin (-5 # 10)] = Some intervals /\
    List.length intervals = 4%nat.
Proof.
  eexists. split; [ vm_compute; reflexivity | ].
  apply (every_tide_height_gets_an_interval
           [Fin (3 # 10); NaN; Fin (12 # 10); Fin (-5 # 10)]).
  - numbers_or_nan.
  - vm_compute. reflexivity.
Defined.

(** The intervals follow the tide: of two images of a successful run,
    the one with the lower tide height never has the higher interval. *)
Theorem intervals_follow_tide_height :
  forall (tide_height : list fl) (intervals : list (option Z)) (a b : Q) (ka kb : Z),
    Forall finite_or_nan tide_height ->
    tide_intervals tide_height = Some intervals ->
    In (Fin a, Some ka) (combine tide_height intervals) ->
    In (Fin b, Some kb) (combine tide_height intervals) ->
    (a <= b)%Q ->
    ka <= kb.
Proof.
  intros hs intervals a b ka kb Hall Hrun Ha Hb Hab.
  destruct (tide_intervals_some hs intervals Hall Hrun)
    as (qs & b0 & mid & b9 & Hin & Hbins & Hmid & Hbetween & _ & _ & _ & ->).
  apply In_combine_map in Ha, Hb. destruct Ha as [Ha Eka], Hb as [Hb Ekb].
  rewrite Hbins in Eka, Ekb.
  assert (Hqa : (b0 <= a <= b9)%Q) by (apply Hbetween, Hin, Ha).
  assert (Hqb : (b0 <= b <= b9)%Q) by (apply Hbetween, Hin, Hb).
  destruct (bin_of_between b0 b9 a mid Hmid Hqa) as [Hida Hbina].
  destruct (bin_of_between b0 b9 b mid Hmid Hqb) as [Hidb Hbinb].
  rewrite Hbina in Eka. rewrite Hbinb in Ekb.
  injection Eka as ->. injection Ekb as ->.
  apply inj_le.
  destruct (Qeq_bool a b0) eqn:Ea; [ apply Hidb | ].
  destruct (Qeq_bool b b0) eqn:Eb.
  - apply Qeq_bool_iff in Eb.
    assert (Qeq_bool a b0 = true) by (apply Qeq_bool_iff; lra). congruence.
  - exact (searchsorted_monotone (b0 :: mid ++ [b9]) a b Hab).
Qed.

Lemma intervals_follow_tide_height_witness :
  1 <= 5.
Proof.
  apply (intervals_follow_tide_height
           [Fin (3 # 10); NaN; Fin (12 # 10); Fin (-5 # 10)]
           [Some 5; None; Some 9; Some 1] (-5 # 10) (3 # 10) 1 5).
  - numbers_or_nan.
  - vm_compute. reflexivity.
  - simpl. tauto.
  - simpl. tauto.
  - unfold Qle. simpl. lia.
Defined.

Lemma bin_of_lowest (b0 b9 a : Q) (mid : list Q) :
  List.length mid = 8%nat -> (b0 <= a <= b9)%Q -> (a == b0)%Q ->
  bin_of (map Fin (b0 :: mid ++ [b9])) labels_1_to_9 true (Fin a) = Some 1.
Proof.
  intros Hmid Hq Heq.
  destruct (bin_of_between b0 b9 a mid Hmid Hq) as [_ Hbin].
  rewrite Hbin. apply Qeq_bool_iff in Heq. rewrite Heq. reflexivity.
Qed.

Lemma bin_of_highest (b0 b9 a : Q) (mid : list Q) :
  List.length mid = 8%nat -> (b0 <= a <= b9)%Q ->
  (forall x, In x (b0 :: mid) -> (x < b9)%Q) -> (a == b9)%Q ->
  bin_of (map Fin (b0 :: mid ++ [b9])) labels_1_to_9 true (Fin a) = Some 9.
Proof.
  intros Hmid Hq Hstrict Heq.
  destruct (bin_of_between b0 b9 a mid Hmid Hq) as [_ Hbin].
  rewrite Hbin.
  assert (Hb0 : (b0 < b9)%Q) by (apply Hstrict; left; reflexivity).
  destruct (Qeq_bool a b0) eqn:E.
  { apply Qeq_bool_iff in E. lra. }
  change (b0 :: mid ++ [b9]) with ((b0 :: mid) ++ [b9]).
  rewrite searchsorted_exact.
  - cbn [List.length]. rewrite Hmid. reflexivity.
  - intros x Hx. specialize (Hstrict x Hx). lra.
  - lra.
Qed.

(** The intervals that occur in a successful run: all from 1 to 9,
    with 1 and 9 among them. *)
Lemma intervals_that_occur (tide_height : list fl) (intervals : list (option Z)) :
  Forall finite_or_nan tide_height ->
  tide_intervals tide_height = Some intervals ->
  (forall k, In (Some k) intervals -> 1 <= k <= 9) /\
  In (Some 1) intervals /\ In (Some 9) intervals.
Proof.
  intros Hall Hrun.
  destruct (tide_intervals_some tide_height intervals Hall Hrun)
    as (qs & b0 & mid & b9 & Hin & Hbins & Hmid & Hbetween & Hm0 & Hm9 & Hstrict & ->).
  destruct Hm0 as (m0 & Hm0 & Eq0). destruct Hm9 as (m9 & Hm9 & Eq9).
  split; [ | split ].
  - intros k Hk. apply in_map_iff in Hk. destruct Hk as (h & Hbin & Hh).
    rewrite Forall_forall in Hall.
    destruct (Hall h Hh) as [-> | (q & ->)].
    { rewrite bin_of_nan in Hbin. discriminate Hbin. }
    rewrite Hbins in Hbin.
    assert (Hq : (b0 <= q <= b9)%Q) by (apply Hbetween, Hin, Hh).
    destruct (bin_of_between b0 b9 q mid Hmid Hq) as [Hids Hbin'].
    rewrite Hbin' in Hbin. injection Hbin as Hk. rewrite <- Hk.
    split; [ change 1 with (Z.of_nat 1) | change 9 with (Z.of_nat 9) ];
      apply inj_le, Hids.
  - apply in_map_iff. exists (Fin m0). split; [ | apply Hin, Hm0 ].
    rewrite Hbins. apply bin_of_lowest; [ exact Hmid | apply Hbetween, Hm0 | lra ].
  - apply in_map_iff. exists (Fin m9). split; [ | apply Hin, Hm9 ].
    rewrite Hbins.
    apply bin_of_highest; [ exact Hmid | apply Hbetween, Hm9 | exact Hstrict | lra ].
Qed.

(** In a successful run the image with the lowest tide is in interval 1
    and the image with the highest tide is in interval 9. *)
Theorem lowest_and_highest_tide_get_1_and_9 :
  forall (tide_height : list fl) (intervals : list (option Z)),
    Forall finite_or_nan tide_height ->
    tide_intervals tide_height = Some intervals ->
    (forall a, In (Fin a) tide_height ->
               (forall b, In (Fin b) tide_height -> (a <= b)%Q) ->
               In (Fin a, Some 1) (combine tide_height intervals)) /\
    (forall a, In (Fin a) tide_height ->
               (forall b, In (Fin b) tide_height -> (b <= a)%Q) ->
               In (Fin a, Some 9) (combine tide_height intervals)).
Proof.
  intros hs intervals Hall Hrun.
  destruct (tide_intervals_some hs intervals Hall Hrun)
    as (qs & b0 & mid & b9 & Hin & Hbins & Hmid & Hbetween & Hm0 & Hm9 & Hstrict & ->).
  destruct Hm0 as (m0 & Hm0 & Eq0). destruct Hm9 as (m9 & Hm9 & Eq9).
  split.
  - intros a Ha Hmin. apply In_combine_map. split; [ exact Ha | ].
    symmetry. rewrite Hbins.
    assert (Hq : (b0 <= a <= b9)%Q) by (apply Hbetween, Hin, Ha).
    apply bin_of_lowest; [ exact Hmid | exact Hq | ].
    assert ((a <= m0)%Q) by (apply Hmin, Hin, Hm0). lra.
  - intros a Ha Hmax. apply In_combine_map. split; [ exact Ha | ].
    symmetry. rewrite Hbins.
    assert (Hq : (b0 <= a <= b9)%Q) by (apply Hbetween, Hin, Ha).
    apply bin_of_highest; [ exact Hmid | exact Hq | exact Hstrict | ].
    assert ((m9 <= a)%Q) by (apply Hmax, Hin, Hm9). lra.
Qed.

Lemma lowest_and_highest_tide_get_1_and_9_witness :
  In (Fin (-5 # 10), Some 1)
     (combine [Fin (3 # 10); NaN; Fin (12 # 10); Fin (-5 # 10)]
              [Some 5; None; Some 9; Some 1]).
Proof.
  apply (lowest_and_highest_tide_get_1_and_9
           [Fin (3 # 10); NaN; Fin (12 # 10); Fin (-5 # 10)]).
  - numbers_or_nan.
  - vm_compute. reflexivity.
  - simpl. tauto.
  - intros b [H | [H | [H | [H | []]]]]; try discriminate H;
      injection H as <-; unfold Qle; simpl; lia.
Defined.

(** The binning cell raises when the tide heights that are numbers are
    all equal (a single image, for one) or when there is none: the ten
    edges coincide, and [pd.cut] refuses duplicate edges. *)
Theorem equal_tide_heights_cannot_be_binned :
  forall (tide_height : list fl) (v : Q),
    (forall h, In h tide_height -> h = NaN \/ exists q, h = Fin q /\ (q == v)%Q) ->
    tide_intervals tide_height = None.
Proof.
  intros hs v Heq.
  assert (Hall : Forall finite_or_nan hs).
  { apply Forall_forall. intros h Hh.
    destruct (Heq h Hh) as [-> | (q & -> & _)]; [ left; reflexivity | ].
    right. exists q. reflexivity. }
  destruct (kept_values hs Hall) as (qs & Hkept & Hin).
  destruct qs as [| q0 qs'] eqn:Eq.
  { apply tide_intervals_without_numbers, Hkept. }
  rewrite <- Eq in *.
  assert (Hne : qs <> []) by (rewrite Eq; discriminate).
  assert (Hv : forall x, In x qs -> (x == v)%Q).
  { intros x Hx. apply Hin in Hx. destruct (Heq _ Hx) as [H | (q & H & Hq)];
      [ discriminate H | ]. injection H as ->. exact Hq. }
  unfold tide_intervals. apply cut_duplicates;
    [ | rewrite length_binInterval; discriminate ].
  destruct linspace_ends as (p0 & ps & p9 & Hlin & _ & _ & Hps).
  unfold binInterval. rewrite Hlin.
  destruct ps as [| p1 ps]; [ discriminate Hps | ].
  destruct (quantile_of_equal hs qs p0 v Hkept Hne Hv) as (r0 & Hr0 & E0).
  destruct (quantile_of_equal hs qs p1 v Hkept Hne Hv) as (r1 & Hr1 & E1).
  cbn [map app has_duplicates existsb]. rewrite Hr0, Hr1.
  assert (Hsame : same_edge (Fin r0) (Fin r1) = true).
  { destruct (same_edge (Fin r0) (Fin r1)) eqn:E; [ reflexivity | ].
    apply same_edge_finite in E. exfalso. apply E. lra. }
  rewrite Hsame. reflexivity.
Qed.

Lemma equal_tide_heights_cannot_be_binned_witness :
  tide_intervals [Fin (7 # 10)] = None.
Proof.
  apply (equal_tide_heights_cannot_be_binned [Fin (7 # 10)] (7 # 10)).
  intros h [<- | []]. right. exists (7 # 10). split; reflexivity.
Defined.

(** *** Sorting by tide height *)

Lemma fle_total (x y : fl) :
  is_nan x = false -> is_nan y = false -> fle x y = false -> fle y x = true.
Proof.
  destruct x as [| | | a], y as [| | | b]; simpl; try congruence.
  intros _ _ H. apply Qle_bool_iff.
  destruct (Qlt_le_dec a b) as [Hlt | Hle]; [ | exact Hle ].
  assert (Qle_bool a b = true) by (apply Qle_bool_iff; lra). congruence.
Qed.

Lemma fle_trans (x y z : fl) : fle x y = true -> fle y z = true -> fle x z = true.
Proof.
  destruct x as [| | | a], y as [| | | b], z as [| | | c]; simpl; try congruence.
  rewrite !Qle_bool_iff. intros. lra.
Qed.

Lemma fle_not_nan (x y : fl) : fle x y = true -> is_nan x = false /\ is_nan y = false.
Proof. destruct x, y; simpl; try congruence; auto. Qed.

Lemma le_nan_last_total (x y : fl) :
  le_nan_last x y = false -> le_nan_last y x = true.
Proof.
  unfold le_nan_last. intros H. apply orb_false_iff in H. destruct H as [Hy Hxy].
  destruct (is_nan x) eqn:Ex; [ reflexivity | ].
  simpl. apply fle_total; assumption.
Qed.

Lemma le_nan_last_trans (x y z : fl) :
  le_nan_last x y = true -> le_nan_last y z = true -> le_nan_last x z = true.
Proof.
  unfold le_nan_last. intros Hxy Hyz.
  destruct (is_nan z) eqn:Ez; [ reflexivity | ].
  simpl in *. destruct (fle_not_nan _ _ Hyz) as [Hy _].
  rewrite Hy in Hxy. simpl in Hxy.
  exact (fle_trans _ _ _ Hxy Hyz).
Qed.

Lemma insert_ascending_by {A : Type} (le : A -> A -> bool) (x : A) (xs : list A) :
  (forall a b, le a b = false -> le b a = true) ->
  (forall a b c, le a b = true -> le b c = true -> le a c = true) ->
  ascending_by le xs -> ascending_by le (insert le x xs).
Proof.
  intros Htotal Htrans.
  induction xs as [| z xs IH]; intros Hasc.
  - simpl. split; [ intros y [] | exact I ].
  - destruct Hasc as [Hz Hrest]. simpl.
    destruct (le x z) eqn:E.
    + split; [ | split; assumption ].
      intros y [<- | Hy]; [ exact E | ].
      exact (Htrans _ _ _ E (Hz y Hy)).
    + split; [ | apply IH, Hrest ].
      intros y Hy. apply In_insert in Hy. destruct Hy as [-> | Hy].
      * apply Htotal, E.
      * apply Hz, Hy.
Qed.

Lemma sort_ascending_by {A : Type} (le : A -> A -> bool) (xs : list A) :
  (forall a b, le a b = false -> le b a = true) ->
  (forall a b c, le a b = true -> le b c = true -> le a c = true) ->
  ascending_by le (sort le xs).
Proof.
  intros Htotal Htrans.
  induction xs as [| x xs IH]; simpl; [ exact I | ].
  apply insert_ascending_by; assumption.
Qed.

Lemma insert_permutation {A : Type} (le : A -> A -> bool) (x : A) (xs : list A) :
  Permutation (insert le x xs) (x :: xs).
Proof.
  induction xs as [| z xs IH]; simpl; [ apply Permutation_refl | ].
  destruct (le x z); [ apply Permutation_refl | ].
  apply Permutation_trans with (z :: x :: xs);
    [ apply perm_skip, IH | apply perm_swap ].
Qed.

Lemma sort_permutation {A : Type} (le : A -> A -> bool) (xs : list A) :
  Permutation (sort le xs) xs.
Proof.
  induction xs as [| x xs IH]; simpl; [ apply perm_nil | ].
  apply Permutation_trans with (x :: sort le xs);
    [ apply insert_permutation | apply perm_skip, IH ].
Qed.

Lemma ascending_by_map {A B : Type} (le : A -> A -> bool) (le' : B -> B -> bool)
  (g : A -> B) (xs : list A) :
  (forall x y, In x xs -> In y xs -> le x y = true -> le' (g x) (g y) = true) ->
  ascending_by le xs -> ascending_by le' (map g xs).
Proof.
  induction xs as [| x xs IH]; intros Hmono Hasc; [ exact I | ].
  destruct Hasc as [Hx Hrest]. simpl. split.
  - intros y Hy. apply in_map_iff in Hy. destruct Hy as (y' & <- & Hy').
    apply Hmono; [ left; reflexivity | right; exact Hy' | apply Hx, Hy' ].
  - apply IH; [ | exact Hrest ].
    intros a b Ha Hb. apply Hmono; right; assumption.
Qed.

Lemma map_fst_combine {A B : Type} (xs : list A) (ys : list B) :
  List.length xs = List.length ys -> map fst (combine xs ys) = xs.
Proof.
  revert ys. induction xs as [| x xs IH]; intros [| y ys] H; try discriminate H;
    [ reflexivity | ].
  simpl. rewrite IH; [ reflexivity | ]. injection H as H. exact H.
Qed.

Lemma map_snd_combine {A B : Type} (xs : list A) (ys : list B) :
  List.length xs = List.length ys -> map snd (combine xs ys) = ys.
Proof.
  revert ys. induction xs as [| x xs IH]; intros [| y ys] H; try discriminate H;
    [ reflexivity | ].
  simpl. rewrite IH; [ reflexivity | ]. injection H as H. exact H.
Qed.

(** After a successful run of the binning cell the dataset holds every
    image once, and along its axis the intervals never go down: the
    images run from interval 1 to interval 9, those without a tide
    height (and so without an interval) last. *)
Theorem binning_orders_images_by_interval :
  forall (images : list (Z * fl)) (result : list ((Z * fl) * option Z)),
    Forall finite_or_nan (map snd images) ->
    binning_cell images = Some result ->
    Permutation (map fst result) images /\
    ascending_by interval_le (map snd result).
Proof.
  intros images result Hall Hrun.
  unfold binning_cell in Hrun.
  set (sorted := sortby_tide_height images) in *.
  assert (Hperm : Permutation sorted images) by apply sort_permutation.
  assert (Hall' : Forall finite_or_nan (map snd sorted)).
  { apply Forall_forall. intros h Hh.
    rewrite Forall_forall in Hall. apply Hall.
    apply in_map_iff in Hh. destruct Hh as (p & <- & Hp).
    apply in_map. apply (Permutation_in _ Hperm), Hp. }
  destruct (tide_intervals (map snd sorted)) as [intervals |] eqn:Ecut;
    [ | discriminate Hrun ].
  injection Hrun as <-.
  destruct (tide_intervals_some _ _ Hall' Ecut)
    as (qs & b0 & mid & b9 & Hin & Hbins & Hmid & Hbetween & _ & _ & _ & Hmap).
  assert (Hlen : List.length sorted = List.length intervals).
  { rewrite Hmap, !length_map. reflexivity. }
  rewrite map_fst_combine, map_snd_combine by exact Hlen.
  split; [ exact Hperm | ].
  rewrite Hmap, map_map.
  apply ascending_by_map with (le := fun a b => le_nan_last (snd a) (snd b)).
  - intros x y Hx Hy Hle.
    assert (Hhx : In (snd x) (map snd sorted)) by (apply in_map, Hx).
    assert (Hhy : In (snd y) (map snd sorted)) by (apply in_map, Hy).
    rewrite Forall_forall in Hall'.
    destruct (Hall' _ Hhy) as [Ey | (b & Ey)]; rewrite Ey in *.
    { rewrite bin_of_nan. destruct (bin_of _ _ _ _); reflexivity. }
    unfold le_nan_last in Hle. simpl in Hle.
    destruct (Hall' _ Hhx) as [Ex | (a & Ex)]; rewrite Ex in *;
      [ discriminate Hle | ].
    apply fle_finite in Hle.
    rewrite Hbins.
    assert (Hqa : (b0 <= a <= b9)%Q) by (apply Hbetween, Hin, Hhx).
    assert (Hqb : (b0 <= b <= b9)%Q) by (apply Hbetween, Hin, Hhy).
    destruct (bin_of_between b0 b9 a mid Hmid Hqa) as [Hida Hbina].
    destruct (bin_of_between b0 b9 b mid Hmid Hqb) as [Hidb Hbinb].
    rewrite Hbina, Hbinb. cbn [interval_le]. apply Z.leb_le, inj_le.
    destruct (Qeq_bool a b0) eqn:Ea; [ apply Hidb | ].
    destruct (Qeq_bool b b0) eqn:Eb.
    + apply Qeq_bool_iff in Eb.
      assert (Qeq_bool a b0 = true) by (apply Qeq_bool_iff; lra). congruence.
    + exact (searchsorted_monotone (b0 :: mid ++ [b9]) a b Hle).
  - apply sort_ascending_by.
    + intros a b. apply le_nan_last_total.
    + intros a b c. apply le_nan_last_trans.
Qed.

Lemma binning_orders_images_by_interval_witness :
  Permutation
    (map fst [(40, Fin (-5 # 10), Some 1); (10, Fin (3 # 10), Some 5);
              (30, Fin (12 # 10), Some 9); (20, NaN, None)])
    [(10, Fin (3 # 10)); (20, NaN); (30, Fin (12 # 10)); (40, Fin (-5 # 10))] /\
  ascending_by interval_le
    (map snd [(40, Fin (-5 # 10), Some 1); (10, Fin (3 # 10), Some 5);
              (30, Fin (12 # 10), Some 9); (20, NaN, None)]).
Proof.
  apply (binning_orders_images_by_interval
           [(10, Fin (3 # 10)); (20, NaN); (30, Fin (12 # 10)); (40, Fin (-5 # 10))]).
  - cbn [map snd]. numbers_or_nan.
  - vm_compute. reflexivity.
Defined.

(** ** Interpolating the tide file *)

Import TideFile.

Lemma In_insert_row (row r : Z * Q) (rows : list (Z * Q)) :
  In r (insert_row row rows) <-> r = row \/ In r rows.
Proof.
  induction rows as [| a rows IH]; simpl.
  - intuition congruence.
  - destruct (fst row <=? fst a); simpl; [ intuition congruence | ].
    rewrite IH. intuition congruence.
Qed.

Lemma In_sortby_time (r : Z * Q) (rows : list (Z * Q)) :
  In r (sortby_time rows) <-> In r rows.
Proof.
  induction rows as [| a rows IH]; simpl; [ tauto | ].
  rewrite In_insert_row, IH. intuition congruence.
Qed.

(** Rows that are in increasing order of time are left as they are. *)
Lemma sortby_time_increasing (rows : list (Z * Q)) :
  increasing_times rows -> sortby_time rows = rows.
Proof.
  induction rows as [| a rows IH]; intros Hinc; [ reflexivity | ].
  destruct Hinc as [Hlater Hinc]. cbn [sortby_time fold_right].
  fold (sortby_time rows). rewrite (IH Hinc).
  destruct rows as [| b rows']; [ reflexivity | ].
  cbn [insert_row].
  assert (fst a < fst b) by (apply Hlater; left; reflexivity).
  destruct (Z.leb_spec (fst a) (fst b)); [ reflexivity | lia ].
Qed.

(** What the tagging cell writes, when it runs. *)
Lemma tagged_heights (tide_data : list (Z * Q)) (landsat_ds tagged : dataset)
  (tide_height : list fl) :
  tag_from_file tide_data landsat_ds = Some tagged ->
  get_var tagged "tide_height" = Some tide_height ->
  tide_height = map (interp1 (sortby_time tide_data)) (time landsat_ds).
Proof.
  intros Hrun Hget. apply tag_from_file_some in Hrun.
  destruct Hrun as (_ & _ & _ & ->).
  rewrite tagged_values in Hget. injection Hget as <-. reflexivity.
Qed.

Lemma interp1_finite_or_nan (tide_data : list (Z * Q)) (t : Z) :
  finite_or_nan (interp1 tide_data t).
Proof.
  induction tide_data as [| [t0 h0] rest IH]; [ left; reflexivity | ].
  cbn [interp1]. destruct rest as [| [t1 h1] rest'].
  - destruct (t =? t0); [ right; eexists; reflexivity | left; reflexivity ].
  - destruct ((t0 <=? t) && (t <=? t1)); [ | exact IH ].
    destruct (t0 =? t1); right; eexists; reflexivity.
Qed.

(** The tide heights the tagging cell writes are numbers or NaN. *)
Lemma tagged_heights_finite_or_nan (tide_data : list (Z * Q)) (landsat_ds : dataset)
  (tagged : dataset) (tide_height : list fl) :
  tag_from_file tide_data landsat_ds = Some tagged ->
  get_var tagged "tide_height" = Some tide_height ->
  Forall finite_or_nan tide_height.
Proof.
  intros Hrun Hget. rewrite (tagged_heights _ _ _ _ Hrun Hget).
  apply Forall_forall. intros h Hh. apply in_map_iff in Hh.
  destruct Hh as (t & <- & _). apply interp1_finite_or_nan.
Qed.

Lemma interp1_before (tide_data : list (Z * Q)) (t : Z) :
  (forall row, In row tide_data -> t < fst row) -> interp1 tide_data t = NaN.
Proof.
  induction tide_data as [| [t0 h0] rest IH]; intros Hall; [ reflexivity | ].
  assert (H0 : t < t0) by (apply (Hall (t0, h0)); left; reflexivity).
  cbn [interp1]. destruct rest as [| [t1 h1] rest'].
  - destruct (Z.eqb_spec t t0); [ lia | reflexivity ].
  - destruct (Z.leb_spec t0 t); [ lia | ]. cbn [andb].
    apply IH. intros row Hrow. apply Hall. right. exact Hrow.
Qed.

Lemma interp1_after (tide_data : list (Z * Q)) (t : Z) :
  (forall row, In row tide_data -> fst row < t) -> interp1 tide_data t = NaN.
Proof.
  induction tide_data as [| [t0 h0] rest IH]; intros Hall; [ reflexivity | ].
  assert (H0 : t0 < t) by (apply (Hall (t0, h0)); left; reflexivity).
  cbn [interp1]. destruct rest as [| [t1 h1] rest'].
  - destruct (Z.eqb_spec t t0); [ lia | reflexivity ].
  - assert (H1 : t1 < t) by (apply (Hall (t1, h1)); right; left; reflexivity).
    destruct (Z.leb_spec t t1); [ lia | ]. rewrite andb_false_r.
    apply IH. intros row Hrow. apply Hall. right. exact Hrow.
Qed.

(** An image taken before the first or after the last row of the tide
    file gets no tide height: the tagging cell writes NaN for it. *)
Theorem image_outside_tide_file_gets_nan :
  forall (tide_data : list (Z * Q)) (landsat_ds tagged : dataset)
         (tide_height : list fl) (t : Z) (h : fl),
    tag_from_file tide_data landsat_ds = Some tagged ->
    get_var tagged "tide_height" = Some tide_height ->
    In (t, h) (combine (time landsat_ds) tide_height) ->
    (forall row, In row tide_data -> t < fst row) \/
    (forall row, In row tide_data -> fst row < t) ->
    h = NaN.
Proof.
  intros tide_data ds tagged hs t h Hrun Hget Hin Hout.
  rewrite (tagged_heights _ _ _ _ Hrun Hget) in Hin.
  apply In_combine_map in Hin. destruct Hin as [_ ->].
  destruct Hout as [Hout | Hout];
    [ apply interp1_before | apply interp1_after ];
    intros row Hrow; apply Hout, In_sortby_time, Hrow.
Qed.

Lemma image_outside_tide_file_gets_nan_witness :
  interp1 (sortby_time [(200, 3 # 2); (100, 1 # 2)]) 250 = NaN.
Proof.
  apply (image_outside_tide_file_gets_nan
           [(200, 3 # 2); (100, 1 # 2)]
           {| time := [150; 250]; data_vars := [] |}
           (set_var {| time := [150; 250]; data_vars := [] |} "tide_height"
              (map (fun t => (t, interp1 (sortby_time [(200, 3 # 2); (100, 1 # 2)]) t))
                   [150; 250]))
           (map (interp1 (sortby_time [(200, 3 # 2); (100, 1 # 2)])) [150; 250]) 250).
  - reflexivity.
  - reflexivity.
  - simpl. tauto.
  - right. intros row [<- | [<- | []]]; simpl; lia.
Defined.

Lemma between_heights (h0 h1 lo hi : Q) (t0 t1 t : Z) :
  t0 <= t <= t1 -> t0 < t1 ->
  (lo <= h0 <= hi)%Q -> (lo <= h1 <= hi)%Q ->
  (lo <= h0 + (h1 - h0) * inject_Z (t - t0) / inject_Z (t1 - t0) <= hi)%Q.
Proof.
  intros Ht Hlt H0 H1.
  set (s := (inject_Z (t - t0) / inject_Z (t1 - t0))%Q).
  assert (Hd : (0 < inject_Z (t1 - t0))%Q).
  { change 0%Q with (inject_Z 0). rewrite <- Zlt_Qlt. lia. }
  assert (Hn0 : (0 <= inject_Z (t - t0))%Q).
  { change 0%Q with (inject_Z 0). rewrite <- Zle_Qle. lia. }
  assert (Hn1 : (inject_Z (t - t0) <= inject_Z (t1 - t0))%Q).
  { rewrite <- Zle_Qle. lia. }
  assert (Hs0 : (0 <= s)%Q).
  { unfold s. apply Qle_shift_div_l; [ exact Hd | lra ]. }
  assert (Hs1 : (s <= 1)%Q).
  { unfold s. apply Qle_shift_div_r; [ exact Hd | lra ]. }
  assert (Heq : (h0 + (h1 - h0) * inject_Z (t - t0) / inject_Z (t1 - t0)
                 == h0 * (1 - s) + h1 * s)%Q).
  { unfold s. field. lra. }
  rewrite Heq. split; nra.
Qed.

Lemma interp1_inside (tide_data : list (Z * Q)) (t : Z) (lo hi : Q) :
  increasing_times tide_data ->
  (forall row, In row tide_data -> (lo <= snd row <= hi)%Q) ->
  (exists first, In first tide_data /\ fst first <= t) ->
  (exists last, In last tide_data /\ t <= fst last) ->
  exists r, interp1 tide_data t = Fin r /\ (lo <= r <= hi)%Q.
Proof.
  induction tide_data as [| [t0 h0] rest IH]; intros Hinc Hbound Hfirst Hlast.
  - destruct Hfirst as (? & [] & _).
  - destruct Hinc as [Hlater Hinc].
    assert (Hb0 : (lo <= h0 <= hi)%Q) by (apply (Hbound (t0, h0)); left; reflexivity).
    assert (Ht0 : t0 <= t).
    { destruct Hfirst as (first & [<- | Hin] & Hle); [ exact Hle | ].
      specialize (Hlater first Hin). simpl in Hlater. lia. }
    cbn [interp1]. destruct rest as [| [t1 h1] rest'].
    + destruct Hlast as (last & [<- | []] & Hle). simpl in Hle.
      destruct (Z.eqb_spec t t0); [ | lia ].
      exists h0. split; [ reflexivity | exact Hb0 ].
    + assert (Hb1 : (lo <= h1 <= hi)%Q)
        by (apply (Hbound (t1, h1)); right; left; reflexivity).
      assert (H01 : t0 < t1) by (apply (Hlater (t1, h1)); left; reflexivity).
      destruct (Z.leb_spec t0 t); [ | lia ]. cbn [andb].
      destruct (Z.leb_spec t t1).
      * destruct (Z.eqb_spec t0 t1); [ lia | ].
        eexists. split; [ reflexivity | ].
        apply between_heights; [ lia | exact H01 | exact Hb0 | exact Hb1 ].
      * apply IH.
        -- exact Hinc.
        -- intros row Hrow. apply Hbound. right. exact Hrow.
        -- exists (t1, h1). split; [ left; reflexivity | simpl; lia ].
        -- destruct Hlast as (last & [<- | Hin] & Hle); [ simpl in Hle; lia | ].
           exists last. split; [ exact Hin | exact Hle ].
Qed.

(** An image taken within the time span of the tide file, the rows of
    which are in the order of their times, gets a number, and that
    number lies between the lowest and the highest tide of the file. *)
Theorem interpolated_tide_lies_between_file_tides :
  forall (tide_data : list (Z * Q)) (landsat_ds tagged : dataset)
         (tide_height : list fl) (t : Z) (h : fl) (lo hi : Q),
    increasing_times tide_data ->
    (forall row, In row tide_data -> (lo <= snd row <= hi)%Q) ->
    tag_from_file tide_data landsat_ds = Some tagged ->
    get_var tagged "tide_height" = Some tide_height ->
    In (t, h) (combine (time landsat_ds) tide_height) ->
    (exists first, In first tide_data /\ fst first <= t) ->
    (exists last, In last tide_data /\ t <= fst last) ->
    exists r, h = Fin r /\ (lo <= r <= hi)%Q.
Proof.
  intros tide_data ds tagged hs t h lo hi Hinc Hbound Hrun Hget Hin Hfirst Hlast.
  rewrite (tagged_heights _ _ _ _ Hrun Hget) in Hin.
  apply In_combine_map in Hin. destruct Hin as [_ ->].
  rewrite (sortby_time_increasing _ Hinc).
  apply interp1_inside; assumption.
Qed.

Lemma interpolated_tide_lies_between_file_tides_witness :
  exists r, interp1 (sortby_time [(100, 1 # 2); (200, 3 # 2)]) 150 = Fin r /\
            (1 # 2 <= r <= 3 # 2)%Q.
Proof.
  apply (interpolated_tide_lies_between_file_tides
           [(100, 1 # 2); (200, 3 # 2)]
           {| time := [150; 250]; data_vars := [] |}
           (set_var {| time := [150; 250]; data_vars := [] |} "tide_height"
              (map (fun t => (t, interp1 (sortby_time [(100, 1 # 2); (200, 3 # 2)]) t))
                   [150; 250]))
           (map (interp1 (sortby_time [(100, 1 # 2); (200, 3 # 2)])) [150; 250]) 150).
  - simpl. repeat split; try tauto. intros later [<- | []]. simpl. lia.
  - intros row [<- | [<- | []]]; simpl; split; unfold Qle; simpl; lia.
  - reflexivity.
  - reflexivity.
  - simpl. tauto.
  - exists (100, 1 # 2). simpl. split; [ tauto | lia ].
  - exists (200, 3 # 2). simpl. split; [ tauto | lia ].
Defined.

Lemma interp1_at_row (tide_data : list (Z * Q)) (t : Z) (h : Q) :
  increasing_times tide_data -> In (t, h) tide_data ->
  exists r, interp1 tide_data t = Fin r /\ (r == h)%Q.
Proof.
  induction tide_data as [| [t0 h0] rest IH]; intros Hinc Hin; [ destruct Hin | ].
  destruct Hinc as [Hlater Hinc].
  cbn [interp1]. destruct rest as [| [t1 h1] rest'].
  - destruct Hin as [Heq | []]. injection Heq as <- <-.
    rewrite Z.eqb_refl. exists h0. split; reflexivity.
  - assert (H01 : t0 < t1) by (apply (Hlater (t1, h1)); left; reflexivity).
    assert (Hd : ~ (inject_Z (t1 - t0) == 0)%Q).
    { change 0%Q with (inject_Z 0). rewrite inject_Z_injective. lia. }
    destruct (Z.eqb_spec t0 t1); [ lia | ].
    destruct Hin as [Heq | [Heq | Hin]].
    + injection Heq as <- <-.
      destruct (Z.leb_spec t0 t0); [ | lia ].
      destruct (Z.leb_spec t0 t1); [ | lia ]. cbn [andb].
      eexists. split; [ reflexivity | ].
      rewrite Z.sub_diag. change (inject_Z 0) with 0%Q. field. exact Hd.
    + injection Heq as <- <-.
      destruct (Z.leb_spec t0 t1); [ | lia ].
      destruct (Z.leb_spec t1 t1); [ | lia ]. cbn [andb].
      eexists. split; [ reflexivity | ]. field. exact Hd.
    + assert (Ht : t1 < t).
      { destruct Hinc as [Hl _]. exact (Hl (t, h) Hin). }
      destruct (Z.leb_spec t t1); [ lia | ]. rewrite andb_false_r.
      apply IH; [ exact Hinc | right; exact Hin ].
Qed.

(** An image taken at the time of a row of the tide file, the rows of
    which are in the order of their times, gets the tide height of that
    row. *)
Theorem tide_at_a_file_time_is_the_file_value :
  forall (tide_data : list (Z * Q)) (landsat_ds tagged : dataset)
         (tide_height : list fl) (t : Z) (file_height : Q) (h : fl),
    increasing_times tide_data ->
    In (t, file_height) tide_data ->
    tag_from_file tide_data landsat_ds = Some tagged ->
    get_var tagged "tide_height" = Some tide_height ->
    In (t, h) (combine (time landsat_ds) tide_height) ->
    exists r, h = Fin r /\ (r == file_height)%Q.
Proof.
  intros tide_data ds tagged hs t fh h Hinc Hrow Hrun Hget Hin.
  rewrite (tagged_heights _ _ _ _ Hrun Hget) in Hin.
  apply In_combine_map in Hin. destruct Hin as [_ ->].
  rewrite (sortby_time_increasing _ Hinc).
  apply interp1_at_row; assumption.
Qed.

Lemma tide_at_a_file_time_is_the_file_value_witness :
  exists r, interp1 (sortby_time [(100, 1 # 2); (200, 3 # 2); (300, 1 # 1)]) 200 = Fin r /\
            (r == 3 # 2)%Q.
Proof.
  apply (tide_at_a_file_time_is_the_file_value
           [(100, 1 # 2); (200, 3 # 2); (300, 1 # 1)]
           {| time := [200]; data_vars := [] |}
           (set_var {| time := [200]; data_vars := [] |} "tide_height"
              (map (fun t => (t, interp1 (sortby_time
                                   [(100, 1 # 2); (200, 3 # 2); (300, 1 # 1)]) t)) [200]))
           (map (interp1 (sortby_time [(100, 1 # 2); (200, 3 # 2); (300, 1 # 1)])) [200])
           200).
  - cbn [increasing_times]. repeat split; intros later Hl; simpl in Hl;
      repeat (destruct Hl as [<- | Hl]; [ simpl; lia | ]); destruct Hl.
  - simpl. tauto.
  - reflexivity.
  - reflexivity.
  - simpl. tauto.
Defined.

(** ** The groups of tidal intervals *)

Import IntervalGroups.

Lemma In_tide_interval_coordinate (intervals : list (option Z)) (k : Z) :
  In k (tide_interval_coordinate intervals) <-> In (Some k) intervals.
Proof.
  unfold tide_interval_coordinate. rewrite In_sort, nodup_In, in_flat_map. split.
  - intros (o & Ho & Hk). destruct o as [j |]; simpl in Hk; [ | destruct Hk ].
    destruct Hk as [<- | []]. exact Ho.
  - intros H. exists (Some k). split; [ exact H | left; reflexivity ].
Qed.

Lemma tide_interval_coordinate_ascending (intervals : list (option Z)) :
  ascending_by Z.leb (tide_interval_coordinate intervals).
Proof.
  apply sort_ascending_by.
  - intros a b H. apply Z.leb_le. apply Z.leb_gt in H. lia.
  - intros a b c H1 H2. apply Z.leb_le. apply Z.leb_le in H1, H2. lia.
Qed.

Lemma ascending_by_before_last {A : Type} (le : A -> A -> bool) (pre : list A) (x : A) :
  ascending_by le (pre ++ [x]) -> forall y, In y pre -> le y x = true.
Proof.
  induction pre as [| a pre IH]; intros Hasc y Hy; [ destruct Hy | ].
  destruct Hasc as [Ha Hrest].
  destruct Hy as [<- | Hy]; [ | apply IH; assumption ].
  apply Ha, in_or_app. right. left. reflexivity.
Qed.

(** After a successful run of the binning cell the grouped dataset has
    at most nine intervals, its first is interval 1 and its last is
    interval 9: [isel(tide_interval=0)] and [isel(tide_interval=-1)]
    pick the lowest and the highest tide, and [sel(tide_interval=1)]
    finds its interval. *)
Theorem first_and_last_group_are_1_and_9 :
  forall (tide_height : list fl) (intervals : list (option Z)),
    Forall finite_or_nan tide_height ->
    tide_intervals tide_height = Some intervals ->
    isel_first (tide_interval_coordinate intervals) = Some 1 /\
    isel_last (tide_interval_coordinate intervals) = Some 9 /\
    sel_interval (tide_interval_coordinate intervals) 1 = Some 1 /\
    (List.length (tide_interval_coordinate intervals) <= 9)%nat.
Proof.
  intros hs intervals Hall Hrun.
  destruct (intervals_that_occur hs intervals Hall Hrun) as (Hrange & H1 & H9).
  pose proof (tide_interval_coordinate_ascending intervals) as Hasc.
  pose proof (In_tide_interval_coordinate intervals) as Hin.
  set (coordinate := tide_interval_coordinate intervals) in *.
  assert (Hfirst : isel_first coordinate = Some 1).
  { unfold isel_first. destruct coordinate as [| c rest] eqn:Ec.
    - apply Hin in H1. destruct H1.
    - cbn [hd_error]. f_equal.
      assert (Hc : 1 <= c <= 9) by (apply Hrange, Hin; left; reflexivity).
      destruct Hasc as [Hle _].
      apply Hin in H1. destruct H1 as [<- | H1]; [ reflexivity | ].
      specialize (Hle 1 H1). apply Z.leb_le in Hle. lia. }
  split; [ exact Hfirst | split; [ | split ] ].
  - unfold isel_last. destruct (rev coordinate) as [| c rest] eqn:Er.
    + apply Hin in H9. apply in_rev in H9. rewrite Er in H9. destruct H9.
    + cbn [hd_error]. f_equal.
      assert (Hcoord : coordinate = rev rest ++ [c]).
      { rewrite <- (rev_involutive coordinate), Er. reflexivity. }
      assert (Hc : 1 <= c <= 9).
      { apply Hrange, Hin. rewrite Hcoord. apply in_or_app. right. left. reflexivity. }
      apply Hin in H9. rewrite Hcoord in H9, Hasc.
      apply in_app_or in H9. destruct H9 as [H9 | [<- | []]]; [ | reflexivity ].
      pose proof (ascending_by_before_last Z.leb _ _ Hasc 9 H9) as Hle.
      apply Z.leb_le in Hle. lia.
  - unfold sel_interval, isel_first in *.
    destruct coordinate as [| c rest]; [ discriminate Hfirst | ].
    injection Hfirst as ->. reflexivity.
  - assert (Hnd : NoDup coordinate).
    { unfold coordinate, tide_interval_coordinate.
      apply (Permutation_NoDup (l := nodup Z.eq_dec (flat_map Lists.option_list intervals))).
      - apply Permutation_sym, sort_permutation.
      - apply NoDup_nodup. }
    assert (Hincl : incl coordinate labels_1_to_9).
    { intros k Hk. apply Hin, Hrange in Hk.
      unfold labels_1_to_9. apply in_map_iff. exists (Z.to_nat k).
      split; [ lia | apply in_seq; lia ]. }
    pose proof (NoDup_incl_length Hnd Hincl) as Hlen.
    exact Hlen.
Qed.

Lemma first_and_last_group_are_1_and_9_witness :
  isel_first (tide_interval_coordinate [Some 5%Z; None; Some 9%Z; Some 1%Z]) = Some 1%Z /\
  isel_last (tide_interval_coordinate [Some 5%Z; None; Some 9%Z; Some 1%Z]) = Some 9%Z /\
  sel_interval (tide_interval_coordinate [Some 5%Z; None; Some 9%Z; Some 1%Z]) 1 = Some 1%Z /\
  (List.length (tide_interval_coordinate [Some 5%Z; None; Some 9%Z; Some 1%Z]) <= 9)%nat.
Proof.
  apply (first_and_last_group_are_1_and_9
           [Fin (3 # 10); NaN; Fin (12 # 10); Fin (-5 # 10)]).
  - numbers_or_nan.
  - vm_compute. reflexivity.
Defined.

(** ** Forestry: the change maps *)

Import ForestryChange.

Lemma total_of_numbers (qs : list Q) :
  total (map Fin qs) = Fin (fold_right Qplus 0%Q qs).
Proof.
  unfold total. induction qs as [| q qs IH]; [ reflexivity | ].
  cbn [map fold_right]. rewrite IH. reflexivity.
Qed.

(** The mean of values that are numbers or NaN is a number when one of
    them is, and NaN otherwise. *)
Lemma mean_of_numbers_or_nan (xs : list fl) :
  Forall finite_or_nan xs ->
  (exists m, mean xs = Fin m /\ exists q, In (Fin q) xs) \/
  (mean xs = NaN /\ forall q, ~ In (Fin q) xs).
Proof.
  intros Hall. destruct (kept_values xs Hall) as (qs & Hkept & Hin).
  unfold mean. rewrite Hkept.
  destruct qs as [| q0 qs'].
  - right. split; [ reflexivity | ]. intros q Hq. apply Hin in Hq. destruct Hq.
  - left.
    change (map Fin (q0 :: qs')) with (Fin q0 :: map Fin qs') at 1.
    cbv iota.
    change (Fin q0 :: map Fin qs') with (map Fin (q0 :: qs')).
    rewrite total_of_numbers, length_map. unfold fdiv.
    rewrite Qeq_bool_false_of_positive.
    + eexists. split; [ reflexivity | ]. exists q0. apply Hin. left. reflexivity.
    + change 0%Q with (inject_Z 0). rewrite <- Zlt_Qlt. simpl List.length. lia.
Qed.

Lemma sample_values (f : ForestrySplit.timestep fl -> bool) (ds_s2 : pixel_series) :
  Forall finite_or_nan (map ForestrySplit.NDVI ds_s2) ->
  Forall finite_or_nan (map ForestrySplit.NDVI (filter f ds_s2)).
Proof.
  rewrite !Forall_forall. intros Hall h Hh.
  apply in_map_iff in Hh. destruct Hh as (t & <- & Ht).
  apply filter_In in Ht. apply Hall, in_map, Ht.
Qed.

(** The change at a pixel is a number when both samples hold a number
    for the pixel, and NaN otherwise, as when the baseline date lies
    before the first or after the last image; the significant change is
    the change where the p-value is below the significance level and
    NaN elsewhere, also where the p-value is NaN. *)
Theorem change_maps_need_both_samples :
  forall (ds_s2 : pixel_series) (time_baseline : Z) (p_val : fl),
    Forall finite_or_nan (map ForestrySplit.NDVI ds_s2) ->
    let in_baseline :=
      exists t q, In t ds_s2 /\ ForestrySplit.time t <= time_baseline /\
                  ForestrySplit.NDVI t = Fin q in
    let in_postbaseline :=
      exists t q, In t ds_s2 /\ ForestrySplit.time t > time_baseline /\
                  ForestrySplit.NDVI t = Fin q in
    (in_baseline /\ in_postbaseline -> exists d, diff_mean ds_s2 time_baseline = Fin d) /\
    (~ (in_baseline /\ in_postbaseline) -> diff_mean ds_s2 time_baseline = NaN) /\
    sig_diff_mean ds_s2 time_baseline p_val =
      (if flt p_val sig_level then diff_mean ds_s2 time_baseline else NaN).
Proof.
  intros ds tb p Hall in_baseline in_postbaseline.
  unfold diff_mean, sig_diff_mean, mean_over_time,
    ForestrySplit.baseline_sample, ForestrySplit.postbaseline_sample.
  rewrite !sel_mask_filter.
  set (before := filter (fun t => ForestrySplit.time t <=? tb) ds).
  set (after := filter (fun t => ForestrySplit.time t >? tb) ds).
  pose proof (mean_of_numbers_or_nan (map ForestrySplit.NDVI before)
                (sample_values _ ds Hall)) as Hb.
  pose proof (mean_of_numbers_or_nan (map ForestrySplit.NDVI after)
                (sample_values _ ds Hall)) as Ha.
  assert (Hbase : in_baseline <-> exists q, In (Fin q) (map ForestrySplit.NDVI before)).
  { unfold in_baseline, before. split.
    - intros (t & q & Ht & Hle & Hq). exists q. rewrite <- Hq. apply in_map.
      apply filter_In. split; [ exact Ht | apply Z.leb_le, Hle ].
    - intros (q & Hq). apply in_map_iff in Hq. destruct Hq as (t & Hq & Ht).
      apply filter_In in Ht. destruct Ht as [Ht Hle]. apply Z.leb_le in Hle.
      exists t, q. auto. }
  assert (Hpost : in_postbaseline <-> exists q, In (Fin q) (map ForestrySplit.NDVI after)).
  { unfold in_postbaseline, after. split.
    - intros (t & q & Ht & Hgt & Hq). exists q. rewrite <- Hq. apply in_map.
      apply filter_In. split; [ exact Ht | apply Z.gtb_lt; lia ].
    - intros (q & Hq). apply in_map_iff in Hq. destruct Hq as (t & Hq & Ht).
      apply filter_In in Ht. destruct Ht as [Ht Hgt]. apply Z.gtb_lt in Hgt.
      exists t, q. repeat split; [ exact Ht | lia | exact Hq ]. }
  split; [ | split ].
  - intros [Hinb Hinp].
    apply Hbase in Hinb. apply Hpost in Hinp.
    destruct Hb as [(mb & -> & _) | (_ & Hnone)];
      [ | destruct Hinb as (q & Hq); destruct (Hnone q Hq) ].
    destruct Ha as [(ma & -> & _) | (_ & Hnone)];
      [ | destruct Hinp as (q & Hq); destruct (Hnone q Hq) ].
    eexists. reflexivity.
  - intros Hnot.
    destruct Ha as [(ma & -> & Hqa) | (-> & _)]; [ | reflexivity ].
    destruct Hb as [(mb & -> & Hqb) | (-> & _)]; [ | reflexivity ].
    exfalso. apply Hnot. split; [ apply Hbase, Hqb | apply Hpost, Hqa ].
  - destruct (flt p sig_level); reflexivity.
Qed.

Lemma change_maps_need_both_samples_witness :
  diff_mean [ {| ForestrySplit.time := 10; ForestrySplit.NDVI := Fin (8 # 10) |};
              {| ForestrySplit.time := 20; ForestrySplit.NDVI := NaN |};
              {| ForestrySplit.time := 30; ForestrySplit.NDVI := Fin (2 # 10) |} ] 5
  = NaN.
Proof.
  refine (proj1 (proj2 (change_maps_need_both_samples
           [ {| ForestrySplit.time := 10; ForestrySplit.NDVI := Fin (8 # 10) |};
             {| ForestrySplit.time := 20; ForestrySplit.NDVI := NaN |};
             {| ForestrySplit.time := 30; ForestrySplit.NDVI := Fin (2 # 10) |} ] 5 NaN _)) _).
  - cbn [map ForestrySplit.NDVI]. numbers_or_nan.
  - intros [(t & q & Ht & Hle & _) _].
    destruct Ht as [<- | [<- | [<- | []]]]; simpl in Hle; lia.
Defined.
